(** * RFP Simulator: the calculation engine of [rfp_simulator.py]

    A shallow embedding of the helper functions of the Streamlit script
    ([per_solution_table], [calculate_costs], [fmt_money],
    [to_excel_bytes]), of the check boxes of its form, and of the
    validation block and the financial summary of its [Calculate] branch,
    with the properties of the specification stated against them and
    further properties of the code after those.

    Python values are modelled as the script uses them: an [int] is a [Z]
    (unbounded), a [float] is an IEEE 754 binary64 value of the Standard
    Library's [SpecFloat], a [str] is a [string] read one character per
    [ascii] (the characters of code point 0 to 255), a [dict] literal is
    an association list in declaration order, a data frame is the list of
    its rows, and an operation that can raise returns a [result]. The
    workbook writer is modelled with what it does to a sheet name (the
    look-up by name, the engine's checks on a new name) and to a frame
    too large for a sheet; [writer.save] is the method of pandas 1. Page
    rendering, widget state and the PDF export are outside the embedding;
    so is the byte encoding of the workbook, which belongs to the
    spreadsheet engine: a saved file is given by the workbook it holds. *)

From Stdlib Require Import ZArith List String Ascii Bool Lia DecimalString DecimalN.
From Stdlib Require Import SpecFloat Zpower Permutation.
Import ListNotations.

Open Scope string_scope.
Open Scope list_scope.
Open Scope Z_scope.

(** ** Exceptions and the error monad *)

Inductive exn : Type :=
| KeyError (key : string)
| OverflowError
| ZeroDivisionError
| TypeError
| ValueError
| NameError
| InvalidWorksheetName
| DuplicateWorksheetName.

Inductive result (A : Type) : Type :=
| Ok (a : A)
| Raise (e : exn).

Arguments Ok {A} a.
Arguments Raise {A} e.

Definition bind {A B : Type} (c : result A) (k : A -> result B) : result B :=
  match c with
  | Ok a => k a
  | Raise e => Raise e
  end.

Notation "x <- c ;; k" := (bind c (fun x => k))
  (at level 61, c at next level, right associativity).

Definition raises {A : Type} (c : result A) : Prop := exists e, c = Raise e.

(** [try: body / except: handler] with a bare [except]. *)
Definition try_except {A : Type} (body handler : result A) : result A :=
  match body with
  | Ok a => Ok a
  | Raise _ => handler
  end.

(** [for t in l: out.append(f(t))], stopping at the first exception. *)
Fixpoint for_each {A B : Type} (f : A -> result B) (l : list A) : result (list B) :=
  match l with
  | [] => Ok []
  | a :: l' => b <- f a ;; bs <- for_each f l' ;; Ok (b :: bs)
  end.

(** ** Configuration / assumptions *)

Definition CURRENCY : string := "$".
Definition ANNUAL_COST_PER_FTE : Z := 60000.

(** A [dict] literal with string keys and [int] values, in insertion order. *)
Definition dict : Type := list (string * Z).

(** [d[k]]: raises [KeyError] when the key is missing. *)
Fixpoint getitem (d : dict) (k : string) : result Z :=
  match d with
  | [] => Raise (KeyError k)
  | (k', v) :: d' => if String.eqb k k' then Ok v else getitem d' k
  end.

(** [d.get(k, default)]. *)
Fixpoint get (d : dict) (k : string) (default : Z) : Z :=
  match d with
  | [] => default
  | (k', v) :: d' => if String.eqb k k' then v else get d' k default
  end.

(** [list(d.keys())]. *)
Definition keys (d : dict) : list string := map fst d.

Definition TECH_LICENSE_COSTS : dict :=
  [ ("RPA", 5000); ("VBA", 0); ("Celonis", 10000);
    ("Soroco", 8000); ("Analytics", 7000); ("AI", 12000) ].

Definition DEV_COSTS : dict :=
  [ ("RPA", 20000); ("VBA", 1000); ("Celonis", 30000);
    ("Soroco", 25000); ("Analytics", 15000); ("AI", 40000) ].

Definition USER_LICENSE_PER_TECH : dict :=
  [ ("RPA", 100); ("VBA", 0); ("Celonis", 200);
    ("Soroco", 150); ("Analytics", 120); ("AI", 250) ].

Definition ALL_TECHS : list string := keys TECH_LICENSE_COSTS.

(** ** [per_solution_table] *)

(** [tech in selected_techs] for a list (or set) of strings. *)
Definition contains (selected_techs : list string) (tech : string) : bool :=
  existsb (String.eqb tech) selected_techs.

(** One row of the data frame; the fields are the column names. *)
Record row : Type := mkRow {
  Solution : string;
  License_Cost : Z;
  Development_Cost : Z;
  User_License_Cost : Z;
  Total_Cost : Z
}.

(** The body of the loop over [ALL_TECHS]. A conditional expression
    evaluates the subscript only when the technology is selected. *)
Definition solution_row (headcount : Z) (selected_techs : list string)
    (tech : string) : result row :=
  license_cost <-
    (if contains selected_techs tech then getitem TECH_LICENSE_COSTS tech else Ok 0) ;;
  dev_cost <-
    (if contains selected_techs tech then getitem DEV_COSTS tech else Ok 0) ;;
  user_license_cost <-
    (if contains selected_techs tech
     then (per_user <- getitem USER_LICENSE_PER_TECH tech ;; Ok (per_user * headcount))
     else Ok 0) ;;
  let total_cost := license_cost + dev_cost + user_license_cost in
  Ok (mkRow tech license_cost dev_cost user_license_cost total_cost).

(** [sum(r[col] for r in rows)]: the builtin starts from 0 and adds from
    the left. *)
Definition py_sum (xs : list Z) : Z := fold_left Z.add xs 0.

Definition totals_row (rows : list row) : row :=
  mkRow "Total Cost"
        (py_sum (map License_Cost rows))
        (py_sum (map Development_Cost rows))
        (py_sum (map User_License_Cost rows))
        (py_sum (map Total_Cost rows)).

Definition per_solution_table (headcount : Z) (selected_techs : list string)
    : result (list row) :=
  rows <- for_each (solution_row headcount selected_techs) ALL_TECHS ;;
  Ok (rows ++ [totals_row rows]).

(** ** Python floats

    A [float] is an IEEE 754 binary64 number: 53 bits of precision,
    infinities at exponent 1024, round to nearest even. *)

Definition prec : Z := 53.
Definition emax : Z := 1024.

Definition float : Type := spec_float.

(** [float(n)] for an [int]: the nearest double, or [OverflowError]
    ("int too large to convert to float") when it would not be finite. *)
Definition float_of_int (n : Z) : result float :=
  match binary_normalize prec emax n 0 false with
  | S754_infinity _ => Raise OverflowError
  | x => Ok x
  end.

(** The double nearest to the quotient of two integers; this is how a
    decimal literal or a decimal string denotes a [float]. *)
Definition float_of_ratio (num : Z) (den : positive) : float :=
  match num with
  | Z0 => S754_zero false
  | Zpos n =>
      let '(mz, ez, lz) := SFdiv_core_binary prec emax (Zpos n) 0 (Zpos den) 0 in
      binary_round_aux prec emax false mz ez lz
  | Zneg n =>
      let '(mz, ez, lz) := SFdiv_core_binary prec emax (Zpos n) 0 (Zpos den) 0 in
      binary_round_aux prec emax true mz ez lz
  end.

(** The literals [0.20] and [0.30]. *)
Definition IMPLEMENTATION_PCT : float := Eval vm_compute in float_of_ratio 20 100.
Definition SAVINGS_PCT : float := Eval vm_compute in float_of_ratio 30 100.

(** Mixed arithmetic converts the [int] operand first. *)
Definition int_mul_float (n : Z) (x : float) : result float :=
  a <- float_of_int n ;; Ok (SFmul prec emax a x).

Definition int_sub_float (n : Z) (x : float) : result float :=
  a <- float_of_int n ;; Ok (SFsub prec emax a x).

Definition float_add_int (x : float) (n : Z) : result float :=
  b <- float_of_int n ;; Ok (SFadd prec emax x b).

Definition float_is_zero (x : float) : bool :=
  match x with
  | S754_zero _ => true
  | _ => false
  end.

(** [x / y] on floats: [ZeroDivisionError] on a zero divisor. *)
Definition float_truediv (x y : float) : result float :=
  if float_is_zero y then Raise ZeroDivisionError else Ok (SFdiv prec emax x y).

(** [bool(x)]: a float is falsy exactly when it is a zero. *)
Definition float_truth (x : float) : bool := negb (float_is_zero x).

(** [x > 0] and [x <= 0] against the [int] zero: false on a NaN. *)
Definition float_gt_zero (x : float) : bool := SFltb (S754_zero false) x.
Definition float_le_zero (x : float) : bool := SFleb x (S754_zero false).

(** [0 <= x]. *)
Definition float_ge_zero (x : float) : bool := SFleb (S754_zero false) x.

(** ** [calculate_costs] *)

(** The returned dictionary; [payback_years] is [None] or a [float]. *)
Record costs : Type := mkCosts {
  headcount_cost : Z;
  implementation_cost : float;
  tech_cost : Z;
  annual_savings : float;
  net_annual_cost : float;
  payback_years : option float
}.

Definition calculate_costs (headcount : Z) (selected_techs : list string)
    : result costs :=
  let headcount_cost := headcount * ANNUAL_COST_PER_FTE in
  implementation_cost <- int_mul_float headcount_cost IMPLEMENTATION_PCT ;;
  annual_savings <- int_mul_float headcount_cost SAVINGS_PCT ;;
  let tech_cost := py_sum (map (fun t => get TECH_LICENSE_COSTS t 0) selected_techs) in
  labour_less_savings <- int_sub_float headcount_cost annual_savings ;;
  net_annual_cost <- float_add_int labour_less_savings tech_cost ;;
  payback_years <-
    (if float_truth annual_savings && float_gt_zero annual_savings
     then try_except
            (q <- float_truediv implementation_cost annual_savings ;; Ok (Some q))
            (Ok None)
     else Ok None) ;;
  Ok (mkCosts headcount_cost implementation_cost tech_cost annual_savings
              net_annual_cost payback_years).

(** ** [fmt_money] *)

(** The values [fmt_money] is handed: numbers, and whatever else a caller
    or a data frame cell may hold. *)
Inductive pyval : Type :=
| PyInt (n : Z)
| PyFloat (x : float)
| PyBool (b : bool)
| PyStr (s : string)
| PyNone.

(** Nearest integer of [m * 2^e], ties to even. *)
Definition round_half_even (m : positive) (e : Z) : Z :=
  match e with
  | Zneg k =>
      let d := Z.pow_pos 2 k in
      let q := Zpos m / d in
      let r := Zpos m mod d in
      match 2 * r ?= d with
      | Lt => q
      | Gt => q + 1
      | Eq => if Z.even q then q else q + 1
      end
  | _ => Zpos m * 2 ^ e
  end.

(** [round(x)] of a float: an [int]; a NaN raises [ValueError], an
    infinity [OverflowError]. *)
Definition float_round (x : float) : result Z :=
  match x with
  | S754_zero _ => Ok 0
  | S754_finite s m e => Ok (cond_Zopp s (round_half_even m e))
  | S754_infinity _ => Raise OverflowError
  | S754_nan => Raise ValueError
  end.

(** [int(round(x))]: [round] is defined on numbers only. *)
Definition int_round (x : pyval) : result Z :=
  match x with
  | PyInt n => Ok n
  | PyBool b => Ok (if b then 1 else 0)
  | PyFloat f => float_round f
  | PyStr _ => Raise TypeError
  | PyNone => Raise TypeError
  end.

(** Digits, least significant first, with a comma after every third one
    that has a successor. *)
Fixpoint group3 (rev_digits : list ascii) : list ascii :=
  match rev_digits with
  | a :: b :: c :: ((_ :: _) as more) => a :: b :: c :: ","%char :: group3 more
  | short => short
  end.

(** [f"{n:,}"] for an [int]: sign, then the decimal digits in groups of
    three. An interpreter that limits the digits of a conversion of an
    [int] to text (4300 by default from Python 3.11 on) raises
    [ValueError] beyond its limit, which [fmt_money] answers with its
    fallback; the limit is no part of this definition, and what is proved
    of the digits of an amount is stated for amounts within it. *)
Definition format_thousands (n : Z) : string :=
  let digits := list_ascii_of_string (NilZero.string_of_uint (N.to_uint (Z.abs_N n))) in
  let grouped := string_of_list_ascii (rev (group3 (rev digits))) in
  if n <? 0 then String.append "-" grouped else grouped.

Definition fmt_money (x : pyval) : result string :=
  try_except
    (n <- int_round x ;; Ok (String.append CURRENCY (format_thousands n)))
    (Ok (String.append CURRENCY "0")).

(** Inputs that are not numbers: a string, or nothing at all. *)
Definition non_numeric (x : pyval) : Prop :=
  match x with
  | PyStr _ | PyNone => True
  | _ => False
  end.

(** ** The validation block of the [Calculate] branch *)

(** Text is a [string] read one character per [ascii]: the characters of
    code point 0 to 255. Within that range the definitions below are the
    interpreter's: its whitespace, its decimal digits, its letter case.
    Characters from code point 256 on (other Unicode spaces and digits)
    have no counterpart here. *)

(** The whitespace [str.strip] removes: tab to carriage return, the four
    separators 28 to 31, the space, and the two whitespace characters
    between 128 and 255, next line (133) and no-break space (160). *)
Definition is_space (c : ascii) : bool :=
  let n := N_of_ascii c in
  ((9 <=? n) && (n <=? 13) || (28 <=? n) && (n <=? 32)
   || (n =? 133) || (n =? 160))%N.

(** The whitespace [float] skips around a number: the same, less the
    four separators 28 to 31, which it rejects. *)
Definition is_float_space (c : ascii) : bool :=
  let n := N_of_ascii c in
  ((9 <=? n) && (n <=? 13) || (n =? 32) || (n =? 133) || (n =? 160))%N.

Fixpoint lstrip (space : ascii -> bool) (l : list ascii) : list ascii :=
  match l with
  | c :: l' => if space c then lstrip space l' else l
  | [] => []
  end.

Definition strip_chars (space : ascii -> bool) (l : list ascii) : list ascii :=
  rev (lstrip space (rev (lstrip space l))).

(** [s.strip()]. *)
Definition strip (s : string) : string :=
  string_of_list_ascii (strip_chars is_space (list_ascii_of_string s)).

Definition is_digit (c : ascii) : bool :=
  let n := N_of_ascii c in ((48 <=? n) && (n <=? 57))%N.

Definition digit_value (c : ascii) : Z := Z.of_N (N_of_ascii c) - 48.

Definition to_lower (c : ascii) : ascii :=
  let n := N_of_ascii c in
  if ((65 <=? n) && (n <=? 90))%N then ascii_of_N (n + 32) else c.

(** The rest of a digit part: digits, each optionally preceded by one
    underscore. Returns the digits read and what follows them. *)
Fixpoint more_digits (l : list ascii) : list ascii * list ascii :=
  match l with
  | c :: l' =>
      if is_digit c then
        let (ds, rest) := more_digits l' in (c :: ds, rest)
      else if Ascii.eqb c "_" then
        match l' with
        | c' :: l'' =>
            if is_digit c' then
              let (ds, rest) := more_digits l'' in (c' :: ds, rest)
            else ([], l)
        | [] => ([], l)
        end
      else ([], l)
  | [] => ([], [])
  end.

(** A digit part: at least one digit. *)
Definition digitpart (l : list ascii) : option (list ascii * list ascii) :=
  match l with
  | c :: l' =>
      if is_digit c then
        let (ds, rest) := more_digits l' in Some (c :: ds, rest)
      else None
  | [] => None
  end.

Definition decimal_value (ds : list ascii) : Z :=
  fold_left (fun acc c => 10 * acc + digit_value c) ds 0.

Definition read_sign (l : list ascii) : bool * list ascii :=
  match l with
  | "+"%char :: l' => (false, l')
  | "-"%char :: l' => (true, l')
  | _ => (false, l)
  end.

(** An unsigned decimal number: integer part, fraction, exponent.
    Returns its digits as an integer and the power of ten to apply. *)
Definition read_number (l : list ascii) : option (Z * Z) :=
  let '(ip, r1) :=
    match digitpart l with
    | Some (ds, r) => (ds, r)
    | None => ([], l)
    end in
  let '(fp, r2) :=
    match r1 with
    | "."%char :: r =>
        match digitpart r with
        | Some (ds, r') => (ds, r')
        | None => ([], r)
        end
    | _ => ([], r1)
    end in
  match ip ++ fp with
  | [] => None
  | ds =>
      let shift := - Z.of_nat (List.length fp) in
      match r2 with
      | [] => Some (decimal_value ds, shift)
      | c :: r =>
          if Ascii.eqb (to_lower c) "e" then
            let '(eneg, r') := read_sign r in
            match digitpart r' with
            | Some (es, []) =>
                Some (decimal_value ds, cond_Zopp eneg (decimal_value es) + shift)
            | _ => None
            end
          else None
      end
  end.

(** The double denoted by [digits * 10^exp10]. *)
Definition float_of_decimal (neg : bool) (digits exp10 : Z) : float :=
  match digits with
  | Z0 => S754_zero neg
  | _ =>
      match exp10 with
      | Zneg k => float_of_ratio (cond_Zopp neg digits) (Pos.pow 10 k)
      | _ => float_of_ratio (cond_Zopp neg digits * 10 ^ exp10) 1
      end
  end.

(** [float(s)] for a string: an optionally signed decimal number,
    infinity or NaN, surrounded by optional whitespace; anything else
    raises [ValueError]. *)
Definition float_of_str (s : string) : result float :=
  let '(neg, body) := read_sign (strip_chars is_float_space (list_ascii_of_string s)) in
  let word := string_of_list_ascii (map to_lower body) in
  if String.eqb word "inf" || String.eqb word "infinity" then Ok (S754_infinity neg)
  else if String.eqb word "nan" then Ok S754_nan
  else match read_number body with
       | Some (digits, exp10) => Ok (float_of_decimal neg digits exp10)
       | None => Raise ValueError
       end.

(** [int(x)] of a float: truncation toward zero. *)
Definition int_of_float (x : float) : result Z :=
  match x with
  | S754_zero _ => Ok 0
  | S754_finite s m e =>
      Ok (cond_Zopp s (match e with
                       | Zneg k => Zpos m / Z.pow_pos 2 k
                       | _ => Zpos m * 2 ^ e
                       end))
  | S754_infinity _ => Raise OverflowError
  | S754_nan => Raise ValueError
  end.

(** The submitted form: the text box and the four select boxes. *)
Record form : Type := mkForm {
  headcount : string;
  region : string;
  hc_category : string;
  process_type : string;
  transform_scale : string;
  techs : list string
}.

(** [int(float(str(headcount).strip()))]. *)
Definition parse_headcount (headcount : string) : result Z :=
  x <- float_of_str (strip headcount) ;; int_of_float x.

(** [not s] for a string. *)
Definition is_empty (s : string) : bool := String.eqb s "".

(** The error list and, when the conversion succeeded, [hc_val]. *)
Definition validate (f : form) : list string * option Z :=
  let '(errors, hc_val) :=
    match parse_headcount (headcount f) with
    | Ok hc_val =>
        (if hc_val <=? 0 then ["Headcount must be > 0."] else [], Some hc_val)
    | Raise _ => (["Headcount must be an integer."], None)
    end in
  let errors :=
    if is_empty (region f) || is_empty (hc_category f)
       || is_empty (process_type f) || is_empty (transform_scale f)
    then errors ++ ["All dropdowns are mandatory."]
    else errors in
  (errors, hc_val).

(** What the [Calculate] branch does with a submission: it stops on the
    collected errors, or goes on to the two calculations. [Calculated]
    records that the validation let [hc_val] through, with what each of
    the two calls does on it, returning or raising; the script itself
    reaches the second call only when the first has returned, and ends on
    the exception of the one that raises. *)
Inductive outcome : Type :=
| Stopped (errors : list string)
| Calculated (hc_val : Z) (results : result costs) (df_solutions : result (list row))
| Crashed (e : exn).

Definition on_calculate (f : form) : outcome :=
  match validate f with
  | ((_ :: _) as errors, _) => Stopped errors
  | ([], Some hc_val) =>
      Calculated hc_val (calculate_costs hc_val (techs f))
                 (per_solution_table hc_val (techs f))
  | ([], None) => Crashed NameError
  end.

(** ** [to_excel_bytes] *)

(** A data frame: column labels and rows of cells. *)
Record dataframe : Type := mkFrame {
  columns : list string;
  records : list (list pyval)
}.

(** The workbook held by the [ExcelWriter]: its sheets in creation order,
    each with the frames written to it. *)
Definition workbook : Type := list (string * list dataframe).

Definition sheet_names (w : workbook) : list string := map fst w.

(** [s.lower()], character by character: the capital letters A to Z and
    those from 192 to 222, the multiplication sign 215 apart, have their
    small letter 32 places on. *)
Definition lower_char (c : ascii) : ascii :=
  let n := N_of_ascii c in
  if ((65 <=? n) && (n <=? 90) || (192 <=? n) && (n <=? 222) && negb (n =? 215))%N
  then ascii_of_N (n + 32) else c.

Definition lower (s : string) : string :=
  string_of_list_ascii (map lower_char (list_ascii_of_string s)).

(** The characters a sheet name may not hold. *)
Definition invalid_char (c : ascii) : bool :=
  existsb (Ascii.eqb c) (list_ascii_of_string "[]:*?/\").

Definition has_invalid_char (name : string) : bool :=
  existsb invalid_char (list_ascii_of_string name).

(** The name starts or ends with an apostrophe. *)
Definition apostrophe_ends (name : string) : bool :=
  match list_ascii_of_string name with
  | [] => false
  | c :: l => Ascii.eqb c "'" || Ascii.eqb (last l c) "'"
  end.

(** The engine's check of the name of a new sheet: an empty name is
    replaced by [Sheet] and the number of the sheet; a name of more than
    31 characters, with a forbidden character or with an apostrophe at
    either end raises [InvalidWorksheetName]; a name the book already
    has, letter case ignored, raises [DuplicateWorksheetName]. *)
Definition check_sheetname (book : workbook) (sheetname : string) : result string :=
  let sheetname :=
    if is_empty sheetname
    then String.append "Sheet"
           (NilZero.string_of_uint (Nat.to_uint (List.length book + 1)))
    else sheetname in
  if (31 <? String.length sheetname)%nat then Raise InvalidWorksheetName
  else if has_invalid_char sheetname then Raise InvalidWorksheetName
  else if apostrophe_ends sheetname then Raise InvalidWorksheetName
  else if existsb (fun n => String.eqb (lower sheetname) (lower n)) (sheet_names book)
  then Raise DuplicateWorksheetName
  else Ok sheetname.

(** Writing a frame onto the sheet of the book called [name]. *)
Fixpoint write_cells (df : dataframe) (book : workbook) (name : string) : workbook :=
  match book with
  | [] => []
  | (n, frames) :: sheets =>
      if String.eqb name n
      then (n, frames ++ [df]) :: sheets
      else (n, frames) :: write_cells df sheets name
  end.

(** The most rows and columns a sheet takes. *)
Definition max_rows : N := 1048576.
Definition max_cols : N := 16384.

Definition too_large (df : dataframe) : bool :=
  ((max_rows <? N.of_nat (List.length (records df)))
   || (max_cols <? N.of_nat (List.length (columns df))))%N.

(** [df.to_excel(writer, sheet_name=..., index=False)]: a frame too large
    for a sheet raises [ValueError]; otherwise the writer looks the name
    up among the sheets of its book: a write under a name in use goes
    onto that same sheet, and under a new name a sheet is added, which
    the engine may refuse. *)
Definition to_excel (df : dataframe) (writer : workbook) (sheet_name : string)
    : result workbook :=
  if too_large df then Raise ValueError
  else if contains (sheet_names writer) sheet_name
  then Ok (write_cells df writer sheet_name)
  else name <- check_sheetname writer sheet_name ;; Ok (writer ++ [(name, [df])]).

(** [name[:31]]: the first 31 characters. *)
Definition slice31 (name : string) : string := substring 0 31 name.

(** [pd.DataFrame(list(run_meta.items()), columns=["Key", "Value"])]. *)
Definition meta_frame (run_meta : list (string * string)) : dataframe :=
  mkFrame ["Key"; "Value"] (map (fun kv => [PyStr (fst kv); PyStr (snd kv)]) run_meta).

(** What the [BytesIO] buffer holds: nothing, or the file of a saved
    workbook. The encoding of the file is the engine's; a file is given
    here by the book it is the file of. *)
Inductive buffer : Type :=
| No_bytes
| Xlsx (book : workbook).

(** [writer.save()], the method of pandas 1 the script calls: the book
    as it stands becomes the content of the buffer. Leaving the [with]
    block saves the same book once more. *)
Definition save (writer : workbook) (output : buffer) : buffer := Xlsx writer.

(** The loop over [df_dict.items()]; a write that raises ends it. *)
Fixpoint write_frames (df_dict : list (string * dataframe)) (writer : workbook)
    : result workbook :=
  match df_dict with
  | [] => Ok writer
  | (name, df) :: rest =>
      writer' <- to_excel df writer (slice31 name) ;; write_frames rest writer'
  end.

(** The value returned is [output.getvalue()]: the content of the buffer
    after the save. *)
Definition to_excel_bytes (df_dict : list (string * dataframe))
    (run_meta : list (string * string)) : result buffer :=
  let output := No_bytes in
  writer <- write_frames df_dict [] ;;
  writer <- to_excel (meta_frame run_meta) writer "Meta" ;;
  let output := save writer output in
  Ok output.

(** ** The check boxes and the financial summary *)

(** The check boxes of the form: one per catalog entry, in catalog order;
    a ticked one appends its technology to [techs]. *)
Definition collect_techs (checkbox : string -> bool) : list string :=
  fold_left (fun techs t => if checkbox t then techs ++ [t] else techs) ALL_TECHS [].

(** The [financial_summary] dictionary of the export section: the five
    amounts, formatted; savings are shown negated. *)
Definition financial_summary (results : costs) : result (list (string * string)) :=
  labor <- fmt_money (PyInt (headcount_cost results)) ;;
  savings <- fmt_money (PyFloat (SFopp (annual_savings results))) ;;
  tooling <- fmt_money (PyInt (tech_cost results)) ;;
  implementation <- fmt_money (PyFloat (implementation_cost results)) ;;
  net <- fmt_money (PyFloat (net_annual_cost results)) ;;
  Ok [("Annual Labor", labor); ("Annual Savings", savings);
      ("Annual Tooling", tooling); ("Implementation", implementation);
      ("Net Annual Cost", net)].

(** ** Vocabulary of the specification *)

(** The sum of a column, by recursion on the rows. *)
Fixpoint total (xs : list Z) : Z :=
  match xs with
  | [] => 0
  | x :: xs' => x + total xs'
  end.

(** What the specification asks of the row of one technology. *)
Definition row_matches (h : Z) (S : list string) (tech : string) (r : row) : Prop :=
  Solution r = tech /\
  (In tech S ->
     getitem TECH_LICENSE_COSTS tech = Ok (License_Cost r) /\
     getitem DEV_COSTS tech = Ok (Development_Cost r) /\
     (exists per_user,
        getitem USER_LICENSE_PER_TECH tech = Ok per_user /\
        User_License_Cost r = per_user * h) /\
     Total_Cost r = License_Cost r + Development_Cost r + User_License_Cost r) /\
  (~ In tech S ->
     License_Cost r = 0 /\ Development_Cost r = 0 /\
     User_License_Cost r = 0 /\ Total_Cost r = 0).

(** The licence costs of the catalog entries that are selected. *)
Definition selected_license_total (S : list string) : Z :=
  total (map snd (filter (fun kv => contains S (fst kv)) TECH_LICENSE_COSTS)).

(** [S] is a subset of the catalog: no repetition, known identifiers only. *)
Definition catalog_subset (S : list string) : Prop :=
  NoDup S /\ incl S ALL_TECHS.

(** The row the loop body builds once the three subscripts have
    succeeded. *)
Definition built_row (h : Z) (S : list string) (tech : string) : row :=
  let sel := contains S tech in
  let lic := if sel then get TECH_LICENSE_COSTS tech 0 else 0 in
  let dev := if sel then get DEV_COSTS tech 0 else 0 in
  let usr := if sel then get USER_LICENSE_PER_TECH tech 0 * h else 0 in
  mkRow tech lic dev usr (lic + dev + usr).

(** ** Vocabulary for floating-point results *)

(** The double whose value is the integer [n], for [|n| < 2^53]: the
    mantissa is [|n|] shifted up to 53 bits. *)
Definition exact_float (n : Z) : float :=
  match n with
  | Z0 => S754_zero false
  | Zpos _ => S754_finite false (Z.to_pos (n * 2 ^ (53 - Zdigits2 n))) (Zdigits2 n - 53)
  | Zneg _ => S754_finite true (Z.to_pos (- n * 2 ^ (53 - Zdigits2 n))) (Zdigits2 n - 53)
  end.

(** The double nearest to two thirds: 0.6666666666666666. *)
Definition two_thirds : float := S754_finite false 6004799503160661 (-53).

(** Integers of magnitude below [2^1024 - 2^970] round to a finite
    double; from there on [float(n)] overflows. *)
Definition float_int_bound : Z := 2 ^ 1024 - 2 ^ 970.

(** [x] is a zero, a finite number or an infinity of sign [s]. *)
Definition signed_number (s : bool) (x : float) : Prop :=
  match x with
  | S754_nan => False
  | S754_zero s' | S754_infinity s' | S754_finite s' _ _ => s' = s
  end.

(** The identifiers the rate tables know. *)
Definition known (t : string) : bool := contains ALL_TECHS t.

(** The sheet an entry of [df_dict] is written to when its name is not
    in use yet. *)
Definition sheet_of (entry : string * dataframe) : string * list dataframe :=
  (slice31 (fst entry), [snd entry]).

(** A name the engine takes as it is for a new sheet, its length apart:
    not empty, no forbidden character, no apostrophe at either end. *)
Definition sheet_name_ok (name : string) : bool :=
  negb (is_empty name) && negb (has_invalid_char name) && negb (apostrophe_ends name).

(** The names of the sheets the entries ask for. *)
Definition asked_names (df_dict : list (string * dataframe)) : list string :=
  map (fun e => slice31 (fst e)) df_dict.

(** The mapping the script exports: the solution table and the inputs. *)
Definition script_frames (df_solutions df_inputs : dataframe)
    : list (string * dataframe) :=
  [("Solutions", df_solutions); ("Inputs", df_inputs)].

(** A submission with every select box filled. *)
Definition sample_form (headcount : string) : form :=
  mkForm headcount "EMEA" "Ops" "Claims" "Small" ["RPA"].

(** ** Vocabulary of the further properties *)

(** No cell of the row is negative. *)
Definition row_nonneg (r : row) : Prop :=
  0 <= License_Cost r /\ 0 <= Development_Cost r /\
  0 <= User_License_Cost r /\ 0 <= Total_Cost r.

(** [rh] is [r1] with the user-licence cell multiplied by [h]. *)
Definition scaled_row (h : Z) (r1 rh : row) : Prop :=
  Solution rh = Solution r1 /\
  License_Cost rh = License_Cost r1 /\
  Development_Cost rh = Development_Cost r1 /\
  User_License_Cost rh = h * User_License_Cost r1.

(** [str(n)] for a natural number: its decimal digits. *)
Definition decimal_text (n : N) : string := NilZero.string_of_uint (N.to_uint n).

(** The number a digit sequence denotes, continuing from [acc]. *)
Fixpoint uint_value (d : Decimal.uint) (acc : Z) : Z :=
  match d with
  | Decimal.Nil => acc
  | Decimal.D0 d' => uint_value d' (10 * acc)
  | Decimal.D1 d' => uint_value d' (10 * acc + 1)
  | Decimal.D2 d' => uint_value d' (10 * acc + 2)
  | Decimal.D3 d' => uint_value d' (10 * acc + 3)
  | Decimal.D4 d' => uint_value d' (10 * acc + 4)
  | Decimal.D5 d' => uint_value d' (10 * acc + 5)
  | Decimal.D6 d' => uint_value d' (10 * acc + 6)
  | Decimal.D7 d' => uint_value d' (10 * acc + 7)
  | Decimal.D8 d' => uint_value d' (10 * acc + 8)
  | Decimal.D9 d' => uint_value d' (10 * acc + 9)
  end.

Definition all_digits (l : list ascii) : Prop := Forall (fun c => is_digit c = true) l.

Definition all_spaces (l : list ascii) : Prop := Forall (fun c => is_space c = true) l.

(** An amount as [fmt_money] shows an integer. *)
Definition money (n : Z) : string := String.append CURRENCY (format_thousands n).

(** * Properties *)

(** ** Lists, sums and the error monad *)

Lemma contains_In (S : list string) (t : string) :
  contains S t = true <-> In t S.
Proof.
  unfold contains. rewrite existsb_exists. split.
  - intros [x [Hin Heq]]. apply String.eqb_eq in Heq. now subst.
  - intros Hin. exists t. split; [assumption | apply String.eqb_refl].
Qed.

Lemma contains_not_In (S : list string) (t : string) :
  contains S t = false <-> ~ In t S.
Proof.
  rewrite <- contains_In. destruct (contains S t); split; congruence.
Qed.

Lemma fold_left_add_total (xs : list Z) (a : Z) :
  fold_left Z.add xs a = a + total xs.
Proof.
  revert a. induction xs as [| x xs IH]; intros a; simpl.
  - lia.
  - rewrite IH. lia.
Qed.

Lemma py_sum_total (xs : list Z) : py_sum xs = total xs.
Proof. unfold py_sum. now rewrite fold_left_add_total. Qed.

Lemma total_app (xs ys : list Z) : total (xs ++ ys) = total xs + total ys.
Proof. induction xs as [| x xs IH]; simpl; lia. Qed.

Section ForEach.
Context {A B : Type} (f : A -> result B) (g : A -> B).

(** A loop body that never raises makes the loop a [map]. *)
Lemma for_each_pure (l : list A) :
  Forall (fun a => f a = Ok (g a)) l -> for_each f l = Ok (map g l).
Proof.
  induction 1 as [| a l Ha _ IH]; simpl.
  - reflexivity.
  - now rewrite Ha, IH.
Qed.

End ForEach.

(** ** The per-solution table *)

Lemma getitem_get (d : dict) (k : string) :
  In k (keys d) -> getitem d k = Ok (get d k 0).
Proof.
  induction d as [| [k' v] d IH]; simpl.
  - intros [].
  - intros [Heq | Hin].
    + subst. now rewrite String.eqb_refl.
    + destruct (String.eqb k k'); [reflexivity | now apply IH].
Qed.

(** The three rate tables are keyed alike. *)
Lemma rate_tables_aligned :
  keys DEV_COSTS = ALL_TECHS /\ keys USER_LICENSE_PER_TECH = ALL_TECHS.
Proof. split; reflexivity. Qed.

Lemma solution_row_built (h : Z) (S : list string) (tech : string) :
  In tech ALL_TECHS -> solution_row h S tech = Ok (built_row h S tech).
Proof.
  intros Hin. unfold solution_row, built_row.
  destruct rate_tables_aligned as [Hd Hu].
  rewrite (getitem_get TECH_LICENSE_COSTS tech Hin).
  rewrite (getitem_get DEV_COSTS tech) by now rewrite Hd.
  rewrite (getitem_get USER_LICENSE_PER_TECH tech) by now rewrite Hu.
  destruct (contains S tech); reflexivity.
Qed.

Lemma per_solution_table_built (h : Z) (S : list string) :
  per_solution_table h S =
  Ok (map (built_row h S) ALL_TECHS ++ [totals_row (map (built_row h S) ALL_TECHS)]).
Proof.
  unfold per_solution_table.
  rewrite (for_each_pure _ (built_row h S)); [reflexivity |].
  apply Forall_forall. intros t Ht. now apply solution_row_built.
Qed.

Lemma built_row_matches (h : Z) (S : list string) (tech : string) :
  In tech ALL_TECHS -> row_matches h S tech (built_row h S tech).
Proof.
  intros Hin. destruct rate_tables_aligned as [Hd Hu].
  unfold row_matches, built_row.
  cbn [Solution License_Cost Development_Cost User_License_Cost Total_Cost].
  split; [reflexivity |]. split.
  - intros HS. apply contains_In in HS. rewrite HS.
    rewrite (getitem_get TECH_LICENSE_COSTS tech Hin).
    rewrite (getitem_get DEV_COSTS tech) by now rewrite Hd.
    repeat split.
    exists (get USER_LICENSE_PER_TECH tech 0). split; [| reflexivity].
    apply getitem_get. now rewrite Hu.
  - intros HS. apply contains_not_In in HS. rewrite HS. repeat split.
Qed.

(** C1. For every headcount and every selection, [per_solution_table]
    returns one row per catalog technology, in catalog declaration order,
    followed by the totals row as the last of [|catalog| + 1] rows; each
    of the four cost columns of the totals row is the column-wise sum of
    the rows before it. *)
Theorem per_solution_table_shape (h : Z) (S : list string) :
  exists rows totals,
    per_solution_table h S = Ok (rows ++ [totals]) /\
    List.length (rows ++ [totals]) = (List.length ALL_TECHS + 1)%nat /\
    map Solution rows = ALL_TECHS /\
    ALL_TECHS = ["RPA"; "VBA"; "Celonis"; "Soroco"; "Analytics"; "AI"] /\
    Solution totals = "Total Cost" /\
    License_Cost totals = total (map License_Cost rows) /\
    Development_Cost totals = total (map Development_Cost rows) /\
    User_License_Cost totals = total (map User_License_Cost rows) /\
    Total_Cost totals = total (map Total_Cost rows).
Proof.
  exists (map (built_row h S) ALL_TECHS), (totals_row (map (built_row h S) ALL_TECHS)).
  split; [apply per_solution_table_built |].
  split; [rewrite length_app, length_map; reflexivity |].
  split; [rewrite map_map; apply map_id |].
  split; [reflexivity |].
  unfold totals_row; simpl.
  repeat split; apply py_sum_total.
Qed.

(** C2. For every headcount and every selection, the row of each catalog
    technology carries, when the technology is selected, the flat licence
    and development costs of the catalog, the per-user licence cost times
    the headcount, and their sum as total; when it is not selected, all
    its costs are zero. With headcount 25 and RPA and AI selected the
    table is the one of scenario A. *)
Theorem per_solution_table_rows (h : Z) (S : list string) :
  (exists rows totals,
     per_solution_table h S = Ok (rows ++ [totals]) /\
     Forall2 (row_matches h S) ALL_TECHS rows) /\
  per_solution_table 25 ["RPA"; "AI"] =
    Ok [ mkRow "RPA" 5000 20000 2500 27500;
         mkRow "VBA" 0 0 0 0;
         mkRow "Celonis" 0 0 0 0;
         mkRow "Soroco" 0 0 0 0;
         mkRow "Analytics" 0 0 0 0;
         mkRow "AI" 12000 40000 6250 58250;
         mkRow "Total Cost" 17000 60000 8750 85750 ].
Proof.
  split; [| reflexivity].
  exists (map (built_row h S) ALL_TECHS), (totals_row (map (built_row h S) ALL_TECHS)).
  split; [apply per_solution_table_built |].
  assert (H : forall l, incl l ALL_TECHS ->
                        Forall2 (row_matches h S) l (map (built_row h S) l)).
  { induction l as [| t l IH]; intros Hl; simpl; constructor.
    - apply built_row_matches, Hl. now left.
    - apply IH. intros x Hx. apply Hl. now right. }
  apply H, incl_refl.
Qed.

(** ** Binary64 rounding

    What the calculation needs of [SpecFloat]: when a product, a sum, a
    difference or a quotient of doubles is again a double, and when the
    conversion of an integer stays finite. *)

Module Binary64.

(** The two powers of two that bound a 53-bit mantissa, as numerals. *)
Ltac pow2 :=
  change (2 ^ 52) with 4503599627370496 in *;
  change (2 ^ 53) with 9007199254740992 in *.

Lemma digits2_pos_bounds (p : positive) :
  2 ^ (Zpos (digits2_pos p) - 1) <= Zpos p < 2 ^ Zpos (digits2_pos p).
Proof.
  induction p as [p IH | p IH |]; cbn [digits2_pos].
  - rewrite Pos2Z.inj_succ.
    replace (Z.succ (Zpos (digits2_pos p)) - 1) with (Z.succ (Zpos (digits2_pos p) - 1)) by lia.
    rewrite !Z.pow_succ_r by lia. lia.
  - rewrite Pos2Z.inj_succ.
    replace (Z.succ (Zpos (digits2_pos p)) - 1) with (Z.succ (Zpos (digits2_pos p) - 1)) by lia.
    rewrite !Z.pow_succ_r by lia. lia.
  - simpl. lia.
Qed.

Lemma digits2_pos_unique (p : positive) (d : Z) :
  2 ^ (d - 1) <= Zpos p < 2 ^ d -> Zpos (digits2_pos p) = d.
Proof.
  intros [Hlo Hhi]. pose proof (digits2_pos_bounds p) as [Blo Bhi].
  set (d' := Zpos (digits2_pos p)) in *.
  assert (0 < d') by (unfold d'; lia).
  destruct (Z.lt_trichotomy d' d) as [Hlt | [Heq | Hgt]]; [| assumption |].
  - assert (2 ^ d' <= 2 ^ (d - 1)) by (apply Z.pow_le_mono_r; lia). lia.
  - destruct (Z.le_gt_cases 0 d) as [Hd | Hd].
    + assert (2 ^ d <= 2 ^ (d' - 1)) by (apply Z.pow_le_mono_r; lia). lia.
    + rewrite (Z.pow_neg_r 2 d) in Hhi by lia. lia.
Qed.

Lemma iter_pos_nat {A : Type} (f : A -> A) (p : positive) (x : A) :
  iter_pos f p x = Nat.iter (Pos.to_nat p) f x.
Proof.
  revert x. induction p as [p IH | p IH |]; intros x; cbn [iter_pos].
  - rewrite !IH, Pos2Nat.inj_xI.
    replace (S (2 * Pos.to_nat p)) with (Pos.to_nat p + Pos.to_nat p + 1)%nat by lia.
    rewrite !Nat.iter_add. reflexivity.
  - rewrite !IH, Pos2Nat.inj_xO.
    replace (2 * Pos.to_nat p)%nat with (Pos.to_nat p + Pos.to_nat p)%nat by lia.
    now rewrite Nat.iter_add.
  - reflexivity.
Qed.

Lemma shr_1_nonneg (m : Z) (r s : bool) :
  0 <= m ->
  shr_1 (Build_shr_record m r s) = Build_shr_record (m / 2) (Z.odd m) (r || s).
Proof.
  intros Hm. destruct m as [| p | p]; [reflexivity | | lia].
  destruct p as [p | p |]; cbn [shr_1].
  - f_equal. rewrite Pos2Z.inj_xI. 
    replace (2 * Zpos p + 1) with (1 + Zpos p * 2) by lia.
    rewrite Z.div_add by lia. reflexivity.
  - f_equal. rewrite Pos2Z.inj_xO, Z.mul_comm. now rewrite Z.div_mul by lia.
  - reflexivity.
Qed.

Lemma mod_pow2_succ_zero (m : Z) (n : Z) :
  0 <= n ->
  (m mod 2 ^ (n + 1) =? 0) = (m mod 2 ^ n =? 0) && negb (Z.odd (m / 2 ^ n)).
Proof.
  intros Hn. rewrite Z.pow_add_r, Z.pow_1_r by lia.
  assert (Hp : 0 < 2 ^ n) by (apply Z.pow_pos_nonneg; lia).
  rewrite Z.rem_mul_r by lia.
  pose proof (Z.mod_pos_bound m (2 ^ n) Hp) as Hb.
  rewrite Zmod_odd.
  destruct (Z.odd (m / 2 ^ n)); cbn [negb].
  - rewrite andb_false_r. apply Z.eqb_neq. lia.
  - rewrite andb_true_r. f_equal. lia.
Qed.

Lemma shr_iter (n : nat) (m : Z) (r s : bool) :
  0 <= m ->
  Nat.iter (S n) shr_1 (Build_shr_record m r s) =
  Build_shr_record (m / 2 ^ (Z.of_nat n + 1))
                   (Z.odd (m / 2 ^ Z.of_nat n))
                   (r || s || negb (m mod 2 ^ Z.of_nat n =? 0)).
Proof.
  intros Hm. induction n as [| n IH].
  - cbn [Nat.iter]. rewrite shr_1_nonneg by assumption. cbn [Z.of_nat].
    rewrite Z.pow_0_r, Z.div_1_r, Z.mod_1_r. cbn. now rewrite orb_false_r.
  - rewrite Nat.iter_succ, IH.
    rewrite shr_1_nonneg by (apply Z.div_pos; [lia | apply Z.pow_pos_nonneg; lia]).
    rewrite Nat2Z.inj_succ. unfold Z.succ.
    f_equal.
    + rewrite Z.div_div by (try apply Z.pow_pos_nonneg; lia).
      rewrite (Z.pow_add_r 2 (Z.of_nat n + 1) 1), Z.pow_1_r by lia. reflexivity.
    + rewrite mod_pow2_succ_zero by lia.
      destruct (Z.odd (m / 2 ^ Z.of_nat n)), r, s, (m mod 2 ^ Z.of_nat n =? 0); reflexivity.
Qed.

Lemma shr_pos_shift (m : Z) (r s : bool) (e : Z) (k : positive) :
  0 <= m ->
  shr (Build_shr_record m r s) e (Zpos k) =
  (Build_shr_record (m / 2 ^ Zpos k)
                    (Z.odd (m / 2 ^ (Zpos k - 1)))
                    (r || s || negb (m mod 2 ^ (Zpos k - 1) =? 0)),
   e + Zpos k).
Proof.
  intros Hm. unfold shr. rewrite iter_pos_nat.
  destruct (Pos2Nat.is_succ k) as [n Hn]. rewrite Hn, shr_iter by assumption.
  assert (Hk : Zpos k = Z.of_nat n + 1) by lia.
  rewrite Hk. repeat f_equal; lia.
Qed.

Lemma fexp_normal (x : Z) : -1021 <= x -> fexp prec emax x = x - 53.
Proof. unfold fexp, emin, prec, emax. lia. Qed.

Lemma Zdigits2_unique (m d : Z) :
  0 < m -> 2 ^ (d - 1) <= m < 2 ^ d -> Zdigits2 m = d.
Proof.
  intros Hm Hb. destruct m as [| p | p]; try lia.
  cbn [Zdigits2]. now apply digits2_pos_unique.
Qed.

(** Second rounding stage on a normalised mantissa: nothing moves. *)
Lemma round_stage2 (s : bool) (q e : Z) :
  2 ^ 52 <= q < 2 ^ 53 -> -1074 <= e <= 971 ->
  (let '(mrs'', e'') := shr_fexp prec emax q e loc_Exact in
   match shr_m mrs'' with
   | Z0 => S754_zero s
   | Zpos m => if e'' <=? emax - prec then S754_finite s m e'' else S754_infinity s
   | Zneg _ => S754_nan
   end) = S754_finite s (Z.to_pos q) e.
Proof.
  intros Hq He. unfold shr_fexp.
  rewrite (Zdigits2_unique q 53) by lia.
  rewrite fexp_normal by lia.
  replace (53 + e - 53 - e) with 0 by lia.
  cbn [shr shr_record_of_loc shr_m].
  destruct q as [| p | p]; try lia.
  replace (e <=? emax - prec) with true by (symmetry; apply Z.leb_le; unfold emax, prec; lia).
  reflexivity.
Qed.

(** First stage when the mantissa has [53 + k] digits: [k] bits go. *)
Lemma shr_fexp_shift (P e : Z) (k : positive) :
  2 ^ (52 + Zpos k) <= P < 2 ^ (53 + Zpos k) -> -1074 <= e + Zpos k ->
  shr_fexp prec emax P e loc_Exact =
  (Build_shr_record (P / 2 ^ Zpos k)
                    (Z.odd (P / 2 ^ (Zpos k - 1)))
                    (negb (P mod 2 ^ (Zpos k - 1) =? 0)),
   e + Zpos k).
Proof.
  intros HP He. unfold shr_fexp.
  assert (0 < P) by (assert (0 < 2 ^ (52 + Zpos k)) by (apply Z.pow_pos_nonneg; lia); lia).
  rewrite (Zdigits2_unique P (53 + Zpos k)) by (try replace (53 + Zpos k - 1) with (52 + Zpos k) by lia; lia).
  rewrite fexp_normal by lia.
  replace (53 + Zpos k + e - 53 - e) with (Zpos k) by lia.
  cbn [shr_record_of_loc]. rewrite shr_pos_shift by lia. reflexivity.
Qed.

Lemma shr_fexp_noshift (P e : Z) (l : location) :
  2 ^ 52 <= P < 2 ^ 53 -> -1074 <= e ->
  shr_fexp prec emax P e l = (shr_record_of_loc P l, e).
Proof.
  intros HP He. unfold shr_fexp.
  rewrite (Zdigits2_unique P 53) by lia.
  rewrite fexp_normal by lia.
  replace (53 + e - 53 - e) with 0 by lia. reflexivity.
Qed.

(** A product or quotient that sits exactly on a 53-bit mantissa. *)
Lemma binary_round_aux_exact (s : bool) (q e : Z) (k : Z) :
  2 ^ 52 <= q < 2 ^ 53 -> 0 <= k -> -1074 <= e + k <= 971 ->
  binary_round_aux prec emax s (q * 2 ^ k) e loc_Exact = S754_finite s (Z.to_pos q) (e + k).
Proof.
  intros Hq Hk He. unfold binary_round_aux.
  destruct k as [| k | k]; try lia.
  - rewrite Z.pow_0_r, Z.mul_1_r, Z.add_0_r in *.
    rewrite shr_fexp_noshift by lia.
    cbn [shr_record_of_loc shr_m loc_of_shr_record round_nearest_even].
    now apply round_stage2.
  - assert (Hp : 0 < 2 ^ Zpos k) by (apply Z.pow_pos_nonneg; lia).
    rewrite (shr_fexp_shift _ _ k).
    2:{ rewrite !Z.pow_add_r by lia. nia. }
    2:{ lia. }
    cbn [shr_m loc_of_shr_record].
    rewrite Z.div_mul by lia.
    replace (q * 2 ^ Zpos k) with (2 * q * 2 ^ (Zpos k - 1)).
    2:{ replace (Zpos k) with (Zpos k - 1 + 1) at 2 by lia.
        rewrite Z.pow_add_r by lia. rewrite Z.pow_1_r. lia. }
    rewrite Z.div_mul by (apply Z.pow_nonzero; lia).
    rewrite Z.mod_mul by (apply Z.pow_nonzero; lia).
    rewrite Z.odd_mul. cbn [Z.odd andb negb Z.eqb round_nearest_even].
    now apply round_stage2.
Qed.

Lemma binary_round_aux_above (s : bool) (q e r : Z) (k : positive) :
  2 ^ 52 <= q < 2 ^ 53 -> 0 <= r -> 2 * r < 2 ^ Zpos k ->
  -1074 <= e + Zpos k <= 971 ->
  binary_round_aux prec emax s (q * 2 ^ Zpos k + r) e loc_Exact =
  S754_finite s (Z.to_pos q) (e + Zpos k).
Proof.
  intros Hq Hr Hhalf He. unfold binary_round_aux.
  assert (Hp : 0 < 2 ^ (Zpos k - 1)) by (apply Z.pow_pos_nonneg; lia).
  assert (Hk : 2 ^ Zpos k = 2 * 2 ^ (Zpos k - 1)).
  { replace (Zpos k) with (Zpos k - 1 + 1) at 1 by lia.
    rewrite Z.pow_add_r, Z.pow_1_r by lia. lia. }
  rewrite (shr_fexp_shift _ _ k).
  2:{ rewrite !Z.pow_add_r by lia. nia. }
  2:{ lia. }
  cbn [shr_m loc_of_shr_record].
  replace ((q * 2 ^ Zpos k + r) / 2 ^ Zpos k) with q.
  2:{ apply (Z.div_unique_pos _ _ q r); lia. }
  replace ((q * 2 ^ Zpos k + r) / 2 ^ (Zpos k - 1)) with (2 * q).
  2:{ apply (Z.div_unique_pos _ _ (2 * q) r); lia. }
  rewrite Z.odd_mul. cbn [Z.odd andb].
  destruct (negb _); cbn [loc_of_shr_record round_nearest_even]; now apply round_stage2.
Qed.

Lemma binary_round_aux_below (s : bool) (q e r : Z) (k : positive) :
  2 ^ 52 < q < 2 ^ 53 -> 0 < r -> 2 * r < 2 ^ Zpos k ->
  -1074 <= e + Zpos k <= 971 ->
  binary_round_aux prec emax s (q * 2 ^ Zpos k - r) e loc_Exact =
  S754_finite s (Z.to_pos q) (e + Zpos k).
Proof.
  intros Hq Hr Hhalf He. unfold binary_round_aux.
  assert (Hp : 0 < 2 ^ (Zpos k - 1)) by (apply Z.pow_pos_nonneg; lia).
  assert (Hk : 2 ^ Zpos k = 2 * 2 ^ (Zpos k - 1)).
  { replace (Zpos k) with (Zpos k - 1 + 1) at 1 by lia.
    rewrite Z.pow_add_r, Z.pow_1_r by lia. lia. }
  rewrite (shr_fexp_shift _ _ k).
  2:{ rewrite !Z.pow_add_r by lia. nia. }
  2:{ lia. }
  cbn [shr_m loc_of_shr_record].
  replace ((q * 2 ^ Zpos k - r) / 2 ^ Zpos k) with (q - 1).
  2:{ apply (Z.div_unique_pos _ _ (q - 1) (2 ^ Zpos k - r)); lia. }
  replace ((q * 2 ^ Zpos k - r) / 2 ^ (Zpos k - 1)) with (2 * q - 1).
  2:{ apply (Z.div_unique_pos _ _ (2 * q - 1) (2 ^ (Zpos k - 1) - r)); lia. }
  replace ((q * 2 ^ Zpos k - r) mod 2 ^ (Zpos k - 1)) with (2 ^ (Zpos k - 1) - r).
  2:{ apply (Z.mod_unique_pos _ _ (2 * q - 1) (2 ^ (Zpos k - 1) - r)); lia. }
  replace (Z.odd (2 * q - 1)) with true.
  2:{ symmetry. replace (2 * q - 1) with (2 * (q - 1) + 1) by lia. apply Z.odd_odd. }
  replace (2 ^ (Zpos k - 1) - r =? 0) with false by (symmetry; apply Z.eqb_neq; lia).
  cbn [negb orb loc_of_shr_record round_nearest_even].
  replace (q - 1 + 1) with q by lia. apply round_stage2; lia.
Qed.

Lemma Zdigits2_bounds (n : Z) :
  0 < n -> 0 < Zdigits2 n /\ 2 ^ (Zdigits2 n - 1) <= n < 2 ^ Zdigits2 n.
Proof.
  intros Hn. destruct n as [| p | p]; try lia. cbn [Zdigits2].
  split; [lia | apply digits2_pos_bounds].
Qed.

Lemma Zdigits2_le_53 (n : Z) : 0 < n < 2 ^ 53 -> 0 < Zdigits2 n <= 53.
Proof.
  intros Hn. destruct (Zdigits2_bounds n) as [Hd [Hlo Hhi]]; [lia |].
  split; [assumption |].
  destruct (Z.le_gt_cases (Zdigits2 n) 53) as [| Hgt]; [assumption |].
  assert (2 ^ 53 <= 2 ^ (Zdigits2 n - 1)) by (apply Z.pow_le_mono_r; lia). lia.
Qed.

(** The 53-bit mantissa of an integer below 2^53. *)
Lemma mantissa_bounds (n : Z) :
  0 < n < 2 ^ 53 -> 2 ^ 52 <= n * 2 ^ (53 - Zdigits2 n) < 2 ^ 53.
Proof.
  intros Hn. destruct (Zdigits2_bounds n) as [Hd [Hlo Hhi]]; [lia |].
  pose proof (Zdigits2_le_53 n Hn) as Hle.
  set (d := Zdigits2 n) in *.
  assert (H52 : 2 ^ 52 = 2 ^ (d - 1) * 2 ^ (53 - d)).
  { rewrite <- Z.pow_add_r by lia. f_equal. lia. }
  assert (H53 : 2 ^ 53 = 2 ^ d * 2 ^ (53 - d)).
  { rewrite <- Z.pow_add_r by lia. f_equal. lia. }
  assert (0 < 2 ^ (53 - d)) by (apply Z.pow_pos_nonneg; lia).
  rewrite H52, H53. nia.
Qed.

Lemma binary_round_integer (s : bool) (m : positive) (e n : Z) :
  0 < n < 2 ^ 53 -> e <= 0 -> -1021 <= e -> Zpos m = n * 2 ^ (- e) ->
  binary_round prec emax s m e =
  S754_finite s (Z.to_pos (n * 2 ^ (53 - Zdigits2 n))) (Zdigits2 n - 53).
Proof.
  intros Hn He Hemin Hm.
  destruct (Zdigits2_bounds n) as [Hd [Hlo Hhi]]; [lia |].
  pose proof (Zdigits2_le_53 n Hn) as Hle.
  pose proof (mantissa_bounds n Hn) as Hq.
  set (d := Zdigits2 n) in *.
  assert (Hpe : 0 < 2 ^ (- e)) by (apply Z.pow_pos_nonneg; lia).
  assert (Hdm : Zpos (digits2_pos m) = d - e).
  { apply digits2_pos_unique. rewrite Hm.
    replace (d - e - 1) with (d - 1 + - e) by lia.
    replace (d - e) with (d + - e) by lia.
    rewrite !Z.pow_add_r by lia. nia. }
  unfold binary_round. rewrite Hdm.
  replace (d - e + e) with d by lia.
  rewrite fexp_normal by lia.
  unfold shl_align.
  destruct (d - 53 - e) as [| t | t] eqn:Ht.
  - rewrite Hm. replace (- e) with (53 - d) by lia.
    replace (n * 2 ^ (53 - d)) with (n * 2 ^ (53 - d) * 2 ^ 0) at 1 by (rewrite Z.pow_0_r; lia).
    rewrite binary_round_aux_exact by lia. f_equal. lia.
  - rewrite Hm. replace (- e) with (53 - d + Zpos t) by lia.
    rewrite Z.pow_add_r, Z.mul_assoc by lia.
    rewrite binary_round_aux_exact by lia. f_equal. lia.
  - change (Pos.iter xO m t) with (shift_pos t m).
    rewrite shift_pos_correct, Z.pow_pos_fold, Hm.
    replace (2 ^ Zpos t * (n * 2 ^ (- e))) with (n * 2 ^ (53 - d) * 2 ^ 0).
    2:{ rewrite Z.pow_0_r, Z.mul_1_r. replace (53 - d) with (- e + Zpos t) by lia.
        rewrite Z.pow_add_r by lia. lia. }
    rewrite binary_round_aux_exact by lia. f_equal. lia.
Qed.

Lemma float_of_int_exact (n : Z) :
  0 <= n < 2 ^ 53 -> float_of_int n = Ok (exact_float n).
Proof.
  intros Hn. unfold float_of_int, exact_float.
  destruct n as [| p | p]; try lia; [reflexivity |].
  cbn [binary_normalize].
  rewrite (binary_round_integer false p 0 (Zpos p)).
  - reflexivity.
  - lia.
  - lia.
  - lia.
  - rewrite Z.pow_0_r. lia.
Qed.

Lemma Zdigits2_between (w z i j : Z) :
  0 < w -> 0 <= i -> 0 <= j -> 2 ^ i * w <= z < 2 ^ j * w ->
  Zdigits2 w + i <= Zdigits2 z <= Zdigits2 w + j.
Proof.
  intros Hw Hi Hj [Hlo Hhi].
  assert (Hpi : 0 < 2 ^ i) by (apply Z.pow_pos_nonneg; lia).
  assert (Hpj : 0 < 2 ^ j) by (apply Z.pow_pos_nonneg; lia).
  assert (Hz : 0 < z) by nia.
  destruct (Zdigits2_bounds w Hw) as [Hdw [Wlo Whi]].
  destruct (Zdigits2_bounds z Hz) as [Hdz [Zlo Zhi]].
  split.
  - assert (H : 2 ^ (Zdigits2 w - 1 + i) < 2 ^ Zdigits2 z).
    { rewrite Z.pow_add_r by lia. nia. }
    apply Z.pow_lt_mono_r_iff in H; lia.
  - assert (H : 2 ^ (Zdigits2 z - 1) < 2 ^ (j + Zdigits2 w)).
    { rewrite Z.pow_add_r by lia. nia. }
    apply Z.pow_lt_mono_r_iff in H; lia.
Qed.

Lemma exact_float_pos (n : Z) :
  0 < n ->
  exact_float n =
  S754_finite false (Z.to_pos (n * 2 ^ (53 - Zdigits2 n))) (Zdigits2 n - 53).
Proof. destruct n; try lia. reflexivity. Qed.

(** [exact_float n] holds [n]: converting it back gives [n]. *)
Lemma exact_float_value (n : Z) :
  0 <= n < 2 ^ 53 -> int_of_float (exact_float n) = Ok n.
Proof.
  intros Hn. destruct (Z.eq_dec n 0) as [-> | Hn0]; [reflexivity |].
  rewrite exact_float_pos by lia. cbn [int_of_float cond_Zopp].
  pose proof (Zdigits2_le_53 n) as Hd. pose proof (mantissa_bounds n) as Hm.
  assert (Hpos : 0 < 2 ^ (53 - Zdigits2 n)) by (apply Z.pow_pos_nonneg; lia).
  rewrite Z2Pos.id by lia.
  destruct (Zdigits2 n - 53) as [| k | k] eqn:Hk; try lia.
  - replace (53 - Zdigits2 n) with 0 by lia. rewrite !Z.pow_0_r. f_equal. lia.
  - rewrite Z.pow_pos_fold. replace (53 - Zdigits2 n) with (Zpos k) by lia.
    rewrite Z.div_mul by (apply Z.pow_nonzero; lia). reflexivity.
Qed.

Example float_int_bound_sharp :
  float_of_int (float_int_bound - 1) = Ok (S754_finite false 9007199254740991 971) /\
  float_of_int float_int_bound = Raise OverflowError.
Proof. apply conj; vm_compute; reflexivity. Qed.

Example percent_literals :
  float_of_str "0.20" = Ok IMPLEMENTATION_PCT /\
  float_of_str "0.30" = Ok SAVINGS_PCT /\
  two_thirds = float_of_ratio 2 3.
Proof. repeat apply conj; vm_compute; reflexivity. Qed.

Lemma Zpos_to_pos_mul (a : Z) (p : positive) :
  0 < a -> Zpos (Z.to_pos a * p) = a * Zpos p.
Proof. intros Ha. rewrite Pos2Z.inj_mul, Z2Pos.id by lia. reflexivity. Qed.

(** Scaling by the double [0.2] is exact on multiples of five. *)
Lemma SFmul_fifth (w : Z) :
  0 < w -> 5 * w < 2 ^ 53 ->
  SFmul prec emax (exact_float (5 * w)) IMPLEMENTATION_PCT = exact_float w.
Proof.
  intros Hw Hz.
  rewrite !exact_float_pos by lia.
  pose proof (Zdigits2_between w (5 * w) 2 3 Hw) as Hd.
  destruct (Zdigits2_bounds w Hw) as [Hdw [Wlo Whi]].
  pose proof (Zdigits2_le_53 (5 * w)) as Hz53.
  pose proof (mantissa_bounds (5 * w)) as Mz.
  pose proof (mantissa_bounds w) as Mw.
  set (dz := Zdigits2 (5 * w)) in *. set (dw := Zdigits2 w) in *.
  assert (Hcase : dz = dw + 2 \/ dz = dw + 3) by (change (2 ^ 2) with 4 in Hd; change (2 ^ 3) with 8 in Hd; lia).
  unfold IMPLEMENTATION_PCT. cbn [SFmul xorb].
  rewrite Zpos_to_pos_mul by lia.
  assert (Hsplit : 2 ^ (53 - dw) = 2 ^ (dz - dw) * 2 ^ (53 - dz)).
  { rewrite <- Z.pow_add_r by lia. f_equal. lia. }
  assert (HA : 0 < 2 ^ (53 - dz)) by (apply Z.pow_pos_nonneg; lia).
  assert (HB : w * 2 ^ (53 - dw) < 2 ^ 53) by lia.
  set (A := 2 ^ (53 - dz)) in *.
  destruct Hcase as [Hc | Hc].
  - replace (dz - dw) with 2 in Hsplit by lia.
    replace (5 * w * A * 7205759403792794) with (w * 2 ^ (53 - dw) * 2 ^ 53 + 2 * (w * A)).
    2:{ rewrite Hsplit. change (2 ^ 2) with 4. change (2 ^ 53) with 9007199254740992. lia. }
    change 53 with (Zpos 53) at 3.
    rewrite binary_round_aux_above; [f_equal; lia | lia | | | lia].
    + apply Z.mul_nonneg_nonneg; lia.
    + rewrite Hsplit in HB. change (2 ^ 2) with 4 in HB.
      change (2 ^ 53) with 9007199254740992 in *. lia.
  - replace (dz - dw) with 3 in Hsplit by lia.
    replace (5 * w * A * 7205759403792794) with (w * 2 ^ (53 - dw) * 2 ^ 52 + 2 * (w * A)).
    2:{ rewrite Hsplit. change (2 ^ 3) with 8. change (2 ^ 52) with 4503599627370496. lia. }
    change 52 with (Zpos 52) at 1.
    rewrite binary_round_aux_above; [f_equal; lia | lia | | | lia].
    + apply Z.mul_nonneg_nonneg; lia.
    + rewrite Hsplit in HB. change (2 ^ 3) with 8 in HB.
      change (2 ^ 53) with 9007199254740992 in *.
      change (2 ^ 52) with 4503599627370496 in *. lia.
Qed.

(** Scaling by the double [0.3] is exact on multiples of ten. *)
Lemma SFmul_three_tenths (u : Z) :
  0 < u -> 10 * u < 2 ^ 53 ->
  SFmul prec emax (exact_float (10 * u)) SAVINGS_PCT = exact_float (3 * u).
Proof.
  intros Hu Hz.
  rewrite !exact_float_pos by lia.
  assert (Hw : 0 < 3 * u) by lia.
  pose proof (Zdigits2_between (3 * u) (10 * u) 1 2 Hw) as Hd.
  destruct (Zdigits2_bounds (3 * u) Hw) as [Hdw [Wlo Whi]].
  pose proof (Zdigits2_le_53 (10 * u)) as Hz53.
  pose proof (mantissa_bounds (10 * u)) as Mz.
  pose proof (mantissa_bounds (3 * u)) as Mw.
  set (dz := Zdigits2 (10 * u)) in *. set (dw := Zdigits2 (3 * u)) in *.
  assert (Hcase : dz = dw + 1 \/ dz = dw + 2)
    by (change (2 ^ 1) with 2 in Hd; change (2 ^ 2) with 4 in Hd; lia).
  unfold SAVINGS_PCT. cbn [SFmul xorb].
  rewrite Zpos_to_pos_mul by lia.
  assert (Hsplit : 2 ^ (53 - dw) = 2 ^ (dz - dw) * 2 ^ (53 - dz)).
  { rewrite <- Z.pow_add_r by lia. f_equal. lia. }
  assert (HA : 0 < 2 ^ (53 - dz)) by (apply Z.pow_pos_nonneg; lia).
  assert (HB : 3 * u * 2 ^ (53 - dw) < 2 ^ 53) by lia.
  assert (HC : 2 ^ 52 <= 3 * u * 2 ^ (53 - dw)) by lia.
  set (A := 2 ^ (53 - dz)) in *.
  assert (HuA : 0 < u * A) by (apply Z.mul_pos_pos; lia).
  destruct Hcase as [Hc | Hc].
  - replace (dz - dw) with 1 in Hsplit by lia.
    replace (10 * u * A * 5404319552844595)
      with (3 * u * 2 ^ (53 - dw) * 2 ^ 53 - 2 * (u * A)).
    2:{ rewrite Hsplit. change (2 ^ 1) with 2. change (2 ^ 53) with 9007199254740992. lia. }
    change 53 with (Zpos 53) at 3.
    rewrite Hsplit in HB, HC. change (2 ^ 1) with 2 in HB, HC.
    change (2 ^ 53) with 9007199254740992 in HB.
    change (2 ^ 52) with 4503599627370496 in HC.
    rewrite binary_round_aux_below; [f_equal; lia | | lia | | lia].
    + rewrite Hsplit. change (2 ^ 1) with 2.
      change (2 ^ 53) with 9007199254740992. change (2 ^ 52) with 4503599627370496. lia.
    + change (2 ^ Zpos 53) with 9007199254740992. lia.
  - replace (dz - dw) with 2 in Hsplit by lia.
    replace (10 * u * A * 5404319552844595)
      with (3 * u * 2 ^ (53 - dw) * 2 ^ 52 - 2 * (u * A)).
    2:{ rewrite Hsplit. change (2 ^ 2) with 4. change (2 ^ 52) with 4503599627370496. lia. }
    change 52 with (Zpos 52) at 1.
    rewrite Hsplit in HB, HC. change (2 ^ 2) with 4 in HB, HC.
    change (2 ^ 53) with 9007199254740992 in HB.
    change (2 ^ 52) with 4503599627370496 in HC.
    rewrite binary_round_aux_below; [f_equal; lia | | lia | | lia].
    + rewrite Hsplit. change (2 ^ 2) with 4.
      change (2 ^ 53) with 9007199254740992. change (2 ^ 52) with 4503599627370496. lia.
    + change (2 ^ Zpos 52) with 4503599627370496. lia.
Qed.

Lemma shl_align_fst (m : positive) (e e' : Z) :
  e' <= e -> Zpos (fst (shl_align m e e')) = Zpos m * 2 ^ (e - e').
Proof.
  intros Hle. unfold shl_align.
  destruct (e' - e) as [| t | t] eqn:Ht; cbn [fst].
  - replace (e - e') with 0 by lia. rewrite Z.pow_0_r. lia.
  - lia.
  - change (Pos.iter xO m t) with (shift_pos t m).
    rewrite shift_pos_correct, Z.pow_pos_fold.
    replace (e - e') with (Zpos t) by lia. lia.
Qed.

(** The aligned mantissa of [exact_float n] at an exponent [ez] no larger
    than its own is [n * 2^(-ez)]. *)
Lemma aligned_mantissa (n ez : Z) :
  0 < n < 2 ^ 53 -> ez <= Zdigits2 n - 53 ->
  Zpos (fst (shl_align (Z.to_pos (n * 2 ^ (53 - Zdigits2 n))) (Zdigits2 n - 53) ez)) =
  n * 2 ^ (- ez).
Proof.
  intros Hn Hez.
  pose proof (Zdigits2_le_53 n Hn) as Hd.
  pose proof (mantissa_bounds n Hn) as Hm.
  rewrite shl_align_fst by lia.
  rewrite Z2Pos.id by lia.
  rewrite <- Z.mul_assoc, <- Z.pow_add_r by lia.
  f_equal. f_equal. lia.
Qed.

Lemma SFadd_exact (a b : Z) :
  0 < a -> 0 < b -> a + b < 2 ^ 53 ->
  SFadd prec emax (exact_float a) (exact_float b) = exact_float (a + b).
Proof.
  intros Ha Hb Hab.
  rewrite !exact_float_pos by lia. cbn [SFadd cond_Zopp].
  pose proof (Zdigits2_le_53 a) as Hda. pose proof (Zdigits2_le_53 b) as Hdb.
  set (ez := Z.min (Zdigits2 a - 53) (Zdigits2 b - 53)).
  rewrite (aligned_mantissa a ez), (aligned_mantissa b ez) by lia.
  assert (Hp : 0 < 2 ^ (- ez)) by (apply Z.pow_pos_nonneg; lia).
  destruct (a * 2 ^ (- ez) + b * 2 ^ (- ez)) as [| m | m] eqn:Hm; try nia.
  cbn [binary_normalize].
  apply (binary_round_integer false m ez (a + b)); lia.
Qed.

Lemma SFsub_exact (a b : Z) :
  0 < b -> b < a -> a < 2 ^ 53 ->
  SFsub prec emax (exact_float a) (exact_float b) = exact_float (a - b).
Proof.
  intros Hb Hba Ha.
  rewrite !exact_float_pos by lia. cbn [SFsub cond_Zopp].
  pose proof (Zdigits2_le_53 a) as Hda. pose proof (Zdigits2_le_53 b) as Hdb.
  set (ez := Z.min (Zdigits2 a - 53) (Zdigits2 b - 53)).
  rewrite (aligned_mantissa a ez), (aligned_mantissa b ez) by lia.
  assert (Hp : 0 < 2 ^ (- ez)) by (apply Z.pow_pos_nonneg; lia).
  destruct (a * 2 ^ (- ez) - b * 2 ^ (- ez)) as [| m | m] eqn:Hm; try nia.
  cbn [binary_normalize].
  apply (binary_round_integer false m ez (a - b)); lia.
Qed.

Lemma div_eucl_unique (a b q r : Z) :
  0 <= r < b -> a = b * q + r -> Z.div_eucl a b = (q, r).
Proof.
  intros Hr Ha.
  pose proof (Z.div_unique_pos a b q r Hr Ha) as Hq.
  pose proof (Z.mod_unique_pos a b q r Hr Ha) as Hm.
  unfold Z.div, Z.modulo in Hq, Hm.
  destruct (Z.div_eucl a b) as [q' r']. now subst.
Qed.

Lemma new_location_lt (steps k : Z) :
  0 < k -> 2 * k < steps -> new_location steps k = loc_Inexact Lt.
Proof.
  intros Hk Hlt. unfold new_location.
  assert (Hk0 : (k =? 0) = false) by (apply Z.eqb_neq; lia).
  destruct (Z.even steps); unfold new_location_even, new_location_odd; rewrite Hk0.
  - f_equal. apply Z.compare_lt_iff. lia.
  - destruct (2 * k + 1 ?= steps) eqn:Hc; try reflexivity.
    rewrite Z.compare_gt_iff in Hc. lia.
Qed.

Lemma new_location_gt (steps k : Z) :
  0 < k -> steps < 2 * k -> new_location steps k = loc_Inexact Gt.
Proof.
  intros Hk Hlt. unfold new_location.
  assert (Hk0 : (k =? 0) = false) by (apply Z.eqb_neq; lia).
  destruct (Z.even steps); unfold new_location_even, new_location_odd; rewrite Hk0.
  - f_equal. apply Z.compare_gt_iff. lia.
  - destruct (2 * k + 1 ?= steps) eqn:Hc; try reflexivity.
    + rewrite Z.compare_eq_iff in Hc. lia.
    + rewrite Z.compare_lt_iff in Hc. lia.
Qed.

(** The quotient of the exact doubles of [2c] and [3c] is the double
    nearest to 2/3, whatever [c]. *)
Lemma SFdiv_two_thirds (c : Z) :
  0 < c -> 3 * c < 2 ^ 53 ->
  SFdiv prec emax (exact_float (2 * c)) (exact_float (3 * c)) = two_thirds.
Proof.
  intros Hc Hb.
  rewrite !exact_float_pos by lia.
  assert (Ha : 0 < 2 * c) by lia.
  pose proof (Zdigits2_between (2 * c) (3 * c) 0 1 Ha) as Hd.
  pose proof (Zdigits2_le_53 (2 * c)) as Hda.
  pose proof (Zdigits2_le_53 (3 * c)) as Hdb.
  pose proof (mantissa_bounds (2 * c)) as Ma.
  pose proof (mantissa_bounds (3 * c)) as Mb.
  set (da := Zdigits2 (2 * c)) in *. set (db := Zdigits2 (3 * c)) in *.
  assert (Hcase : db = da \/ db = da + 1)
    by (change (2 ^ 0) with 1 in Hd; change (2 ^ 1) with 2 in Hd; lia).
  cbn [SFdiv xorb]. unfold SFdiv_core_binary.
  rewrite !Z2Pos.id by lia.
  rewrite (Zdigits2_unique (2 * c * 2 ^ (53 - da)) 53) by lia.
  rewrite (Zdigits2_unique (3 * c * 2 ^ (53 - db)) 53) by lia.
  replace (53 + (da - 53) - (53 + (db - 53))) with (da - db) by lia.
  rewrite fexp_normal by lia.
  replace (Z.min (da - db - 53) (da - 53 - (db - 53))) with (da - db - 53) by lia.
  replace (da - 53 - (db - 53) - (da - db - 53)) with 53 by lia.
  rewrite Z.shiftl_mul_pow2 by lia.
  destruct Hcase as [Hcase | Hcase].
  - rewrite Hcase in *. clear Hcase.
    assert (HX : 0 < 2 ^ (53 - da)) by (apply Z.pow_pos_nonneg; lia).
    set (X := 2 ^ (53 - da)) in *.
    rewrite (div_eucl_unique _ _ 6004799503160661 (c * X)).
    2:{ nia. }
    2:{ change (2 ^ 53) with 9007199254740992. lia. }
    rewrite new_location_lt by nia.
    replace (da - da - 53) with (-53) by lia.
    vm_compute. reflexivity.
  - assert (Hsplit : 2 ^ (53 - da) = 2 * 2 ^ (53 - db)).
    { replace (53 - da) with (1 + (53 - db)) by lia.
      rewrite Z.pow_add_r by lia. reflexivity. }
    assert (HX : 0 < 2 ^ (53 - db)) by (apply Z.pow_pos_nonneg; lia).
    rewrite Hsplit in *. set (Y := 2 ^ (53 - db)) in *.
    rewrite (div_eucl_unique _ _ 12009599006321322 (2 * (c * Y))).
    2:{ nia. }
    2:{ change (2 ^ 53) with 9007199254740992. lia. }
    rewrite new_location_gt by nia.
    replace (da - db - 53) with (-54) by lia.
    vm_compute. reflexivity.
Qed.

Lemma round_nearest_even_cases (q : Z) (r st : bool) :
  let q' := round_nearest_even q (loc_of_shr_record (Build_shr_record q r st)) in
  q' = q \/ (q' = q + 1 /\ r = true).
Proof.
  destruct r, st; cbn [loc_of_shr_record round_nearest_even]; auto.
  destruct (Z.even q); auto.
Qed.

(** Rounding a mantissa of [53 + k] digits stays finite unless it sits at
    the very top of the exponent range. *)
Lemma binary_round_aux_finite (s : bool) (P e : Z) (k : positive) :
  2 ^ (52 + Zpos k) <= P < 2 ^ (53 + Zpos k) -> -1074 <= e + Zpos k ->
  e + Zpos k <= 970 \/ (e + Zpos k = 971 /\ P < (2 ^ 54 - 1) * 2 ^ (Zpos k - 1)) ->
  exists m e',
    binary_round_aux prec emax s P e loc_Exact = S754_finite s m e' /\
    2 ^ 52 <= Zpos m < 2 ^ 53 /\ e' <= 971 /\
    (e' = e + Zpos k \/ (e' = e + Zpos k + 1 /\ Zpos m = 2 ^ 52)).
Proof.
  intros HP Hlo Hhi. unfold binary_round_aux.
  rewrite (shr_fexp_shift _ _ k) by assumption.
  cbn [shr_m].
  assert (Hp : 0 < 2 ^ (Zpos k - 1)) by (apply Z.pow_pos_nonneg; lia).
  assert (Hk : 2 ^ Zpos k = 2 * 2 ^ (Zpos k - 1)).
  { replace (Zpos k) with (Zpos k - 1 + 1) at 1 by lia.
    rewrite Z.pow_add_r, Z.pow_1_r by lia. lia. }
  assert (H52 : 2 ^ (52 + Zpos k) = 2 ^ 52 * 2 ^ Zpos k) by (rewrite Z.pow_add_r; lia).
  assert (H53 : 2 ^ (53 + Zpos k) = 2 ^ 53 * 2 ^ Zpos k) by (rewrite Z.pow_add_r; lia).
  set (q := P / 2 ^ Zpos k).
  assert (Hq : 2 ^ 52 <= q < 2 ^ 53).
  { unfold q. split.
    - apply Z.div_le_lower_bound; lia.
    - apply Z.div_lt_upper_bound; lia. }
  set (rb := Z.odd (P / 2 ^ (Zpos k - 1))).
  set (st := negb (P mod 2 ^ (Zpos k - 1) =? 0)).
  destruct (round_nearest_even_cases q rb st) as [Hq' | [Hq' Hrb]].
  - rewrite Hq'. rewrite round_stage2 by lia.
    exists (Z.to_pos q), (e + Zpos k). rewrite Z2Pos.id by lia.
    split; [reflexivity |]. split; [lia |]. split; [lia | now left].
  - rewrite Hq'. destruct (Z.eq_dec (q + 1) (2 ^ 53)) as [Htop | Htop].
    + (* the carry reaches 2^53: one more bit goes *)
      rewrite Htop. unfold shr_fexp.
      rewrite (Zdigits2_unique (2 ^ 53) 54) by (change (2 ^ 53) with 9007199254740992;
        change (2 ^ (54 - 1)) with 9007199254740992; change (2 ^ 54) with 18014398509481984; lia).
      rewrite fexp_normal by lia.
      replace (54 + (e + Zpos k) - 53 - (e + Zpos k)) with 1 by lia.
      cbn [shr_record_of_loc shr iter_pos].
      change (2 ^ 53) with 9007199254740992. cbn [shr_1 shr_m].
      assert (Hfit : e + Zpos k + 1 <= 971).
      { destruct Hhi as [Hhi | [Hhi HPtop]]; [lia |]. exfalso.
        (* the round bit is set and the quotient is all ones *)
        assert (Hodd : P / 2 ^ (Zpos k - 1) = 2 * q + 1).
        { pose proof (Z.div_mod P (2 ^ Zpos k)) as E1.
          pose proof (Z.mod_pos_bound P (2 ^ Zpos k)) as B1.
          pose proof (Z.div_mod P (2 ^ (Zpos k - 1))) as E2.
          pose proof (Z.mod_pos_bound P (2 ^ (Zpos k - 1))) as B2.
          fold q in E1.
          unfold rb in Hrb. apply Z.odd_spec in Hrb. destruct Hrb as [j Hj].
          rewrite Hj in E2. nia. }
        pose proof (Z.mul_div_le P (2 ^ (Zpos k - 1)) Hp) as Hle.
        rewrite Hodd in Hle.
        change (2 ^ 54) with 18014398509481984 in HPtop.
        change (2 ^ 53) with 9007199254740992 in Htop. nia. }
      replace (e + Zpos k + 1 <=? emax - prec) with true
        by (symmetry; apply Z.leb_le; unfold emax, prec; lia).
      eexists. eexists. split; [reflexivity |].
      change (2 ^ 52) with 4503599627370496.
      split; [lia |]. split; [lia | right; split; reflexivity].
    + rewrite round_stage2 by lia.
      exists (Z.to_pos (q + 1)), (e + Zpos k). rewrite Z2Pos.id by lia.
      split; [reflexivity |]. split; [lia |]. split; [lia | now left].
Qed.

Lemma binary_round_int_finite (s : bool) (p : positive) :
  Zpos p < float_int_bound ->
  exists m e,
    binary_round prec emax s p 0 = S754_finite s m e /\
    2 ^ 52 <= Zpos m < 2 ^ 53 /\ -52 <= e <= 971.
Proof.
  intros Hb. destruct (Z.lt_ge_cases (Zpos p) (2 ^ 53)) as [Hsmall | Hbig].
  - rewrite (binary_round_integer s p 0 (Zpos p)) by (rewrite ?Z.pow_0_r; lia).
    pose proof (mantissa_bounds (Zpos p)) as Hm.
    pose proof (Zdigits2_le_53 (Zpos p)) as Hd.
    eexists. eexists. split; [reflexivity |].
    rewrite Z2Pos.id by lia. lia.
  - destruct (Zdigits2_bounds (Zpos p)) as [_ [Dlo Dhi]]; [lia |].
    cbn [Zdigits2] in Dlo, Dhi.
    set (d := Zpos (digits2_pos p)) in *.
    assert (Hd53 : 53 < d).
    { assert (H : 2 ^ 53 < 2 ^ d) by lia. apply Z.pow_lt_mono_r_iff in H; lia. }
    assert (Hd1024 : d <= 1024).
    { assert (H : 2 ^ (d - 1) < 2 ^ 1024) by (unfold float_int_bound in Hb;
        assert (0 < 2 ^ 970) by (apply Z.pow_pos_nonneg; lia); lia).
      apply Z.pow_lt_mono_r_iff in H; lia. }
    unfold binary_round. fold d. rewrite Z.add_0_r, fexp_normal by lia.
    unfold shl_align. rewrite Z.sub_0_r.
    destruct (d - 53) as [| k | k] eqn:Hk; try lia.
    destruct (binary_round_aux_finite s (Zpos p) 0 k) as [m [e' [E [Hm He']]]].
    + replace (52 + Zpos k) with (d - 1) by lia. replace (53 + Zpos k) with d by lia. lia.
    + lia.
    + destruct (Z.eq_dec (Zpos k) 971) as [Htop | Hne]; [right | left; lia].
      split; [lia |]. rewrite Htop.
      unfold float_int_bound in Hb.
      replace ((2 ^ 54 - 1) * 2 ^ (971 - 1)) with (2 ^ 1024 - 2 ^ 970); [assumption |].
      change (971 - 1) with 970. replace 1024 with (54 + 970) by reflexivity.
      rewrite Z.pow_add_r by lia. lia.
    + exists m, e'. split; [exact E |]. split; [exact Hm |]. lia.
Qed.

Lemma float_of_int_in_range (n : Z) :
  Z.abs n < float_int_bound ->
  exists x, float_of_int n = Ok x /\
            match x with
            | S754_zero _ => n = 0
            | S754_finite s m e =>
                s = (n <? 0) /\ n <> 0 /\ 2 ^ 52 <= Zpos m < 2 ^ 53 /\ -52 <= e <= 971
            | _ => False
            end.
Proof.
  intros Hn. unfold float_of_int. destruct n as [| p | p]; cbn [binary_normalize].
  - eexists. split; reflexivity.
  - destruct (binary_round_int_finite false p) as [m [e [E Hme]]]; [lia |].
    rewrite E. eexists. split; [reflexivity |]. cbn. repeat split; try lia; discriminate.
  - destruct (binary_round_int_finite true p) as [m [e [E Hme]]]; [lia |].
    rewrite E. eexists. split; [reflexivity |]. cbn. repeat split; try lia; discriminate.
Qed.

Lemma shr_1_keeps_nonneg (mrs : shr_record) :
  0 <= shr_m mrs -> 0 <= shr_m (shr_1 mrs).
Proof.
  destruct mrs as [m r s]. cbn [shr_m]. intros Hm.
  rewrite shr_1_nonneg by assumption. cbn [shr_m].
  apply Z.div_pos; lia.
Qed.

Lemma shr_keeps_nonneg (mrs : shr_record) (e n : Z) :
  0 <= shr_m mrs -> 0 <= shr_m (fst (shr mrs e n)).
Proof.
  intros Hm. unfold shr. destruct n as [| p | p]; cbn [fst]; try assumption.
  rewrite iter_pos_nat.
  apply (Nat.iter_invariant _ _ _ (fun x => 0 <= shr_m x)); [| assumption].
  apply shr_1_keeps_nonneg.
Qed.

Lemma shr_fexp_keeps_nonneg (m e : Z) (l : location) :
  0 <= m -> 0 <= shr_m (fst (shr_fexp prec emax m e l)).
Proof.
  intros Hm. unfold shr_fexp. apply shr_keeps_nonneg.
  destruct l as [| []]; assumption.
Qed.

Lemma round_nearest_even_nonneg (m : Z) (l : location) :
  0 <= m -> 0 <= round_nearest_even m l.
Proof.
  intros Hm. destruct l as [| []]; cbn [round_nearest_even]; try lia.
  destruct (Z.even m); lia.
Qed.

Lemma binary_round_aux_signed (s : bool) (m : positive) (e : Z) (l : location) :
  signed_number s (binary_round_aux prec emax s (Zpos m) e l).
Proof.
  unfold binary_round_aux.
  pose proof (shr_fexp_keeps_nonneg (Zpos m) e l) as H1.
  destruct (shr_fexp prec emax (Zpos m) e l) as [mrs' e'].
  cbn [fst] in H1. specialize (H1 ltac:(lia)).
  pose proof (round_nearest_even_nonneg (shr_m mrs') (loc_of_shr_record mrs') H1) as H2.
  pose proof (shr_fexp_keeps_nonneg _ e' loc_Exact H2) as H3.
  destruct (shr_fexp prec emax _ e' loc_Exact) as [mrs'' e''].
  cbn [fst] in H3.
  destruct (shr_m mrs'') as [| p | p]; try lia; cbn [signed_number]; try reflexivity.
  destruct (e'' <=? emax - prec); reflexivity.
Qed.

(** ** Signs of the computed amounts *)
Lemma binary_round_signed (s : bool) (m : positive) (e : Z) :
  signed_number s (binary_round prec emax s m e).
Proof.
  unfold binary_round.
  destruct (shl_align m e (fexp prec emax (Zpos (digits2_pos m) + e))) as [mz ez].
  apply binary_round_aux_signed.
Qed.

Lemma binary_normalize_nonneg (D e : Z) :
  0 <= D -> signed_number false (binary_normalize prec emax D e false).
Proof.
  intros HD. destruct D as [| p | p]; try lia; cbn [binary_normalize].
  - reflexivity.
  - apply binary_round_signed.
Qed.

(** The savings of a normal positive labour cost: a normal positive
    float, at most two binades below. *)
Lemma SFmul_savings_normal (mx : positive) (ex : Z) :
  2 ^ 52 <= Zpos mx < 2 ^ 53 -> -52 <= ex <= 971 ->
  exists m e',
    SFmul prec emax (S754_finite false mx ex) SAVINGS_PCT = S754_finite false m e' /\
    2 ^ 52 <= Zpos m < 2 ^ 53 /\
    (ex - 2 <= e' <= ex - 1 \/ (e' = ex /\ Zpos m = 2 ^ 52)).
Proof.
  intros Hm He. unfold SAVINGS_PCT. cbn [SFmul xorb].
  rewrite Pos2Z.inj_mul.
  pow2.
  destruct (Z.lt_ge_cases (Zpos mx * 5404319552844595) (2 ^ 105)) as [Hlo | Hhi].
  - destruct (binary_round_aux_finite false (Zpos mx * 5404319552844595) (ex + -54) 52)
      as [m [e' [E [Hmm [_ He']]]]].
    + change (2 ^ (52 + 52)) with (2 ^ 104). change (2 ^ (53 + 52)) with (2 ^ 105).
      split; [| assumption]. change (2 ^ 104) with 20282409603651670423947251286016. lia.
    + lia.
    + left. lia.
    + exists m, e'. split; [exact E |].
      pow2.
      split; [lia |]. left. lia.
  - destruct (binary_round_aux_finite false (Zpos mx * 5404319552844595) (ex + -54) 53)
      as [m [e' [E [Hmm [_ He']]]]].
    + change (2 ^ (52 + 53)) with (2 ^ 105). change (2 ^ (53 + 53)) with (2 ^ 106).
      split; [assumption |].
      change (2 ^ 106) with 81129638414606681695789005144064. lia.
    + lia.
    + left. lia.
    + exists m, e'. split; [exact E |].
      pow2.
      split; [lia |]. destruct He' as [-> | [-> Hc]]; [left; lia | right; split; lia].
Qed.

Lemma SFsub_savings_nonneg (mx : positive) (ex : Z) :
  2 ^ 52 <= Zpos mx < 2 ^ 53 -> -52 <= ex <= 971 ->
  signed_number false
    (SFsub prec emax (S754_finite false mx ex)
           (SFmul prec emax (S754_finite false mx ex) SAVINGS_PCT)).
Proof.
  intros Hm He.
  destruct (SFmul_savings_normal mx ex Hm He) as [m [e' [E [Hmm He']]]].
  rewrite E. cbn [SFsub cond_Zopp].
  replace (Z.min ex e') with e' by lia.
  rewrite !shl_align_fst by lia.
  replace (e' - e') with 0 by lia. rewrite Z.pow_0_r, Z.mul_1_r.
  apply binary_normalize_nonneg.
  pow2.
  destruct He' as [He' | [-> Hc]].
  - assert (Hcase : ex - e' = 1 \/ ex - e' = 2) by lia.
    destruct Hcase as [-> | ->]; [change (2 ^ 1) with 2 | change (2 ^ 2) with 4]; lia.
  - replace (ex - ex) with 0 by lia. rewrite Z.pow_0_r. lia.
Qed.

Lemma SFadd_nonneg (x y : float) :
  signed_number false x -> signed_number false y ->
  signed_number false (SFadd prec emax x y).
Proof.
  destruct x as [sx | sx | | sx mx ex], y as [sy | sy | | sy my ey];
    cbn [signed_number]; try tauto; intros -> ->; cbn [SFadd signed_number];
    try reflexivity.
  cbn [cond_Zopp]. apply binary_normalize_nonneg. lia.
Qed.

Lemma exact_float_nonneg (n : Z) : 0 <= n -> signed_number false (exact_float n).
Proof. destruct n; try lia; reflexivity. Qed.

Lemma signed_nonneg_ge_zero (x : float) :
  signed_number false x -> float_ge_zero x = true.
Proof.
  destruct x as [sx | sx | | sx mx ex]; cbn [signed_number]; try tauto;
    intros ->; reflexivity.
Qed.

End Binary64.

Import Binary64.

(** ** Technology cost *)


(* tech cost *)
Lemma total_indicator (k : string) (v : Z) (g : string -> Z) (S : list string) :
  g k = 0 ->
  total (map (fun t => if String.eqb t k then v else g t) S) =
  total (map (fun t => if String.eqb t k then v else 0) S) + total (map g S).
Proof.
  intros Hg. induction S as [| t S IH]; cbn [map total]; [reflexivity |].
  rewrite IH. destruct (String.eqb t k) eqn:E.
  - apply String.eqb_eq in E. subst. lia.
  - lia.
Qed.

Lemma total_once (k : string) (v : Z) (S : list string) :
  NoDup S ->
  total (map (fun t => if String.eqb t k then v else 0) S) =
  if contains S k then v else 0.
Proof.
  induction 1 as [| t S Hnotin Hnd IH]; cbn [map total]; [reflexivity |].
  unfold contains in *. cbn [existsb]. rewrite IH.
  rewrite (String.eqb_sym k t).
  destruct (String.eqb t k) eqn:E; cbn [orb]; [| lia].
  apply String.eqb_eq in E. subst.
  replace (existsb (String.eqb k) S) with false; [lia |].
  symmetry. apply contains_not_In. assumption.
Qed.

Lemma get_missing (d : dict) (k : string) : ~ In k (keys d) -> get d k 0 = 0.
Proof.
  induction d as [| [k' v] d IH]; cbn [get keys map fst]; [reflexivity |].
  intros Hnot. destruct (String.eqb k k') eqn:E.
  - apply String.eqb_eq in E. subst. exfalso. apply Hnot. now left.
  - apply IH. intros Hin. apply Hnot. now right.
Qed.

Lemma total_get_selected (d : dict) (S : list string) :
  NoDup (keys d) -> NoDup S ->
  total (map (fun t => get d t 0) S) =
  total (map snd (filter (fun kv => contains S (fst kv)) d)).
Proof.
  intros Hd HS. induction d as [| [k v] d IH]; cbn [get filter fst].
  - induction S as [| t S IHS]; cbn [map total]; [reflexivity |].
    inversion HS; subst. rewrite IHS by assumption. reflexivity.
  - inversion Hd as [| ? ? Hnotin Hd']; subst.
    change (fun t => if String.eqb t k then v else get d t 0)
      with (fun t => if String.eqb t k then v else (fun t => get d t 0) t).
    rewrite (total_indicator k v (fun t => get d t 0)) by (now apply get_missing).
    rewrite total_once, IH by assumption.
    destruct (contains S k); cbn [map snd total]; lia.
Qed.

Lemma tech_cost_selected (S : list string) :
  NoDup S ->
  py_sum (map (fun t => get TECH_LICENSE_COSTS t 0) S) = selected_license_total S.
Proof.
  intros HS. rewrite py_sum_total. apply total_get_selected; [| assumption].
  repeat constructor; cbn; intuition congruence.
Qed.

Lemma total_filter_bounds (f : string * Z -> bool) (d : dict) :
  Forall (fun kv => 0 <= snd kv) d ->
  0 <= total (map snd (filter f d)) <= total (map snd d).
Proof.
  induction 1 as [| kv d Hkv _ IH]; cbn [filter map total]; [lia |].
  destruct (f kv); cbn [map total]; lia.
Qed.

Lemma selected_license_total_bounds (S : list string) :
  0 <= selected_license_total S <= 42000.
Proof.
  unfold selected_license_total.
  change 42000 with (total (map snd TECH_LICENSE_COSTS)).
  apply total_filter_bounds. repeat constructor; cbn; lia.
Qed.

(** ** The financial summary *)

Lemma payback_branch (impl sav : float) :
  (if float_truth sav && float_gt_zero sav
   then try_except (q <- float_truediv impl sav ;; Ok (Some q)) (Ok None)
   else Ok None) =
  Ok (if float_gt_zero sav then Some (SFdiv prec emax impl sav) else None).
Proof.
  destruct sav as [s | s | | s m e]; try reflexivity; destruct s; reflexivity.
Qed.

Lemma calculate_costs_unfold (h : Z) (S : list string) (x : float) :
  NoDup S -> float_of_int (h * ANNUAL_COST_PER_FTE) = Ok x ->
  calculate_costs h S =
  Ok (mkCosts (h * ANNUAL_COST_PER_FTE)
              (SFmul prec emax x IMPLEMENTATION_PCT)
              (selected_license_total S)
              (SFmul prec emax x SAVINGS_PCT)
              (SFadd prec emax (SFsub prec emax x (SFmul prec emax x SAVINGS_PCT))
                     (exact_float (selected_license_total S)))
              (if float_gt_zero (SFmul prec emax x SAVINGS_PCT)
               then Some (SFdiv prec emax (SFmul prec emax x IMPLEMENTATION_PCT)
                                (SFmul prec emax x SAVINGS_PCT))
               else None)).
Proof.
  intros HS Hx. unfold calculate_costs, int_mul_float, int_sub_float, float_add_int.
  rewrite Hx, tech_cost_selected by assumption.
  pose proof (selected_license_total_bounds S) as HT.
  rewrite (float_of_int_exact (selected_license_total S))
    by (pow2; lia).
  cbn [bind]. rewrite payback_branch. reflexivity.
Qed.

Lemma calculate_costs_exact (h : Z) (S : list string) :
  0 < h -> h * ANNUAL_COST_PER_FTE < 2 ^ 53 -> NoDup S ->
  calculate_costs h S =
  Ok (mkCosts (h * ANNUAL_COST_PER_FTE)
              (exact_float (12000 * h))
              (selected_license_total S)
              (exact_float (18000 * h))
              (exact_float (42000 * h + selected_license_total S))
              (Some two_thirds)).
Proof.
  intros Hh Hb HS. unfold ANNUAL_COST_PER_FTE in *.
  change (2 ^ 53) with 9007199254740992 in Hb.
  rewrite (calculate_costs_unfold h S (exact_float (h * 60000)) HS)
    by (apply float_of_int_exact; pow2; lia).
  pose proof (selected_license_total_bounds S) as HT.
  set (T := selected_license_total S) in *.
  assert (E1 : SFmul prec emax (exact_float (h * 60000)) IMPLEMENTATION_PCT =
               exact_float (12000 * h)).
  { replace (h * 60000) with (5 * (12000 * h)) by lia.
    apply SFmul_fifth; pow2; lia. }
  assert (E2 : SFmul prec emax (exact_float (h * 60000)) SAVINGS_PCT =
               exact_float (18000 * h)).
  { replace (h * 60000) with (10 * (6000 * h)) by lia.
    replace (18000 * h) with (3 * (6000 * h)) by lia.
    apply SFmul_three_tenths; pow2; lia. }
  assert (E3 : SFsub prec emax (exact_float (h * 60000)) (exact_float (18000 * h)) =
               exact_float (42000 * h)).
  { replace (42000 * h) with (h * 60000 - 18000 * h) by lia.
    apply SFsub_exact; pow2; lia. }
  assert (E4 : SFadd prec emax (exact_float (42000 * h)) (exact_float T) =
               exact_float (42000 * h + T)).
  { destruct (Z.eq_dec T 0) as [HT0 | HT0].
    - rewrite HT0, Z.add_0_r. rewrite exact_float_pos by lia. reflexivity.
    - apply SFadd_exact; pow2; lia. }
  assert (E5 : SFdiv prec emax (exact_float (12000 * h)) (exact_float (18000 * h)) =
               two_thirds).
  { replace (12000 * h) with (2 * (6000 * h)) by lia.
    replace (18000 * h) with (3 * (6000 * h)) by lia.
    apply SFdiv_two_thirds; pow2; lia. }
  rewrite E1, E2, E3, E4, E5.
  rewrite (exact_float_pos (18000 * h)) by lia. reflexivity.
Qed.

Lemma sample_selection : catalog_subset ["RPA"; "AI"].
Proof.
  split.
  - repeat constructor; cbn; intuition congruence.
  - intros t Ht. cbn in *. intuition.
Qed.

Lemma empty_selection : catalog_subset [].
Proof. split; [constructor | intros t []]. Qed.

Create HintDb rfp.
#[local] Hint Resolve sample_selection empty_selection : rfp.

Lemma SFmul_signed (x y : float) (s : bool) :
  signed_number s x -> signed_number false y ->
  match x, y with
  | S754_infinity _, _ | _, S754_infinity _ => True
  | _, _ => signed_number s (SFmul prec emax x y)
  end.
Proof.
  destruct x as [sx | sx | | sx mx ex], y as [sy | sy | | sy my ey];
    cbn [signed_number SFmul]; try tauto; intros -> ->;
    try (destruct s; reflexivity).
  replace (xorb s false) with s by (destruct s; reflexivity).
  apply binary_round_aux_signed.
Qed.

Lemma sign_tests_agree (s : bool) (x : float) :
  signed_number s x -> float_gt_zero x = negb (float_le_zero x).
Proof.
  destruct x as [sx | sx | | sx mx ex]; cbn [signed_number]; try tauto;
    intros _; destruct sx; reflexivity.
Qed.

(** C3 (amended). For every positive headcount whose labour cost converts
    to a float (h * 60000 below 2^1024 - 2^970) and every subset of the
    catalog, [calculate_costs] returns: the labour cost is the integer
    h * 60000; implementation cost and savings are its binary64 products
    with 0.20 and 0.30; the technology cost is the sum of the licence
    costs of the selected catalog entries only; the net annual cost is
    labour minus savings plus technology cost in binary64 arithmetic. When
    the labour cost is below 2^53 the three float fields hold exactly
    12000 h, 18000 h and 42000 h + techCost. For h = 25 with RPA and AI
    the summary is 1,500,000 / 300,000 / 17,000 / 450,000 / 1,067,000. *)
Theorem calculate_costs_formulas (h : Z) (S : list string) :
  0 < h -> h * ANNUAL_COST_PER_FTE < float_int_bound -> catalog_subset S ->
  (exists (labour : float) (c : costs),
     float_of_int (h * ANNUAL_COST_PER_FTE) = Ok labour /\
     calculate_costs h S = Ok c /\
     headcount_cost c = h * ANNUAL_COST_PER_FTE /\
     implementation_cost c = SFmul prec emax labour IMPLEMENTATION_PCT /\
     annual_savings c = SFmul prec emax labour SAVINGS_PCT /\
     tech_cost c = selected_license_total S /\
     net_annual_cost c =
       SFadd prec emax (SFsub prec emax labour (annual_savings c))
             (exact_float (tech_cost c)) /\
     (h * ANNUAL_COST_PER_FTE < 2 ^ 53 ->
        implementation_cost c = exact_float (12000 * h) /\
        annual_savings c = exact_float (18000 * h) /\
        net_annual_cost c = exact_float (42000 * h + tech_cost c))) /\
  calculate_costs 25 ["RPA"; "AI"] =
    Ok (mkCosts 1500000 (exact_float 300000) 17000 (exact_float 450000)
                (exact_float 1067000) (Some two_thirds)).
Proof.
  intros Hh Hb [HS _]. split; [| reflexivity].
  destruct (float_of_int_in_range (h * ANNUAL_COST_PER_FTE)) as [x [Hx _]].
  { unfold ANNUAL_COST_PER_FTE in *. lia. }
  exists x. eexists. split; [exact Hx |].
  split; [apply (calculate_costs_unfold h S x HS Hx) |].
  cbn [headcount_cost implementation_cost annual_savings tech_cost net_annual_cost].
  repeat (split; [reflexivity |]).
  intros Hsmall.
  pose proof (calculate_costs_exact h S Hh Hsmall HS) as He.
  rewrite (calculate_costs_unfold h S x HS Hx) in He.
  injection He as E1 E2 E3 _. repeat split; assumption.
Qed.

Lemma calculate_costs_formulas_witness :
  0 < 25 /\ 25 * ANNUAL_COST_PER_FTE < float_int_bound /\
  25 * ANNUAL_COST_PER_FTE < 2 ^ 53 /\ catalog_subset ["RPA"; "AI"] /\
  exists (labour : float) (c : costs),
    float_of_int (25 * ANNUAL_COST_PER_FTE) = Ok labour /\
    calculate_costs 25 ["RPA"; "AI"] = Ok c /\
    headcount_cost c = 25 * ANNUAL_COST_PER_FTE /\
    implementation_cost c = SFmul prec emax labour IMPLEMENTATION_PCT /\
    annual_savings c = SFmul prec emax labour SAVINGS_PCT /\
    tech_cost c = selected_license_total ["RPA"; "AI"] /\
    net_annual_cost c =
      SFadd prec emax (SFsub prec emax labour (annual_savings c))
            (exact_float (tech_cost c)) /\
    implementation_cost c = exact_float (12000 * 25) /\
    annual_savings c = exact_float (18000 * 25) /\
    net_annual_cost c = exact_float (42000 * 25 + tech_cost c).
Proof.
  assert (H1 : 0 < 25) by lia.
  assert (H2 : 25 * ANNUAL_COST_PER_FTE < float_int_bound) by (vm_compute; reflexivity).
  assert (H3 : 25 * ANNUAL_COST_PER_FTE < 2 ^ 53) by (vm_compute; reflexivity).
  assert (H4 : catalog_subset ["RPA"; "AI"]) by auto with rfp.
  repeat (split; [assumption |]).
  destruct (calculate_costs_formulas 25 ["RPA"; "AI"] H1 H2 H4)
    as [[labour [c [A [B [C [D [E [F [G H]]]]]]]]] _].
  exists labour, c. repeat (split; [assumption |]). exact (H H3).
Defined.

(** C3 fails as stated: a positive headcount whose labour cost is too
    large for a float makes [calculate_costs] raise; the text "1e305"
    passes the validation and is such a headcount. *)
Lemma calculate_costs_overflow :
  (0 < 10 ^ 305 /\ catalog_subset ["RPA"; "AI"] /\
   calculate_costs (10 ^ 305) ["RPA"; "AI"] = Raise OverflowError) /\
  (exists hc_val,
     validate (sample_form "1e305") = ([], Some hc_val) /\ 0 < hc_val /\
     calculate_costs hc_val (techs (sample_form "1e305")) = Raise OverflowError).
Proof.
  split.
  - split; [reflexivity |]. split; [auto with rfp |]. vm_compute. reflexivity.
  - eexists. split; [vm_compute; reflexivity |]. split; vm_compute; reflexivity.
Qed.

(** Scenario B as displayed, and scenario C: ten people, nothing
    selected. *)
Example scenario_B_display :
  exists c,
    calculate_costs 25 ["RPA"; "AI"] = Ok c /\
    fmt_money (PyInt (headcount_cost c)) = Ok "$1,500,000" /\
    fmt_money (PyFloat (implementation_cost c)) = Ok "$300,000" /\
    fmt_money (PyFloat (annual_savings c)) = Ok "$450,000" /\
    fmt_money (PyInt (tech_cost c)) = Ok "$17,000" /\
    fmt_money (PyFloat (net_annual_cost c)) = Ok "$1,067,000".
Proof. eexists. split; [vm_compute; reflexivity |]. repeat apply conj; reflexivity. Qed.

Example scenario_C :
  calculate_costs 10 [] =
    Ok (mkCosts 600000 (exact_float 120000) 0 (exact_float 180000)
                (exact_float 420000) (Some two_thirds)) /\
  per_solution_table 10 [] =
    Ok (map (fun t => mkRow t 0 0 0 0) ALL_TECHS ++ [mkRow "Total Cost" 0 0 0 0]).
Proof. split; reflexivity. Qed.

(** C4 (amended). For every headcount, positive or not, whose labour cost
    converts to a float (|h * 60000| below 2^1024 - 2^970) and every
    subset of the catalog, [calculate_costs] returns; [payback_years] is
    [None] exactly when the annual savings are [<= 0], and is the binary64
    quotient of implementation cost by annual savings when they are
    [> 0]. *)
Theorem payback_years_guard (h : Z) (S : list string) :
  Z.abs (h * ANNUAL_COST_PER_FTE) < float_int_bound -> catalog_subset S ->
  exists c,
    calculate_costs h S = Ok c /\
    (payback_years c = None <-> float_le_zero (annual_savings c) = true) /\
    (float_gt_zero (annual_savings c) = true ->
       payback_years c =
       Some (SFdiv prec emax (implementation_cost c) (annual_savings c))).
Proof.
  intros Hb [HS _].
  destruct (float_of_int_in_range (h * ANNUAL_COST_PER_FTE) Hb) as [x [Hx Hcls]].
  eexists. split; [apply (calculate_costs_unfold h S x HS Hx) |].
  cbn [payback_years annual_savings implementation_cost].
  assert (Hs : exists s, signed_number s (SFmul prec emax x SAVINGS_PCT)).
  { destruct x as [sx | sx | | sx mx ex]; try contradiction; exists sx.
    - apply (SFmul_signed (S754_zero sx) SAVINGS_PCT); reflexivity.
    - apply (SFmul_signed (S754_finite sx mx ex) SAVINGS_PCT); reflexivity. }
  destruct Hs as [s Hs]. rewrite (sign_tests_agree _ _ Hs).
  destruct (float_le_zero (SFmul prec emax x SAVINGS_PCT)); cbn [negb]; split.
  - split; reflexivity.
  - discriminate.
  - split; discriminate.
  - reflexivity.
Qed.

Lemma payback_years_guard_witness :
  Z.abs (25 * ANNUAL_COST_PER_FTE) < float_int_bound /\
  catalog_subset ["RPA"; "AI"] /\
  exists c,
    calculate_costs 25 ["RPA"; "AI"] = Ok c /\
    (payback_years c = None <-> float_le_zero (annual_savings c) = true) /\
    float_gt_zero (annual_savings c) = true /\
    payback_years c =
      Some (SFdiv prec emax (implementation_cost c) (annual_savings c)).
Proof.
  assert (H1 : Z.abs (25 * ANNUAL_COST_PER_FTE) < float_int_bound)
    by (vm_compute; reflexivity).
  assert (H2 : catalog_subset ["RPA"; "AI"]) by auto with rfp.
  repeat (split; [assumption |]).
  destruct (payback_years_guard 25 ["RPA"; "AI"] H1 H2) as [c [Hc [Hnone Hsome]]].
  assert (Hgt : float_gt_zero (annual_savings c) = true).
  { pose proof Hc as Hc'. vm_compute in Hc'. injection Hc' as <-. reflexivity. }
  exists c. repeat (split; [assumption |]). exact (Hsome Hgt).
Defined.

(** With no headcount at all the savings are zero and there is no
    payback period. *)
Example payback_years_absent :
  exists c, calculate_costs 0 [] = Ok c /\
            float_le_zero (annual_savings c) = true /\ payback_years c = None.
Proof. eexists. split; [vm_compute; reflexivity |]. split; reflexivity. Qed.

(** C4 fails as stated: the first headcount whose labour cost reaches
    2^1024 - 2^970 makes the operation raise. *)
Lemma payback_years_raises :
  0 < float_int_bound / ANNUAL_COST_PER_FTE + 1 /\ catalog_subset [] /\
  raises (calculate_costs (float_int_bound / ANNUAL_COST_PER_FTE + 1) []).
Proof.
  split; [reflexivity |]. split; [auto with rfp |].
  exists OverflowError. vm_compute. reflexivity.
Qed.

(** C9 (amended). For every positive headcount whose labour cost converts
    to a float and every subset of the catalog, [payback_years] is
    present; when the labour cost is below 2^53 it is the double nearest
    to 2/3, whatever the headcount and the selection. *)
Theorem payback_years_constant (h : Z) (S : list string) :
  0 < h -> h * ANNUAL_COST_PER_FTE < float_int_bound -> catalog_subset S ->
  exists c p,
    calculate_costs h S = Ok c /\
    payback_years c = Some p /\
    (h * ANNUAL_COST_PER_FTE < 2 ^ 53 -> p = float_of_ratio 2 3).
Proof.
  intros Hh Hb [HS _].
  destruct (float_of_int_in_range (h * ANNUAL_COST_PER_FTE)) as [x [Hx Hcls]].
  { unfold ANNUAL_COST_PER_FTE in *. lia. }
  destruct x as [sx | sx | | sx mx ex]; try contradiction.
  { unfold ANNUAL_COST_PER_FTE in *. lia. }
  destruct Hcls as [Hsx [_ [Hm He]]].
  replace (h * ANNUAL_COST_PER_FTE <? 0) with false in Hsx
    by (symmetry; apply Z.ltb_ge; unfold ANNUAL_COST_PER_FTE; lia).
  subst sx.
  destruct (SFmul_savings_normal mx ex Hm He) as [m [e' [E _]]].
  pose proof (calculate_costs_unfold h S _ HS Hx) as Hc. rewrite E in Hc.
  cbn [float_gt_zero SFltb SFcompare] in Hc.
  eexists. eexists. split; [exact Hc |]. split; [reflexivity |].
  intros Hsmall.
  pose proof (calculate_costs_exact h S Hh Hsmall HS) as Hexact.
  rewrite Hc in Hexact. injection Hexact as _ _ _ Hp. exact Hp.
Qed.

Lemma payback_years_constant_witness :
  0 < 25 /\ 25 * ANNUAL_COST_PER_FTE < float_int_bound /\
  25 * ANNUAL_COST_PER_FTE < 2 ^ 53 /\ catalog_subset ["RPA"; "AI"] /\
  exists c,
    calculate_costs 25 ["RPA"; "AI"] = Ok c /\
    payback_years c = Some (float_of_ratio 2 3).
Proof.
  assert (H1 : 0 < 25) by lia.
  assert (H2 : 25 * ANNUAL_COST_PER_FTE < float_int_bound) by (vm_compute; reflexivity).
  assert (H3 : 25 * ANNUAL_COST_PER_FTE < 2 ^ 53) by (vm_compute; reflexivity).
  assert (H4 : catalog_subset ["RPA"; "AI"]) by auto with rfp.
  repeat (split; [assumption |]).
  destruct (payback_years_constant 25 ["RPA"; "AI"] H1 H2 H4) as [c [p [Hc [Hp Hconst]]]].
  exists c. split; [assumption |]. rewrite Hp, (Hconst H3). reflexivity.
Defined.

(** C9 fails as stated: the payback period of headcount 25 is not the
    float quotient 0.20 / 0.30, and it is not the payback period of
    headcount 10^15 + 7. *)
Lemma payback_years_varies :
  exists c1 c2,
    calculate_costs 25 [] = Ok c1 /\
    calculate_costs (10 ^ 15 + 7) [] = Ok c2 /\
    payback_years c1 <> Some (SFdiv prec emax IMPLEMENTATION_PCT SAVINGS_PCT) /\
    payback_years c1 <> payback_years c2.
Proof.
  eexists. eexists. split; [vm_compute; reflexivity |].
  split; [vm_compute; reflexivity |].
  split; vm_compute; discriminate.
Qed.

(** C10 (amended). For every positive headcount whose labour cost
    converts to a float and every subset of the catalog, the net annual
    cost returned is non-negative and techCost is non-negative; when the
    labour cost is below 2^53 the net annual cost is exactly
    42000 h + techCost. *)
Theorem net_annual_cost_nonneg (h : Z) (S : list string) :
  0 < h -> h * ANNUAL_COST_PER_FTE < float_int_bound -> catalog_subset S ->
  exists c,
    calculate_costs h S = Ok c /\
    0 <= tech_cost c /\
    float_ge_zero (net_annual_cost c) = true /\
    (h * ANNUAL_COST_PER_FTE < 2 ^ 53 ->
       net_annual_cost c = exact_float (42000 * h + tech_cost c)).
Proof.
  intros Hh Hb [HS _].
  destruct (float_of_int_in_range (h * ANNUAL_COST_PER_FTE)) as [x [Hx Hcls]].
  { unfold ANNUAL_COST_PER_FTE in *. lia. }
  destruct x as [sx | sx | | sx mx ex]; try contradiction.
  { unfold ANNUAL_COST_PER_FTE in *. lia. }
  destruct Hcls as [Hsx [_ [Hm He]]].
  replace (h * ANNUAL_COST_PER_FTE <? 0) with false in Hsx
    by (symmetry; apply Z.ltb_ge; unfold ANNUAL_COST_PER_FTE; lia).
  subst sx.
  pose proof (calculate_costs_unfold h S _ HS Hx) as Hc.
  pose proof (selected_license_total_bounds S) as HT.
  eexists. split; [exact Hc |].
  cbn [tech_cost net_annual_cost]. split; [lia |]. split.
  - apply signed_nonneg_ge_zero, SFadd_nonneg.
    + now apply SFsub_savings_nonneg.
    + apply exact_float_nonneg. lia.
  - intros Hsmall.
    pose proof (calculate_costs_exact h S Hh Hsmall HS) as Hexact.
    rewrite Hc in Hexact. injection Hexact as _ _ Hn _. exact Hn.
Qed.

Lemma net_annual_cost_nonneg_witness :
  0 < 25 /\ 25 * ANNUAL_COST_PER_FTE < float_int_bound /\
  25 * ANNUAL_COST_PER_FTE < 2 ^ 53 /\ catalog_subset ["RPA"; "AI"] /\
  exists c,
    calculate_costs 25 ["RPA"; "AI"] = Ok c /\
    0 <= tech_cost c /\
    float_ge_zero (net_annual_cost c) = true /\
    net_annual_cost c = exact_float (42000 * 25 + tech_cost c).
Proof.
  assert (H1 : 0 < 25) by lia.
  assert (H2 : 25 * ANNUAL_COST_PER_FTE < float_int_bound) by (vm_compute; reflexivity).
  assert (H3 : 25 * ANNUAL_COST_PER_FTE < 2 ^ 53) by (vm_compute; reflexivity).
  assert (H4 : catalog_subset ["RPA"; "AI"]) by auto with rfp.
  repeat (split; [assumption |]).
  destruct (net_annual_cost_nonneg 25 ["RPA"; "AI"] H1 H2 H4) as [c [Hc [Ht [Hn Hexact]]]].
  exists c. repeat (split; [assumption |]). exact (Hexact H3).
Defined.

(** C10 fails as stated: for headcount 10^15 + 7 with RPA selected the
    net annual cost is the float of value 42000000000000303104, not
    42000 h + techCost = 42000000000000299000; and for headcount 10^304
    no net annual cost is returned at all. *)
Lemma net_annual_cost_inexact :
  (0 < 10 ^ 15 + 7 /\
   exists c,
     calculate_costs (10 ^ 15 + 7) ["RPA"] = Ok c /\
     int_of_float (net_annual_cost c) = Ok 42000000000000303104 /\
     42000 * (10 ^ 15 + 7) + tech_cost c = 42000000000000299000) /\
  (0 < 10 ^ 304 /\ raises (calculate_costs (10 ^ 304) ["RPA"])).
Proof.
  split.
  - split; [reflexivity |]. eexists. split; [vm_compute; reflexivity |].
    apply conj; vm_compute; reflexivity.
  - split; [reflexivity |]. exists OverflowError. vm_compute. reflexivity.
Qed.

(** ** The money formatter *)

(** C5. [fmt_money] returns a string on every input and never raises; on
    a string or on nothing it returns what it returns for 0, the
    currency symbol followed by "0". *)
Theorem fmt_money_total (x : pyval) :
  (exists s, fmt_money x = Ok s) /\
  (non_numeric x -> fmt_money x = fmt_money (PyInt 0) /\ fmt_money x = Ok "$0").
Proof.
  split.
  - unfold fmt_money, try_except.
    destruct (n <- int_round x ;; Ok (String.append CURRENCY (format_thousands n)));
      eauto.
  - destruct x; cbn [non_numeric]; try contradiction; intros _; split; reflexivity.
Qed.

Lemma fmt_money_total_witness :
  non_numeric (PyStr "n/a") /\
  fmt_money (PyStr "n/a") = fmt_money (PyInt 0) /\ fmt_money (PyStr "n/a") = Ok "$0".
Proof.
  split; [exact I |]. apply (fmt_money_total (PyStr "n/a")). exact I.
Defined.

(** A NaN or an infinity falls back to the zero string as well. *)
Lemma fmt_money_not_finite (x : float) :
  x = S754_nan \/ (exists s, x = S754_infinity s) ->
  fmt_money (PyFloat x) = Ok "$0".
Proof. intros [-> | [s ->]]; reflexivity. Qed.

Example fmt_money_samples :
  fmt_money (PyInt 1234567) = Ok "$1,234,567" /\
  fmt_money (PyInt (-1500)) = Ok "$-1,500" /\
  fmt_money (PyFloat (exact_float 300000)) = Ok "$300,000" /\
  fmt_money (PyFloat (float_of_ratio 5 2)) = Ok "$2" /\
  fmt_money (PyFloat (float_of_ratio 7 2)) = Ok "$4".
Proof. repeat apply conj; vm_compute; reflexivity. Qed.

(** ** Unknown identifiers *)

Lemma total_filter_known (S : list string) :
  total (map (fun t => get TECH_LICENSE_COSTS t 0) (filter known S)) =
  total (map (fun t => get TECH_LICENSE_COSTS t 0) S).
Proof.
  induction S as [| t S IH]; cbn [filter map total]; [reflexivity |].
  destruct (known t) eqn:Hk; cbn [map total]; rewrite IH; [reflexivity |].
  rewrite get_missing; [reflexivity |].
  apply contains_not_In. exact Hk.
Qed.

Lemma contains_filter_known (S : list string) (t : string) :
  known t = true -> contains (filter known S) t = contains S t.
Proof.
  intros Ht. apply Bool.eq_iff_eq_true.
  rewrite !contains_In, filter_In. tauto.
Qed.

(** C6 (amended). Identifiers absent from the catalog are ignored: both
    operations return what they return for the selection without them,
    and [per_solution_table] never raises. *)
Theorem unknown_technologies_ignored (h : Z) (S : list string) :
  calculate_costs h S = calculate_costs h (filter known S) /\
  per_solution_table h S = per_solution_table h (filter known S) /\
  exists rows, per_solution_table h S = Ok rows.
Proof.
  split; [| split].
  - unfold calculate_costs. rewrite !py_sum_total, total_filter_known. reflexivity.
  - rewrite !per_solution_table_built.
    assert (E : map (built_row h S) ALL_TECHS = map (built_row h (filter known S)) ALL_TECHS).
    { apply map_ext_in. intros t Ht. unfold built_row.
      rewrite contains_filter_known by (apply contains_In; exact Ht). reflexivity. }
    rewrite E. reflexivity.
  - rewrite per_solution_table_built. eauto.
Qed.

(** C6 fails as stated: a selection holding an identifier the catalog
    does not know makes neither operation raise. *)
Lemma unknown_technology_not_raised :
  0 < 1 /\ In "Blockchain" ["RPA"; "Blockchain"] /\ ~ In "Blockchain" ALL_TECHS /\
  ~ raises (calculate_costs 1 ["RPA"; "Blockchain"]) /\
  ~ raises (per_solution_table 1 ["RPA"; "Blockchain"]).
Proof.
  split; [reflexivity |]. split; [cbn; tauto |].
  split; [cbn; intuition discriminate |].
  split; intros [e He]; vm_compute in He; discriminate.
Qed.

(** ** The validation block *)

(** C7, the defect. The text "2.7" is not an integer, yet it passes the
    validation: [int(float("2.7"))] is 2, no error is collected and both
    calculations run with headcount 2. *)
Theorem non_integer_headcount_accepted :
  validate (sample_form "2.7") = ([], Some 2) /\
  on_calculate (sample_form "2.7") =
    Calculated 2 (calculate_costs 2 ["RPA"]) (per_solution_table 2 ["RPA"]).
Proof. apply conj; vm_compute; reflexivity. Qed.

(** What the block does reject: text that is no number, a number that
    truncates to zero or less, and any empty select box; the messages are
    collected. *)
Example validation_samples :
  on_calculate (sample_form "abc") = Stopped ["Headcount must be an integer."] /\
  on_calculate (sample_form "0.9") = Stopped ["Headcount must be > 0."] /\
  on_calculate (sample_form "-3") = Stopped ["Headcount must be > 0."] /\
  on_calculate (sample_form "inf") = Stopped ["Headcount must be an integer."] /\
  on_calculate (mkForm "abc" "" "Ops" "Claims" "Small" []) =
    Stopped ["Headcount must be an integer."; "All dropdowns are mandatory."] /\
  on_calculate (mkForm " 25 " "EMEA" "Ops" "Claims" "Small" []) =
    Calculated 25 (calculate_costs 25 []) (per_solution_table 25 []).
Proof. repeat apply conj; vm_compute; reflexivity. Qed.

(** X17. An empty select box always stops the submission, whatever the
    headcount, and the message about the dropdowns is among the errors
    shown. *)
Lemma empty_dropdown_stops (f : form) :
  is_empty (region f) || is_empty (hc_category f)
    || is_empty (process_type f) || is_empty (transform_scale f) = true ->
  exists errors,
    on_calculate f = Stopped errors /\ In "All dropdowns are mandatory." errors.
Proof.
  intros Hempty. unfold on_calculate, validate. rewrite Hempty.
  destruct (parse_headcount (headcount f)) as [hc | e].
  - destruct (hc <=? 0); cbn [app]; eexists; (split; [reflexivity |]); cbn; tauto.
  - cbn [app]. eexists. split; [reflexivity |]. cbn; tauto.
Qed.

(** X18. The calculations run only on a headcount that converts to a
    positive integer and with all four select boxes filled, and they run
    on the converted number. *)
Lemma calculation_needs_valid_input (f : form) (hc : Z)
    (results : result costs) (table : result (list row)) :
  on_calculate f = Calculated hc results table ->
  parse_headcount (headcount f) = Ok hc /\ 0 < hc /\
  is_empty (region f) = false /\ is_empty (hc_category f) = false /\
  is_empty (process_type f) = false /\ is_empty (transform_scale f) = false.
Proof.
  unfold on_calculate, validate.
  destruct (parse_headcount (headcount f)) as [v | e];
    [destruct (v <=? 0) eqn:Hv |];
    destruct (is_empty (region f)), (is_empty (hc_category f)),
             (is_empty (process_type f)), (is_empty (transform_scale f));
    cbn; try discriminate.
  intros H. injection H as -> _ _. apply Z.leb_gt in Hv. repeat split; assumption.
Qed.

(** ** The workbook *)

Lemma lower_names_fresh (names : list string) (name : string) :
  ~ In (lower name) (map lower names) ->
  existsb (fun n => String.eqb (lower name) (lower n)) names = false /\
  contains names name = false.
Proof.
  intros Hnot. split.
  - induction names as [| n names IH]; cbn [existsb]; [reflexivity |].
    cbn [map In] in Hnot. rewrite IH by tauto.
    destruct (String.eqb (lower name) (lower n)) eqn:E; [| reflexivity].
    apply String.eqb_eq in E. exfalso. apply Hnot. left. now symmetry.
  - apply contains_not_In. intros Hin. apply Hnot. now apply in_map.
Qed.

Lemma check_sheetname_ok (book : workbook) (name : string) :
  sheet_name_ok name = true -> (String.length name <= 31)%nat ->
  ~ In (lower name) (map lower (sheet_names book)) ->
  check_sheetname book name = Ok name.
Proof.
  unfold sheet_name_ok, check_sheetname. intros Hok Hlen Hnew.
  apply andb_prop in Hok. destruct Hok as [Hok Hap].
  apply andb_prop in Hok. destruct Hok as [Hne Hinv].
  apply negb_true_iff in Hne, Hinv, Hap. rewrite Hne.
  replace (31 <? String.length name)%nat with false
    by (symmetry; apply Nat.ltb_ge; exact Hlen).
  rewrite Hinv, Hap.
  destruct (lower_names_fresh (sheet_names book) name Hnew) as [-> _]. reflexivity.
Qed.

Lemma to_excel_fresh (df : dataframe) (w : workbook) (name : string) :
  too_large df = false ->
  sheet_name_ok name = true -> (String.length name <= 31)%nat ->
  ~ In (lower name) (map lower (sheet_names w)) ->
  to_excel df w name = Ok (w ++ [(name, [df])]).
Proof.
  intros Hsize Hok Hlen Hnew. unfold to_excel. rewrite Hsize.
  destruct (lower_names_fresh (sheet_names w) name Hnew) as [_ ->].
  rewrite check_sheetname_ok by assumption. reflexivity.
Qed.

Lemma slice31_length (name : string) : (String.length (slice31 name) <= 31)%nat.
Proof.
  unfold slice31. generalize 31%nat as n.
  induction name as [| c s IH]; intros n; destruct n; cbn; try lia.
  specialize (IH n). lia.
Qed.

Lemma slice31_short (name : string) :
  (String.length name <= 31)%nat -> slice31 name = name.
Proof.
  unfold slice31. generalize 31%nat as n.
  induction name as [| c s IH]; intros n Hn; destruct n; cbn in *; try reflexivity; try lia.
  f_equal. apply IH. lia.
Qed.

(** The cut keeps the first characters of the name, 31 of them when the
    name has as many. *)
Lemma slice31_prefix (name : string) :
  String.length (slice31 name) = Nat.min 31 (String.length name) /\
  exists rest, name = String.append (slice31 name) rest.
Proof.
  unfold slice31. generalize 31%nat as n.
  induction name as [| c s IH]; intros n.
  - destruct n; cbn; (split; [reflexivity | exists ""; reflexivity]).
  - destruct n; cbn [substring String.length Nat.min String.append].
    + split; [reflexivity | exists (String c s); reflexivity].
    + destruct (IH n) as [Hlen [rest Hrest]]. split; [now rewrite Hlen |].
      exists rest. now rewrite <- Hrest.
Qed.

Lemma write_frames_fresh (df_dict : list (string * dataframe)) (w : workbook) :
  Forall (fun e => too_large (snd e) = false) df_dict ->
  Forall (fun name => sheet_name_ok name = true) (asked_names df_dict) ->
  NoDup (map lower (sheet_names w ++ asked_names df_dict)) ->
  write_frames df_dict w = Ok (w ++ map sheet_of df_dict).
Proof.
  revert w. induction df_dict as [| [name df] d IH]; intros w Hsize Hok Hnd;
    cbn [write_frames map asked_names fst snd] in *.
  - now rewrite app_nil_r.
  - inversion Hok as [| ? ? Hname Hrest]; subst.
    inversion Hsize as [| ? ? Hdf Hsizes]; subst. cbn [snd] in Hdf.
    rewrite map_app in Hnd. cbn [map] in Hnd.
    assert (Hfresh : ~ In (lower (slice31 name)) (map lower (sheet_names w))).
    { apply NoDup_remove_2 in Hnd. intros Hin. apply Hnd. apply in_or_app. now left. }
    rewrite (to_excel_fresh df w (slice31 name) Hdf Hname (slice31_length name) Hfresh).
    cbn [bind]. rewrite IH.
    + rewrite <- app_assoc. reflexivity.
    + exact Hsizes.
    + exact Hrest.
    + unfold sheet_names in *. rewrite !map_app, <- app_assoc. exact Hnd.
Qed.

(** C8 (amended). When no frame is too large for a sheet, the metadata
    included, and the names asked for, cut to 31 characters, are names
    the engine accepts (not empty, none of the characters
    [[ ] : * ? / \], no apostrophe at either end) and are pairwise
    different from each other and from "Meta" with letter case ignored,
    [to_excel_bytes] returns the buffer of a saved workbook that has one
    sheet per entry, in the order of the mapping, named by the first 31
    characters of the entry's name and holding the entry's table,
    followed by one sheet "Meta" holding the run metadata as Key/Value
    rows. *)
Theorem to_excel_bytes_sheets (df_dict : list (string * dataframe))
    (run_meta : list (string * string)) :
  Forall (fun e => too_large (snd e) = false) df_dict ->
  too_large (meta_frame run_meta) = false ->
  Forall (fun name => sheet_name_ok name = true) (asked_names df_dict) ->
  NoDup (map lower (asked_names df_dict ++ ["Meta"])) ->
  exists book,
    to_excel_bytes df_dict run_meta = Ok (Xlsx book) /\
    book = map sheet_of df_dict ++ [("Meta", [meta_frame run_meta])] /\
    List.length book = (List.length df_dict + 1)%nat /\
    Forall (fun e => String.length (slice31 (fst e)) = Nat.min 31 (String.length (fst e)) /\
                     (exists rest, fst e = String.append (slice31 (fst e)) rest) /\
                     ((String.length (fst e) <= 31)%nat -> slice31 (fst e) = fst e))
           df_dict /\
    meta_frame run_meta =
      mkFrame ["Key"; "Value"] (map (fun kv => [PyStr (fst kv); PyStr (snd kv)]) run_meta).
Proof.
  intros Hsize Hmeta Hok Hnd. rewrite map_app in Hnd. cbn [map] in Hnd.
  eexists. split; [| split; [reflexivity |]].
  - unfold to_excel_bytes. rewrite write_frames_fresh.
    + cbn [app bind]. rewrite to_excel_fresh.
      * reflexivity.
      * exact Hmeta.
      * reflexivity.
      * cbn. lia.
      * replace (sheet_names (map sheet_of df_dict)) with (asked_names df_dict)
          by (unfold sheet_names, asked_names; rewrite map_map; reflexivity).
        apply NoDup_remove_2 in Hnd. rewrite app_nil_r in Hnd. exact Hnd.
    + exact Hsize.
    + exact Hok.
    + cbn [sheet_names map app]. apply NoDup_remove_1 in Hnd.
      now rewrite app_nil_r in Hnd.
  - split; [rewrite length_app, length_map; reflexivity |].
    split; [| reflexivity]. apply Forall_forall. intros e _.
    destruct (slice31_prefix (fst e)) as [Hlen Hpre].
    split; [exact Hlen |]. split; [exact Hpre | apply slice31_short].
Qed.

Lemma to_excel_bytes_sheets_witness :
  Forall (fun e => too_large (snd e) = false)
         (script_frames (mkFrame ["Solution"] []) (mkFrame ["Field"; "Value"] [])) /\
  too_large (meta_frame [("RunID", "RUN-20240101120000")]) = false /\
  Forall (fun name => sheet_name_ok name = true)
         (asked_names (script_frames (mkFrame ["Solution"] []) (mkFrame ["Field"; "Value"] []))) /\
  NoDup (map lower
           (asked_names (script_frames (mkFrame ["Solution"] []) (mkFrame ["Field"; "Value"] []))
            ++ ["Meta"])) /\
  to_excel_bytes (script_frames (mkFrame ["Solution"] []) (mkFrame ["Field"; "Value"] []))
                 [("RunID", "RUN-20240101120000")] =
    Ok (Xlsx
          [("Solutions", [mkFrame ["Solution"] []]);
           ("Inputs", [mkFrame ["Field"; "Value"] []]);
           ("Meta", [mkFrame ["Key"; "Value"] [[PyStr "RunID"; PyStr "RUN-20240101120000"]]])]).
Proof.
  assert (Hsize : Forall (fun e => too_large (snd e) = false)
                    (script_frames (mkFrame ["Solution"] [])
                                   (mkFrame ["Field"; "Value"] [])))
    by (repeat constructor).
  assert (Hmeta : too_large (meta_frame [("RunID", "RUN-20240101120000")]) = false)
    by reflexivity.
  assert (Hok : Forall (fun name => sheet_name_ok name = true)
                  (asked_names (script_frames (mkFrame ["Solution"] [])
                                              (mkFrame ["Field"; "Value"] []))))
    by (repeat constructor).
  assert (Hnd : NoDup (map lower
                  (asked_names (script_frames (mkFrame ["Solution"] [])
                                              (mkFrame ["Field"; "Value"] []))
                   ++ ["Meta"]))).
  { cbn. repeat constructor; cbn; intuition discriminate. }
  split; [exact Hsize |]. split; [exact Hmeta |]. split; [exact Hok |].
  split; [exact Hnd |].
  destruct (to_excel_bytes_sheets _ [("RunID", "RUN-20240101120000")] Hsize Hmeta Hok Hnd)
    as [book [E [Hbook _]]].
  rewrite E, Hbook. reflexivity.
Defined.

(** C8 fails as stated. A table named "Meta" shares its sheet with the
    metadata, and two names that agree on their first 31 characters share
    one sheet, so there is not one sheet per entry; a table named "meta",
    a name with a slash, a name with an apostrophe at its end and a table
    of more columns than a sheet has make the call raise, so no buffer is
    returned; and a table with the empty name lands on a sheet called
    "Sheet1". *)
Lemma to_excel_bytes_shared_sheet :
  to_excel_bytes [("Meta", mkFrame ["a"] [[PyInt 1]])] [] =
    Ok (Xlsx [("Meta", [mkFrame ["a"] [[PyInt 1]]; meta_frame []])]) /\
  "Per-technology cost breakdown 2024" <> "Per-technology cost breakdown 2025" /\
  to_excel_bytes [("Per-technology cost breakdown 2024", mkFrame ["a"] [[PyInt 1]]);
                  ("Per-technology cost breakdown 2025", mkFrame ["a"] [[PyInt 2]])]
                 [] =
    Ok (Xlsx [("Per-technology cost breakdown 2",
               [mkFrame ["a"] [[PyInt 1]]; mkFrame ["a"] [[PyInt 2]]]);
              ("Meta", [meta_frame []])]) /\
  to_excel_bytes [("meta", mkFrame ["a"] [[PyInt 1]])] [] = Raise DuplicateWorksheetName /\
  to_excel_bytes [("Q1/Q2", mkFrame ["a"] [[PyInt 1]])] [] = Raise InvalidWorksheetName /\
  to_excel_bytes [("Owners'", mkFrame ["a"] [[PyInt 1]])] [] = Raise InvalidWorksheetName /\
  to_excel_bytes [("Wide", mkFrame (repeat "a" (N.to_nat 16385)) [])] [] = Raise ValueError /\
  to_excel_bytes [("", mkFrame ["a"] [[PyInt 1]])] [] =
    Ok (Xlsx [("Sheet1", [mkFrame ["a"] [[PyInt 1]]]); ("Meta", [meta_frame []])]).
Proof.
  repeat apply conj; try (vm_compute; reflexivity). discriminate.
Qed.

(** * Further properties of the code *)

(** ** More on the per-solution table *)

Lemma total_three (f g k t : row -> Z) (rows : list row) :
  Forall (fun r => t r = f r + g r + k r) rows ->
  total (map t rows) = total (map f rows) + total (map g rows) + total (map k rows).
Proof.
  induction 1 as [| r rows Hr _ IH]; cbn [map total]; [reflexivity |].
  rewrite Hr, IH. lia.
Qed.

Lemma built_row_total (h : Z) (S : list string) (t : string) :
  Total_Cost (built_row h S t) =
  License_Cost (built_row h S t) + Development_Cost (built_row h S t)
  + User_License_Cost (built_row h S t).
Proof. reflexivity. Qed.

(** X1. The totals row cross-foots: its total cost is the sum of its
    licence, development and user-licence totals. *)
Theorem totals_row_cross_foots (h : Z) (S : list string) :
  exists rows totals,
    per_solution_table h S = Ok (rows ++ [totals]) /\
    Total_Cost totals =
      License_Cost totals + Development_Cost totals + User_License_Cost totals.
Proof.
  eexists. eexists. split; [apply per_solution_table_built |].
  unfold totals_row.
  cbn [Total_Cost License_Cost Development_Cost User_License_Cost].
  rewrite !py_sum_total. apply total_three.
  apply Forall_forall. intros r Hr. apply in_map_iff in Hr.
  destruct Hr as [t [<- _]]. apply built_row_total.
Qed.

Lemma contains_ext (S1 S2 : list string) (t : string) :
  (In t S1 <-> In t S2) -> contains S1 t = contains S2 t.
Proof. intros H. apply Bool.eq_iff_eq_true. now rewrite !contains_In. Qed.

(** X2. The table depends on the selection through membership only:
    order and repetitions of the selected identifiers do not matter. *)
Theorem per_solution_table_membership (h : Z) (S1 S2 : list string) :
  (forall t, In t S1 <-> In t S2) ->
  per_solution_table h S1 = per_solution_table h S2.
Proof.
  intros Hmem. rewrite !per_solution_table_built.
  assert (E : map (built_row h S1) ALL_TECHS = map (built_row h S2) ALL_TECHS).
  { apply map_ext. intros t. unfold built_row.
    now rewrite (contains_ext S1 S2 t (Hmem t)). }
  now rewrite E.
Qed.

Lemma per_solution_table_membership_witness :
  (forall t, In t ["AI"; "RPA"; "AI"] <-> In t ["RPA"; "AI"]) /\
  per_solution_table 25 ["AI"; "RPA"; "AI"] = per_solution_table 25 ["RPA"; "AI"].
Proof.
  assert (H : forall t, In t ["AI"; "RPA"; "AI"] <-> In t ["RPA"; "AI"])
    by (intros t; cbn; tauto).
  split; [exact H |]. exact (per_solution_table_membership 25 _ _ H).
Defined.

Lemma get_nonneg (d : dict) (k : string) :
  Forall (fun kv => 0 <= snd kv) d -> 0 <= get d k 0.
Proof.
  induction 1 as [| [k' v] d Hv _ IH]; cbn [get]; [lia |].
  destruct (String.eqb k k'); [exact Hv | exact IH].
Qed.

Lemma rate_tables_nonneg :
  Forall (fun kv => 0 <= snd kv) TECH_LICENSE_COSTS /\
  Forall (fun kv => 0 <= snd kv) DEV_COSTS /\
  Forall (fun kv => 0 <= snd kv) USER_LICENSE_PER_TECH.
Proof. repeat split; repeat constructor; cbn; lia. Qed.

Lemma built_row_nonneg (h : Z) (S : list string) (t : string) :
  0 <= h -> row_nonneg (built_row h S t).
Proof.
  intros Hh. destruct rate_tables_nonneg as [HL [HD HU]].
  pose proof (get_nonneg TECH_LICENSE_COSTS t HL).
  pose proof (get_nonneg DEV_COSTS t HD).
  pose proof (get_nonneg USER_LICENSE_PER_TECH t HU).
  unfold row_nonneg, built_row.
  cbn [License_Cost Development_Cost User_License_Cost Total_Cost].
  destruct (contains S t); nia.
Qed.

Lemma total_nonneg (xs : list Z) : Forall (fun x => 0 <= x) xs -> 0 <= total xs.
Proof. induction 1; cbn [total]; lia. Qed.

(** X3. With a non-negative headcount no cell of the table is negative,
    the totals row included. *)
Theorem per_solution_table_nonneg (h : Z) (S : list string) :
  0 <= h ->
  exists table, per_solution_table h S = Ok table /\ Forall row_nonneg table.
Proof.
  intros Hh. eexists. split; [apply per_solution_table_built |].
  assert (Hrows : Forall row_nonneg (map (built_row h S) ALL_TECHS)).
  { apply Forall_forall. intros r Hr. apply in_map_iff in Hr.
    destruct Hr as [t [<- _]]. now apply built_row_nonneg. }
  apply Forall_app. split; [exact Hrows |]. constructor; [| constructor].
  unfold row_nonneg, totals_row.
  cbn [License_Cost Development_Cost User_License_Cost Total_Cost].
  rewrite !py_sum_total.
  repeat split; apply total_nonneg; apply Forall_forall; intros x Hx;
    apply in_map_iff in Hx; destruct Hx as [r [<- Hr]];
    rewrite Forall_forall in Hrows; apply (Hrows r Hr).
Qed.

Lemma per_solution_table_nonneg_witness :
  0 <= 25 /\
  exists table, per_solution_table 25 ["RPA"; "AI"] = Ok table /\ Forall row_nonneg table.
Proof. split; [lia |]. apply per_solution_table_nonneg. lia. Defined.

(** A negative headcount does make the user-licence cells negative. *)
Example negative_headcount_row :
  per_solution_table (-1) ["RPA"] =
  Ok (mkRow "RPA" 5000 20000 (-100) 24900
      :: map (fun t => mkRow t 0 0 0 0) ["VBA"; "Celonis"; "Soroco"; "Analytics"; "AI"]
      ++ [mkRow "Total Cost" 5000 20000 (-100) 24900]).
Proof. reflexivity. Qed.

(** X4. A selection that holds no catalog identifier, the empty one
    included, gives the all-zero table, whatever the headcount. *)
Theorem per_solution_table_nothing_selected (h : Z) (S : list string) :
  (forall t, In t S -> ~ In t ALL_TECHS) ->
  per_solution_table h S =
  Ok (map (fun t => mkRow t 0 0 0 0) ALL_TECHS ++ [mkRow "Total Cost" 0 0 0 0]).
Proof.
  intros Hnone. rewrite per_solution_table_built.
  assert (E : map (built_row h S) ALL_TECHS = map (fun t => mkRow t 0 0 0 0) ALL_TECHS).
  { apply map_ext_in. intros t Ht. unfold built_row.
    replace (contains S t) with false; [reflexivity |].
    symmetry. apply contains_not_In. intros HS. exact (Hnone t HS Ht). }
  rewrite E. reflexivity.
Qed.

Lemma per_solution_table_nothing_selected_witness :
  (forall t, In t ["Blockchain"] -> ~ In t ALL_TECHS) /\
  per_solution_table 7 ["Blockchain"] =
  Ok (map (fun t => mkRow t 0 0 0 0) ALL_TECHS ++ [mkRow "Total Cost" 0 0 0 0]).
Proof.
  assert (H : forall t, In t ["Blockchain"] -> ~ In t ALL_TECHS).
  { intros t [<- | []]. cbn. intuition discriminate. }
  split; [exact H |]. exact (per_solution_table_nothing_selected 7 _ H).
Defined.

Lemma total_scaled (h : Z) (xs : list Z) :
  total (map (fun x => h * x) xs) = h * total xs.
Proof. induction xs as [| x xs IH]; cbn [map total]; lia. Qed.

(** X5. The headcount enters the table through the user-licence column
    only, and linearly: the table for [h] is the table for one person
    with that column multiplied by [h], totals row included. *)
Theorem per_solution_table_scales (h : Z) (S : list string) :
  exists table1 tableh,
    per_solution_table 1 S = Ok table1 /\
    per_solution_table h S = Ok tableh /\
    Forall2 (scaled_row h) table1 tableh.
Proof.
  eexists. eexists. split; [apply per_solution_table_built |].
  split; [apply per_solution_table_built |].
  assert (Hrows : forall l,
            Forall2 (scaled_row h) (map (built_row 1 S) l) (map (built_row h S) l)).
  { induction l as [| t l IH]; cbn [map]; constructor; [| exact IH].
    unfold scaled_row, built_row.
    cbn [Solution License_Cost Development_Cost User_License_Cost].
    destruct (contains S t); repeat split; lia. }
  apply Forall2_app; [apply Hrows |]. constructor; [| constructor].
  unfold scaled_row, totals_row.
  cbn [Solution License_Cost Development_Cost User_License_Cost].
  rewrite !py_sum_total, !map_map.
  repeat split.
  rewrite <- total_scaled, map_map. f_equal. apply map_ext. intros t.
  unfold built_row. cbn [User_License_Cost]. destruct (contains S t); lia.
Qed.

(** ** More on the financial summary *)

Lemma float_of_int_raises (n : Z) (e : exn) :
  float_of_int n = Raise e -> e = OverflowError.
Proof.
  unfold float_of_int.
  destruct (binary_normalize prec emax n 0 false); congruence.
Qed.

(** What a returned summary is made of. *)
Lemma calculate_costs_inv (h : Z) (S : list string) (c : costs) :
  calculate_costs h S = Ok c ->
  exists x tf,
    float_of_int (h * ANNUAL_COST_PER_FTE) = Ok x /\
    float_of_int (py_sum (map (fun t => get TECH_LICENSE_COSTS t 0) S)) = Ok tf /\
    c = mkCosts (h * ANNUAL_COST_PER_FTE)
                (SFmul prec emax x IMPLEMENTATION_PCT)
                (py_sum (map (fun t => get TECH_LICENSE_COSTS t 0) S))
                (SFmul prec emax x SAVINGS_PCT)
                (SFadd prec emax (SFsub prec emax x (SFmul prec emax x SAVINGS_PCT)) tf)
                (if float_gt_zero (SFmul prec emax x SAVINGS_PCT)
                 then Some (SFdiv prec emax (SFmul prec emax x IMPLEMENTATION_PCT)
                                  (SFmul prec emax x SAVINGS_PCT))
                 else None).
Proof.
  unfold calculate_costs, int_mul_float, int_sub_float, float_add_int.
  destruct (float_of_int (h * ANNUAL_COST_PER_FTE)) as [x | e]; cbn [bind];
    [| discriminate].
  destruct (float_of_int (py_sum _)) as [tf | e]; cbn [bind]; [| discriminate].
  rewrite payback_branch. cbn [bind]. intros H. injection H as <-. eauto.
Qed.

Lemma total_selected_keys (f : string -> bool) (d : dict) :
  NoDup (keys d) ->
  total (map (fun t => if f t then get d t 0 else 0) (keys d)) =
  total (map snd (filter (fun kv => f (fst kv)) d)).
Proof.
  induction d as [| [k v] d IH]; intros Hnd; [reflexivity |].
  cbn [keys map fst filter total] in *. inversion Hnd as [| ? ? Hk Hd]; subst.
  cbn [get]. rewrite String.eqb_refl.
  assert (E : map (fun t => if f t then (if String.eqb t k then v else get d t 0) else 0)
                  (map fst d) =
              map (fun t => if f t then get d t 0 else 0) (map fst d)).
  { apply map_ext_in. intros t Ht. destruct (String.eqb t k) eqn:Etk; [| reflexivity].
    apply String.eqb_eq in Etk. subst. contradiction. }
  rewrite E. fold (keys d). rewrite IH by assumption.
  destruct (f k); cbn [map snd total]; lia.
Qed.

(** X6. For a selection without repetitions the tooling cost of the
    financial summary is the licence total of the table. *)
Theorem tech_cost_is_table_total (h : Z) (S : list string) (c : costs) :
  NoDup S -> calculate_costs h S = Ok c ->
  exists rows totals,
    per_solution_table h S = Ok (rows ++ [totals]) /\
    License_Cost totals = tech_cost c.
Proof.
  intros HS Hc. apply calculate_costs_inv in Hc. destruct Hc as [x [tf [_ [_ ->]]]].
  eexists. eexists. split; [apply per_solution_table_built |].
  cbn [tech_cost totals_row License_Cost].
  rewrite tech_cost_selected by assumption. rewrite py_sum_total, map_map.
  unfold selected_license_total.
  rewrite <- (total_selected_keys (contains S) TECH_LICENSE_COSTS).
  - reflexivity.
  - repeat constructor; cbn; intuition congruence.
Qed.

Lemma tech_cost_is_table_total_witness :
  NoDup ["RPA"; "AI"] /\
  (exists c, calculate_costs 25 ["RPA"; "AI"] = Ok c) /\
  exists rows totals,
    per_solution_table 25 ["RPA"; "AI"] = Ok (rows ++ [totals]) /\
    License_Cost totals = 17000.
Proof.
  assert (H1 : NoDup ["RPA"; "AI"]) by (repeat constructor; cbn; intuition congruence).
  assert (H2 : calculate_costs 25 ["RPA"; "AI"] =
               Ok (mkCosts 1500000 (exact_float 300000) 17000 (exact_float 450000)
                           (exact_float 1067000) (Some two_thirds))) by reflexivity.
  split; [exact H1 |]. split; [eexists; exact H2 |].
  exact (tech_cost_is_table_total 25 _ _ H1 H2).
Defined.

(** X7. The tooling cost adds up over the selection as a list: an
    identifier selected twice is charged twice. *)
Theorem tech_cost_additive (h : Z) (S1 S2 : list string) (c1 c2 c : costs) :
  calculate_costs h S1 = Ok c1 -> calculate_costs h S2 = Ok c2 ->
  calculate_costs h (S1 ++ S2) = Ok c ->
  tech_cost c = tech_cost c1 + tech_cost c2.
Proof.
  intros H1 H2 H.
  apply calculate_costs_inv in H1, H2, H.
  destruct H1 as [? [? [_ [_ ->]]]]. destruct H2 as [? [? [_ [_ ->]]]].
  destruct H as [? [? [_ [_ ->]]]].
  cbn [tech_cost]. rewrite !py_sum_total, map_app. apply total_app.
Qed.

Lemma tech_cost_additive_witness :
  exists c1 c,
    calculate_costs 25 ["RPA"] = Ok c1 /\
    calculate_costs 25 (["RPA"] ++ ["RPA"]) = Ok c /\
    tech_cost c1 = 5000 /\ tech_cost c = tech_cost c1 + tech_cost c1.
Proof.
  eexists. eexists.
  assert (H1 : calculate_costs 25 ["RPA"] =
               Ok (mkCosts 1500000 (exact_float 300000) 5000 (exact_float 450000)
                           (exact_float 1055000) (Some two_thirds))) by reflexivity.
  assert (H : calculate_costs 25 (["RPA"] ++ ["RPA"]) =
              Ok (mkCosts 1500000 (exact_float 300000) 10000 (exact_float 450000)
                          (exact_float 1060000) (Some two_thirds))) by reflexivity.
  split; [exact H1 |]. split; [exact H |]. split; [reflexivity |].
  exact (tech_cost_additive 25 _ _ _ _ _ H1 H1 H).
Defined.

(** X8. [calculate_costs] raises nothing but [OverflowError]: no key is
    ever missing and no division by zero escapes. *)
Theorem calculate_costs_only_overflow (h : Z) (S : list string) (e : exn) :
  calculate_costs h S = Raise e -> e = OverflowError.
Proof.
  unfold calculate_costs, int_mul_float, int_sub_float, float_add_int.
  destruct (float_of_int (h * ANNUAL_COST_PER_FTE)) as [x | e1] eqn:E1; cbn [bind].
  - destruct (float_of_int (py_sum _)) as [tf | e2] eqn:E2; cbn [bind].
    + rewrite payback_branch. cbn [bind]. discriminate.
    + intros H. injection H as <-. exact (float_of_int_raises _ _ E2).
  - intros H. injection H as <-. exact (float_of_int_raises _ _ E1).
Qed.

Lemma calculate_costs_only_overflow_witness :
  calculate_costs (10 ^ 305) [] = Raise OverflowError /\ OverflowError = OverflowError.
Proof.
  assert (H : calculate_costs (10 ^ 305) [] = Raise OverflowError)
    by (vm_compute; reflexivity).
  split; [exact H |]. exact (calculate_costs_only_overflow _ _ _ H).
Defined.

(** ** Overflow of the conversion *)

Lemma round_stage2_any (s : bool) (q e : Z) :
  2 ^ 52 <= q < 2 ^ 53 -> -1074 <= e ->
  (let '(mrs'', e'') := shr_fexp prec emax q e loc_Exact in
   match shr_m mrs'' with
   | Z0 => S754_zero s
   | Zpos m => if e'' <=? emax - prec then S754_finite s m e'' else S754_infinity s
   | Zneg _ => S754_nan
   end) = if e <=? emax - prec then S754_finite s (Z.to_pos q) e else S754_infinity s.
Proof.
  intros Hq He. rewrite shr_fexp_noshift by lia.
  cbn [shr_record_of_loc shr_m]. destruct q as [| p | p]; try lia. reflexivity.
Qed.

Lemma round_stage2_carry (s : bool) (e : Z) :
  -1074 <= e ->
  (let '(mrs'', e'') := shr_fexp prec emax (2 ^ 53) e loc_Exact in
   match shr_m mrs'' with
   | Z0 => S754_zero s
   | Zpos m => if e'' <=? emax - prec then S754_finite s m e'' else S754_infinity s
   | Zneg _ => S754_nan
   end) = if e + 1 <=? emax - prec
          then S754_finite s 4503599627370496 (e + 1) else S754_infinity s.
Proof.
  intros He. unfold shr_fexp.
  rewrite (Zdigits2_unique (2 ^ 53) 54) by (cbn; lia).
  rewrite fexp_normal by lia.
  replace (54 + e - 53 - e) with 1 by lia. reflexivity.
Qed.

(** From [2^1024 - 2^970] on, an integer rounds to an infinity. *)
Lemma binary_round_int_overflow (s : bool) (p : positive) :
  float_int_bound <= Zpos p -> binary_round prec emax s p 0 = S754_infinity s.
Proof.
  intros Hb. unfold float_int_bound in Hb.
  destruct (Zdigits2_bounds (Zpos p)) as [_ [Dlo Dhi]]; [lia |].
  cbn [Zdigits2] in Dlo, Dhi. set (d := Zpos (digits2_pos p)) in *.
  assert (H970 : 0 < 2 ^ 970) by (apply Z.pow_pos_nonneg; lia).
  assert (H1023 : 2 ^ 1023 = 2 ^ 53 * 2 ^ 970) by (rewrite <- Z.pow_add_r by lia; reflexivity).
  assert (H1024 : 2 ^ 1024 = 2 ^ 54 * 2 ^ 970) by (rewrite <- Z.pow_add_r by lia; reflexivity).
  assert (Hd : 1023 < d).
  { assert (H : 2 ^ 1023 < 2 ^ d).
    { rewrite H1023. rewrite H1024 in Hb.
      change (2 ^ 54) with 18014398509481984 in Hb. pow2. nia. }
    apply Z.pow_lt_mono_r_iff in H; lia. }
  unfold binary_round. fold d. rewrite Z.add_0_r, fexp_normal by lia.
  unfold shl_align. rewrite Z.sub_0_r.
  destruct (d - 53) as [| k | k] eqn:Hk; try lia.
  unfold binary_round_aux.
  rewrite (shr_fexp_shift _ _ k).
  2:{ replace (52 + Zpos k) with (d - 1) by lia. replace (53 + Zpos k) with d by lia. lia. }
  2:{ lia. }
  cbn [shr_m]. rewrite Z.add_0_l.
  assert (Hp : 0 < 2 ^ (Zpos k - 1)) by (apply Z.pow_pos_nonneg; lia).
  assert (Hpk : 2 ^ Zpos k = 2 * 2 ^ (Zpos k - 1)).
  { replace (Zpos k) with (Zpos k - 1 + 1) at 1 by lia.
    rewrite Z.pow_add_r, Z.pow_1_r by lia. lia. }
  assert (Hlo : 2 ^ (d - 1) = 2 ^ 52 * 2 ^ Zpos k)
    by (rewrite <- Z.pow_add_r by lia; f_equal; lia).
  assert (Hhi : 2 ^ d = 2 ^ 53 * 2 ^ Zpos k)
    by (rewrite <- Z.pow_add_r by lia; f_equal; lia).
  set (q := Zpos p / 2 ^ Zpos k).
  assert (Hq : 2 ^ 52 <= q < 2 ^ 53).
  { unfold q. split.
    - apply Z.div_le_lower_bound; lia.
    - apply Z.div_lt_upper_bound; lia. }
  set (rb := Z.odd (Zpos p / 2 ^ (Zpos k - 1))).
  set (st := negb (Zpos p mod 2 ^ (Zpos k - 1) =? 0)).
  destruct (Z.eq_dec (Zpos k) 971) as [Htop | Hne].
  - (* 1024 digits: the quotient is all ones and the round bit is set *)
    assert (Hhalf : Zpos p / 2 ^ (Zpos k - 1) = 2 ^ 54 - 1).
    { symmetry. apply Z.div_unique_pos with (r := Zpos p - (2 ^ 54 - 1) * 2 ^ (Zpos k - 1)).
      - rewrite Htop in *. change (971 - 1) with 970 in *.
        assert (Zpos p < 2 ^ 1024) by (replace 1024 with d by lia; lia).
        rewrite H1024 in *. lia.
      - lia. }
    assert (Hqtop : q = 2 ^ 53 - 1).
    { unfold q. symmetry.
      apply Z.div_unique_pos with (r := Zpos p - (2 ^ 53 - 1) * 2 ^ Zpos k).
      - pose proof (Z.mul_div_le (Zpos p) (2 ^ (Zpos k - 1)) Hp) as Hle.
        rewrite Hhalf in Hle. change (2 ^ 54) with 18014398509481984 in Hle.
        pow2. lia.
      - lia. }
    assert (Hrb : rb = true) by (unfold rb; rewrite Hhalf; reflexivity).
    rewrite Hrb, Hqtop.
    replace (round_nearest_even (2 ^ 53 - 1)
               (loc_of_shr_record (Build_shr_record (2 ^ 53 - 1) true st)))
      with (2 ^ 53) by (destruct st; reflexivity).
    rewrite round_stage2_carry by lia.
    replace (Zpos k + 1 <=? emax - prec) with false; [reflexivity |].
    symmetry. apply Z.leb_gt. unfold emax, prec. lia.
  - (* more than 1024 digits: the exponent is out of range either way *)
    destruct (round_nearest_even_cases q rb st) as [Hq' | [Hq' _]]; rewrite Hq'.
    + rewrite round_stage2_any by lia.
      replace (Zpos k <=? emax - prec) with false; [reflexivity |].
      symmetry. apply Z.leb_gt. unfold emax, prec. lia.
    + destruct (Z.eq_dec (q + 1) (2 ^ 53)) as [Hc | Hc].
      * rewrite Hc, round_stage2_carry by lia.
        replace (Zpos k + 1 <=? emax - prec) with false; [reflexivity |].
        symmetry. apply Z.leb_gt. unfold emax, prec. lia.
      * rewrite round_stage2_any by lia.
        replace (Zpos k <=? emax - prec) with false; [reflexivity |].
        symmetry. apply Z.leb_gt. unfold emax, prec. lia.
Qed.

Lemma float_of_int_overflow (n : Z) :
  float_int_bound <= Z.abs n -> float_of_int n = Raise OverflowError.
Proof.
  intros Hn. unfold float_of_int.
  assert (0 < float_int_bound) by reflexivity.
  destruct n as [| p | p]; cbn [binary_normalize Z.abs] in *; [lia | |];
    rewrite binary_round_int_overflow by assumption; reflexivity.
Qed.

(** X9. For a selection without repetitions the summary is returned
    exactly when the labour cost, in absolute value, is below
    [2^1024 - 2^970]; from there on the call raises [OverflowError]. *)
Theorem calculate_costs_raises_iff (h : Z) (S : list string) :
  NoDup S ->
  (calculate_costs h S = Raise OverflowError <->
   float_int_bound <= Z.abs (h * ANNUAL_COST_PER_FTE)).
Proof.
  intros HS. split.
  - intros Hraise.
    destruct (Z.le_gt_cases float_int_bound (Z.abs (h * ANNUAL_COST_PER_FTE)))
      as [Hle | Hlt]; [exact Hle | exfalso].
    destruct (float_of_int_in_range _ Hlt) as [x [Hx _]].
    rewrite (calculate_costs_unfold h S x HS Hx) in Hraise. discriminate.
  - intros Hle. unfold calculate_costs, int_mul_float.
    rewrite (float_of_int_overflow _ Hle). reflexivity.
Qed.

Lemma calculate_costs_raises_iff_witness :
  NoDup ["RPA"; "AI"] /\
  float_int_bound <= Z.abs (10 ^ 305 * ANNUAL_COST_PER_FTE) /\
  calculate_costs (10 ^ 305) ["RPA"; "AI"] = Raise OverflowError.
Proof.
  assert (H1 : NoDup ["RPA"; "AI"]) by (repeat constructor; cbn; intuition congruence).
  assert (H2 : float_int_bound <= Z.abs (10 ^ 305 * ANNUAL_COST_PER_FTE))
    by (vm_compute; discriminate).
  split; [exact H1 |]. split; [exact H2 |].
  exact (proj2 (calculate_costs_raises_iff _ _ H1) H2).
Defined.

Lemma float_of_int_sign (n : Z) (x : float) :
  float_of_int n = Ok x ->
  match x with
  | S754_zero _ => True
  | S754_finite s _ _ => s = (n <? 0) /\ n <> 0
  | _ => False
  end.
Proof.
  unfold float_of_int. destruct n as [| p | p]; cbn [binary_normalize].
  - intros H. injection H as <-. exact I.
  - pose proof (binary_round_signed false p 0) as Hs.
    destruct (binary_round prec emax false p 0); try discriminate;
      try contradiction; intros H; injection H as <-;
      [exact I | split; [exact Hs | discriminate]].
  - pose proof (binary_round_signed true p 0) as Hs.
    destruct (binary_round prec emax true p 0); try discriminate;
      try contradiction; intros H; injection H as <-;
      [exact I | split; [exact Hs | discriminate]].
Qed.

(** X10. Without a positive headcount there is no payback period: for
    [h <= 0] a returned summary has savings [<= 0] and [payback_years]
    absent. *)
Theorem payback_absent_without_headcount (h : Z) (S : list string) (c : costs) :
  h <= 0 -> calculate_costs h S = Ok c ->
  payback_years c = None /\ float_le_zero (annual_savings c) = true.
Proof.
  intros Hh Hc. apply calculate_costs_inv in Hc.
  destruct Hc as [x [tf [Hx [_ ->]]]].
  cbn [payback_years annual_savings].
  apply float_of_int_sign in Hx.
  destruct x as [sx | sx | | sx mx ex]; try contradiction.
  - destruct sx; split; reflexivity.
  - destruct Hx as [Hsx Hne].
    replace (h * ANNUAL_COST_PER_FTE <? 0) with true in Hsx
      by (symmetry; apply Z.ltb_lt; unfold ANNUAL_COST_PER_FTE in *; lia).
    subst sx.
    assert (Hs : signed_number true
                   (SFmul prec emax (S754_finite true mx ex) SAVINGS_PCT))
      by exact (SFmul_signed (S754_finite true mx ex) SAVINGS_PCT true eq_refl eq_refl).
    destruct (SFmul prec emax (S754_finite true mx ex) SAVINGS_PCT)
      as [s | s | | s m e]; cbn [signed_number] in Hs; try contradiction; subst;
      split; reflexivity.
Qed.

Lemma payback_absent_without_headcount_witness :
  -3 <= 0 /\
  exists c,
    calculate_costs (-3) ["RPA"] = Ok c /\
    payback_years c = None /\ float_le_zero (annual_savings c) = true.
Proof.
  assert (H1 : -3 <= 0) by lia.
  split; [exact H1 |].
  assert (Hc : exists c, calculate_costs (-3) ["RPA"] = Ok c)
    by (vm_compute; eexists; reflexivity).
  destruct Hc as [c Hc]. exists c. split; [exact Hc |].
  exact (payback_absent_without_headcount (-3) ["RPA"] c H1 Hc).
Defined.

(** ** Decimal text *)

Lemma uint_chars_digits (d : Decimal.uint) :
  all_digits (list_ascii_of_string (NilEmpty.string_of_uint d)).
Proof.
  induction d; cbn [NilEmpty.string_of_uint list_ascii_of_string];
    constructor; try reflexivity; assumption.
Qed.

Lemma uint_chars_value (d : Decimal.uint) (acc : Z) :
  fold_left (fun a c => 10 * a + digit_value c)
            (list_ascii_of_string (NilEmpty.string_of_uint d)) acc =
  uint_value d acc.
Proof.
  revert acc.
  induction d; intros acc;
    cbn [NilEmpty.string_of_uint list_ascii_of_string fold_left uint_value];
    try reflexivity; rewrite IHd; f_equal; unfold digit_value; cbn; lia.
Qed.

Lemma of_uint_acc_value (d : Decimal.uint) (acc : positive) :
  Zpos (Pos.of_uint_acc d acc) = uint_value d (Zpos acc).
Proof.
  revert acc.
  induction d; intros acc; cbn [Pos.of_uint_acc uint_value];
    try reflexivity; rewrite IHd; f_equal; lia.
Qed.

Lemma of_uint_value (d : Decimal.uint) : Z.of_N (Pos.of_uint d) = uint_value d 0.
Proof.
  induction d; cbn [Pos.of_uint uint_value]; try reflexivity;
    try exact IHd; cbn [Z.of_N]; rewrite of_uint_acc_value; reflexivity.
Qed.

Lemma decimal_text_digits (n : N) :
  all_digits (list_ascii_of_string (decimal_text n)).
Proof.
  unfold decimal_text, NilZero.string_of_uint.
  destruct (N.to_uint n) eqn:E; try (rewrite <- E; apply uint_chars_digits).
  repeat constructor.
Qed.

(** Reading the decimal text of a number gives the number back. *)
Lemma decimal_text_value (n : N) :
  decimal_value (list_ascii_of_string (decimal_text n)) = Z.of_N n.
Proof.
  unfold decimal_value, decimal_text, NilZero.string_of_uint.
  rewrite <- (DecimalN.Unsigned.of_to n) at 2. unfold N.of_uint.
  rewrite of_uint_value.
  destruct (N.to_uint n) eqn:E; try (rewrite <- E; apply uint_chars_value).
  reflexivity.
Qed.

Lemma filter_all_digits (l : list ascii) : all_digits l -> filter is_digit l = l.
Proof.
  induction 1 as [| c l Hc _ IH]; cbn [filter]; [reflexivity |].
  now rewrite Hc, IH.
Qed.

Lemma filter_group3 (l : list ascii) :
  all_digits l -> filter is_digit (group3 l) = l.
Proof.
  assert (H : forall n l, (List.length l <= n)%nat -> all_digits l ->
                          filter is_digit (group3 l) = l).
  { induction n as [| n IH]; intros l' Hlen Hd.
    - destruct l'; [reflexivity | cbn in Hlen; lia].
    - destruct l' as [| a [| b [| c [| d more]]]];
        try (cbn [group3]; apply filter_all_digits; exact Hd).
      inversion Hd as [| ? ? Ha Hd1]; subst.
      inversion Hd1 as [| ? ? Hb Hd2]; subst.
      inversion Hd2 as [| ? ? Hc Hd3]; subst.
      change (group3 (a :: b :: c :: d :: more))
        with (a :: b :: c :: ","%char :: group3 (d :: more)).
      cbn [filter]. rewrite Ha, Hb, Hc.
      change (is_digit ","%char) with false. cbn iota.
      rewrite (IH (d :: more)); [reflexivity | cbn in *; lia | assumption]. }
  intros Hd. exact (H (List.length l) l (le_n _) Hd).
Qed.

Lemma all_digits_rev (l : list ascii) : all_digits l -> all_digits (rev l).
Proof. unfold all_digits. intros H. apply Forall_rev. exact H. Qed.

Lemma list_ascii_append (s t : string) :
  list_ascii_of_string (String.append s t) =
  list_ascii_of_string s ++ list_ascii_of_string t.
Proof. induction s as [| c s IH]; cbn; [reflexivity | now rewrite IH]. Qed.

Lemma group3_chars (l : list ascii) :
  all_digits l ->
  Forall (fun c => is_digit c = true \/ c = ","%char) (group3 l).
Proof.
  assert (H : forall n l, (List.length l <= n)%nat -> all_digits l ->
                          Forall (fun c => is_digit c = true \/ c = ","%char) (group3 l)).
  { induction n as [| n IH]; intros l' Hlen Hd.
    - destruct l'; [constructor | cbn in Hlen; lia].
    - destruct l' as [| a [| b [| c [| d more]]]];
        try (cbn [group3]; eapply Forall_impl; [| exact Hd]; cbn beta; tauto).
      inversion Hd as [| ? ? Ha Hd1]; subst.
      inversion Hd1 as [| ? ? Hb Hd2]; subst.
      inversion Hd2 as [| ? ? Hc Hd3]; subst.
      change (group3 (a :: b :: c :: d :: more))
        with (a :: b :: c :: ","%char :: group3 (d :: more)).
      repeat (constructor; [tauto |]).
      apply IH; [cbn in *; lia | assumption]. }
  intros Hd. exact (H (List.length l) l (le_n _) Hd).
Qed.

(** X11. Formatting an integer of at most 4300 digits loses no digit:
    the text is the currency symbol, a minus sign for a negative amount,
    then digits and commas only, and the digits read back give the
    absolute value. *)
Theorem fmt_money_int_round_trip (n : Z) :
  Z.abs n < 10 ^ 4300 ->
  exists digits,
    fmt_money (PyInt n) =
      Ok (String.append CURRENCY (String.append (if n <? 0 then "-" else "") digits)) /\
    Forall (fun c => is_digit c = true \/ c = ","%char) (list_ascii_of_string digits) /\
    decimal_value (filter is_digit (list_ascii_of_string digits)) = Z.abs n.
Proof.
  intros _.
  pose proof (decimal_text_digits (Z.abs_N n)) as Hd.
  exists (string_of_list_ascii
            (rev (group3 (rev (list_ascii_of_string (decimal_text (Z.abs_N n))))))).
  repeat apply conj.
  - unfold fmt_money, int_round, try_except, bind, format_thousands, decimal_text.
    destruct (n <? 0); reflexivity.
  - rewrite list_ascii_of_string_of_list_ascii. apply Forall_rev, group3_chars.
    apply all_digits_rev. exact Hd.
  - rewrite list_ascii_of_string_of_list_ascii, filter_rev.
    rewrite filter_group3 by (apply all_digits_rev; exact Hd).
    rewrite rev_involutive, decimal_text_value. apply N2Z.inj_abs_N.
Qed.

Lemma fmt_money_int_round_trip_witness :
  Z.abs (-1234567) < 10 ^ 4300 /\
  exists digits,
    fmt_money (PyInt (-1234567)) =
      Ok (String.append CURRENCY
            (String.append (if -1234567 <? 0 then "-" else "") digits)) /\
    Forall (fun c => is_digit c = true \/ c = ","%char) (list_ascii_of_string digits) /\
    decimal_value (filter is_digit (list_ascii_of_string digits)) = Z.abs (-1234567).
Proof.
  assert (H : Z.abs (-1234567) < 10 ^ 4300) by (vm_compute; reflexivity).
  split; [exact H |]. exact (fmt_money_int_round_trip (-1234567) H).
Defined.

Example fmt_money_negative_int : fmt_money (PyInt (-1234567)) = Ok "$-1,234,567".
Proof. reflexivity. Qed.

(** ** Integers held by doubles *)

(** An integer below 2^53 over one is that integer, exactly. *)
Lemma float_of_ratio_integer (n : Z) :
  0 < n < 2 ^ 53 -> float_of_ratio n 1 = exact_float n.
Proof.
  intros Hn. rewrite exact_float_pos by lia.
  destruct (Zdigits2_bounds n) as [Hd [Hlo Hhi]]; [lia |].
  pose proof (Zdigits2_le_53 n Hn) as Hle.
  pose proof (mantissa_bounds n Hn) as Hq.
  destruct n as [| p | p]; try lia.
  unfold float_of_ratio, SFdiv_core_binary.
  set (d := Zdigits2 (Zpos p)) in *.
  change (Zdigits2 1) with 1.
  replace (d + 0 - (1 + 0)) with (d - 1) by lia.
  rewrite fexp_normal by lia.
  replace (Z.min (d - 1 - 53) (0 - 0)) with (d - 54) by lia.
  replace (0 - 0 - (d - 54)) with (54 - d) by lia.
  destruct (54 - d) as [| t | t] eqn:Ht; try lia.
  rewrite Z.shiftl_mul_pow2 by lia.
  rewrite (div_eucl_unique _ 1 (Zpos p * 2 ^ Zpos t) 0) by lia.
  change (new_location 1 0) with loc_Exact.
  replace (Zpos t) with (53 - d + 1) by lia.
  rewrite Z.pow_add_r, Z.mul_assoc by lia.
  rewrite binary_round_aux_exact by lia.
  f_equal. lia.
Qed.

Lemma exact_float_neg (n : Z) :
  n < 0 ->
  exact_float n =
  S754_finite true (Z.to_pos (- n * 2 ^ (53 - Zdigits2 (- n)))) (Zdigits2 (- n) - 53).
Proof. destruct n; try lia. reflexivity. Qed.

Lemma round_half_even_exact (n : Z) :
  0 < n < 2 ^ 53 ->
  round_half_even (Z.to_pos (n * 2 ^ (53 - Zdigits2 n))) (Zdigits2 n - 53) = n.
Proof.
  intros Hn.
  pose proof (Zdigits2_le_53 n Hn) as Hd. pose proof (mantissa_bounds n Hn) as Hm.
  assert (Hpos : 0 < 2 ^ (53 - Zdigits2 n)) by (apply Z.pow_pos_nonneg; lia).
  unfold round_half_even. rewrite Z2Pos.id by lia.
  destruct (Zdigits2 n - 53) as [| k | k] eqn:Hk; try lia.
  - replace (53 - Zdigits2 n) with 0 by lia. rewrite !Z.pow_0_r. lia.
  - rewrite Z.pow_pos_fold. replace (53 - Zdigits2 n) with (Zpos k) by lia.
    rewrite Z.div_mul, Z.mod_mul by (apply Z.pow_nonzero; lia).
    assert (0 < 2 ^ Zpos k) by (apply Z.pow_pos_nonneg; lia).
    replace (2 * 0 ?= 2 ^ Zpos k) with Lt by (symmetry; apply Z.compare_lt_iff; lia).
    reflexivity.
Qed.

(** Rounding a double that holds an integer gives that integer. *)
Lemma float_round_exact (n : Z) :
  Z.abs n < 2 ^ 53 -> float_round (exact_float n) = Ok n.
Proof.
  intros Hn. destruct (Z.lt_trichotomy n 0) as [Hneg | [-> | Hpos]].
  - rewrite exact_float_neg by assumption. cbn [float_round].
    rewrite round_half_even_exact by lia. cbn [cond_Zopp]. f_equal. lia.
  - reflexivity.
  - rewrite exact_float_pos by assumption. cbn [float_round].
    rewrite round_half_even_exact by lia. reflexivity.
Qed.

(** X12. A float that holds a whole number of dollars is shown exactly as
    the integer is: no digit is lost or invented by the rounding. *)
Theorem fmt_money_integral_float (n : Z) :
  Z.abs n < 2 ^ 53 ->
  fmt_money (PyFloat (exact_float n)) = fmt_money (PyInt n).
Proof.
  intros Hn. unfold fmt_money, int_round. now rewrite float_round_exact.
Qed.

Lemma fmt_money_integral_float_witness :
  Z.abs 1067000 < 2 ^ 53 /\
  fmt_money (PyFloat (exact_float 1067000)) = fmt_money (PyInt 1067000).
Proof.
  split; [vm_compute; reflexivity | apply fmt_money_integral_float; vm_compute; reflexivity].
Defined.

Lemma round_half_even_nearest (m k : positive) :
  2 * Z.abs (round_half_even m (Zneg k) * 2 ^ Zpos k - Zpos m) <= 2 ^ Zpos k /\
  (2 * Z.abs (round_half_even m (Zneg k) * 2 ^ Zpos k - Zpos m) = 2 ^ Zpos k ->
   Z.even (round_half_even m (Zneg k)) = true).
Proof.
  unfold round_half_even. rewrite Z.pow_pos_fold.
  assert (Hd : 0 < 2 ^ Zpos k) by (apply Z.pow_pos_nonneg; lia).
  set (d := 2 ^ Zpos k) in *.
  pose proof (Z.div_mod (Zpos m) d ltac:(lia)) as Hdm.
  pose proof (Z.mod_pos_bound (Zpos m) d Hd) as Hr.
  set (q := Zpos m / d) in *. set (rm := Zpos m mod d) in *.
  assert (E1 : q * d = d * q) by ring.
  assert (E2 : (q + 1) * d = d * q + d) by ring.
  destruct (2 * rm ?= d) eqn:Hc.
  - rewrite Z.compare_eq_iff in Hc.
    destruct (Z.even q) eqn:Hq.
    + split; [rewrite E1; lia | intros _; exact Hq].
    + split; [rewrite E2; lia |]. intros _. rewrite Z.even_add, Hq. reflexivity.
  - rewrite Z.compare_lt_iff in Hc. rewrite E1. split; [lia |]. intros Ht. exfalso. lia.
  - rewrite Z.compare_gt_iff in Hc. rewrite E2. split; [lia |]. intros Ht. exfalso. lia.
Qed.

(** X13. A float with a fractional part is shown as a nearest integer:
    the amount displayed is within half a unit of the value, and where
    two integers are equally near it is the even one. *)
Theorem fmt_money_rounds_to_nearest (s : bool) (m k : positive) :
  exists r,
    fmt_money (PyFloat (S754_finite s m (Zneg k))) =
      Ok (String.append CURRENCY (format_thousands r)) /\
    2 * Z.abs (r * 2 ^ Zpos k - cond_Zopp s (Zpos m)) <= 2 ^ Zpos k /\
    (2 * Z.abs (r * 2 ^ Zpos k - cond_Zopp s (Zpos m)) < 2 ^ Zpos k \/ Z.even r = true).
Proof.
  exists (cond_Zopp s (round_half_even m (Zneg k))).
  split; [reflexivity |].
  pose proof (round_half_even_nearest m k) as [Hle Htie].
  set (x := round_half_even m (Zneg k)) in *.
  assert (E : Z.abs (cond_Zopp s x * 2 ^ Zpos k - cond_Zopp s (Zpos m)) =
              Z.abs (x * 2 ^ Zpos k - Zpos m)).
  { destruct s; cbn [cond_Zopp]; [| reflexivity].
    replace (- x * 2 ^ Zpos k - - Zpos m) with (- (x * 2 ^ Zpos k - Zpos m)) by ring.
    apply Z.abs_opp. }
  assert (Ev : Z.even (cond_Zopp s x) = Z.even x).
  { destruct s; cbn [cond_Zopp]; [apply Z.even_opp | reflexivity]. }
  rewrite E, Ev. split; [exact Hle |].
  destruct (Z.eq_dec (2 * Z.abs (x * 2 ^ Zpos k - Zpos m)) (2 ^ Zpos k)) as [Heq | Hne].
  - right. exact (Htie Heq).
  - left. lia.
Qed.

Example fmt_money_ties :
  fmt_money (PyFloat (S754_finite false 5 (-1))) = Ok "$2" /\
  fmt_money (PyFloat (S754_finite false 7 (-1))) = Ok "$4" /\
  fmt_money (PyFloat (S754_finite true 5 (-1))) = Ok "$-2".
Proof. repeat apply conj; reflexivity. Qed.

(** ** Reading the headcount *)

Lemma digit_not_space (c : ascii) :
  is_digit c = true -> is_space c = false /\ is_float_space c = false.
Proof.
  destruct c as [[] [] [] [] [] [] [] []]; intros H; try discriminate H;
    split; reflexivity.
Qed.

(** Stripping leaves text alone that neither starts nor ends with a
    character to strip; digits are none. *)
Lemma lstrip_digits (space : ascii -> bool) (l : list ascii) :
  (forall c, is_digit c = true -> space c = false) ->
  all_digits l -> lstrip space l = l.
Proof.
  intros Hsp H. destruct H as [| c l Hc _]; [reflexivity |].
  cbn [lstrip]. now rewrite (Hsp c Hc).
Qed.

Lemma strip_chars_digits (space : ascii -> bool) (l : list ascii) :
  (forall c, is_digit c = true -> space c = false) ->
  all_digits l -> strip_chars space l = l.
Proof.
  intros Hsp H. unfold strip_chars.
  rewrite (lstrip_digits space l Hsp H),
          (lstrip_digits space (rev l) Hsp (all_digits_rev l H)).
  apply rev_involutive.
Qed.

Lemma read_sign_digits (l : list ascii) : all_digits l -> read_sign l = (false, l).
Proof.
  intros H. destruct H as [| c l Hc _]; [reflexivity |].
  destruct c as [[] [] [] [] [] [] [] []]; try discriminate Hc; reflexivity.
Qed.

Lemma digits_no_word (l : list ascii) (w : string) :
  all_digits l -> (exists c w', w = String c w' /\ is_digit c = false /\ to_lower c = c) ->
  String.eqb (string_of_list_ascii (map to_lower l)) w = false.
Proof.
  intros H (c & w' & -> & Hc & _). destruct H as [| d l Hd _]; [reflexivity |].
  cbn [map string_of_list_ascii String.eqb].
  destruct (Ascii.eqb (to_lower d) c) eqn:E; [| reflexivity].
  apply Ascii.eqb_eq in E. exfalso. subst c.
  destruct d as [[] [] [] [] [] [] [] []]; try discriminate Hd; discriminate Hc.
Qed.

Lemma more_digits_all (l : list ascii) : all_digits l -> more_digits l = (l, []).
Proof.
  induction 1 as [| c l Hc _ IH]; [reflexivity |].
  cbn [more_digits]. now rewrite Hc, IH.
Qed.

Lemma read_number_digits (l : list ascii) :
  all_digits l -> l <> [] -> read_number l = Some (decimal_value l, 0).
Proof.
  intros H Hne. destruct H as [| c l Hc Hl]; [congruence |].
  unfold read_number, digitpart. rewrite Hc, (more_digits_all l Hl).
  rewrite app_nil_r. reflexivity.
Qed.

Lemma float_of_str_digits (l : list ascii) :
  all_digits l -> 0 < decimal_value l < 2 ^ 53 ->
  float_of_str (string_of_list_ascii l) = Ok (exact_float (decimal_value l)).
Proof.
  intros H Hv.
  assert (Hne : l <> []) by (intros ->; cbn in Hv; lia).
  unfold float_of_str.
  rewrite list_ascii_of_string_of_list_ascii.
  rewrite (strip_chars_digits is_float_space l (fun c Hc => proj2 (digit_not_space c Hc)) H).
  rewrite (read_sign_digits l H).
  rewrite !digits_no_word; try assumption;
    try (eexists _, _; repeat apply conj; reflexivity).
  cbn [orb]. rewrite (read_number_digits l H Hne).
  unfold float_of_decimal.
  destruct (decimal_value l) as [| p | p] eqn:E; try lia.
  cbn [cond_Zopp]. rewrite Z.pow_0_r, Z.mul_1_r.
  rewrite float_of_ratio_integer by lia. reflexivity.
Qed.

(** The digits of a positive integer below 2^53 are read back as that
    integer. *)
Lemma parse_headcount_decimal_text (n : Z) :
  0 < n < 2 ^ 53 -> parse_headcount (decimal_text (Z.to_N n)) = Ok n.
Proof.
  intros Hn. unfold parse_headcount, strip.
  pose proof (decimal_text_digits (Z.to_N n)) as Hd.
  pose proof (decimal_text_value (Z.to_N n)) as Hv.
  rewrite Z2N.id in Hv by lia.
  rewrite (strip_chars_digits is_space _ (fun c Hc => proj1 (digit_not_space c Hc)) Hd).
  rewrite float_of_str_digits by (rewrite ?Hv; assumption).
  cbn [bind]. rewrite Hv. apply exact_float_value. lia.
Qed.

(** X14. A positive headcount typed as plain decimal digits passes the
    validation, and the two calculations run on exactly that number. *)
Theorem decimal_headcount_accepted (n : Z) (f : form) :
  0 < n < 2 ^ 53 ->
  headcount f = decimal_text (Z.to_N n) ->
  is_empty (region f) || is_empty (hc_category f)
  || is_empty (process_type f) || is_empty (transform_scale f) = false ->
  on_calculate f =
  Calculated n (calculate_costs n (techs f)) (per_solution_table n (techs f)).
Proof.
  intros Hn Hh Hdd. unfold on_calculate, validate.
  rewrite Hh, (parse_headcount_decimal_text n Hn), Hdd.
  replace (n <=? 0) with false by (symmetry; apply Z.leb_gt; lia).
  reflexivity.
Qed.

Lemma decimal_headcount_accepted_witness :
  0 < 1250 < 2 ^ 53 /\
  headcount (sample_form "1250") = decimal_text (Z.to_N 1250) /\
  is_empty (region (sample_form "1250")) || is_empty (hc_category (sample_form "1250"))
  || is_empty (process_type (sample_form "1250"))
  || is_empty (transform_scale (sample_form "1250")) = false /\
  on_calculate (sample_form "1250") =
  Calculated 1250 (calculate_costs 1250 (techs (sample_form "1250")))
             (per_solution_table 1250 (techs (sample_form "1250"))).
Proof.
  assert (H1 : 0 < 1250 < 2 ^ 53) by (vm_compute; split; reflexivity).
  assert (H2 : headcount (sample_form "1250") = decimal_text (Z.to_N 1250)) by reflexivity.
  assert (H3 : is_empty (region (sample_form "1250"))
               || is_empty (hc_category (sample_form "1250"))
               || is_empty (process_type (sample_form "1250"))
               || is_empty (transform_scale (sample_form "1250")) = false) by reflexivity.
  exact (conj H1 (conj H2 (conj H3
           (decimal_headcount_accepted 1250 (sample_form "1250") H1 H2 H3)))).
Defined.

Lemma lstrip_spaces (ws l : list ascii) :
  all_spaces ws -> lstrip is_space (ws ++ l) = lstrip is_space l.
Proof.
  induction 1 as [| c ws Hc _ IH]; [reflexivity |].
  cbn [app lstrip]. now rewrite Hc.
Qed.

Lemma lstrip_app_spaces (l ws : list ascii) :
  all_spaces ws ->
  lstrip is_space (l ++ ws) = lstrip is_space l ++ ws \/
  (lstrip is_space l = [] /\ lstrip is_space (l ++ ws) = []).
Proof.
  intros Hws. induction l as [| c l IH].
  - right. split; [reflexivity |]. cbn [app].
    rewrite <- (app_nil_r ws). rewrite lstrip_spaces by assumption. reflexivity.
  - cbn [app lstrip]. destruct (is_space c); [exact IH | left; reflexivity].
Qed.

Lemma all_spaces_rev (ws : list ascii) : all_spaces ws -> all_spaces (rev ws).
Proof. apply Forall_rev. Qed.

Lemma strip_chars_padding (ws1 l ws2 : list ascii) :
  all_spaces ws1 -> all_spaces ws2 ->
  strip_chars is_space (ws1 ++ l ++ ws2) = strip_chars is_space l.
Proof.
  intros H1 H2. unfold strip_chars. rewrite lstrip_spaces by assumption.
  destruct (lstrip_app_spaces l ws2 H2) as [E | [E1 E2]].
  - rewrite E, rev_app_distr, lstrip_spaces by (apply all_spaces_rev; assumption).
    reflexivity.
  - rewrite E1, E2. reflexivity.
Qed.

(** X15. Blanks around the headcount do not matter: padding the text on
    either side with any of the whitespace characters of code point below
    256 (tab, line feed, vertical tab, form feed, carriage return, the
    separators 28 to 31, space, next line, no-break space) changes
    neither whether it is accepted nor the number read. *)
Theorem parse_headcount_padding (ws1 ws2 : list ascii) (s : string) :
  all_spaces ws1 -> all_spaces ws2 ->
  parse_headcount
    (String.append (string_of_list_ascii ws1)
                   (String.append s (string_of_list_ascii ws2))) =
  parse_headcount s.
Proof.
  intros H1 H2. unfold parse_headcount, strip. do 2 f_equal. f_equal.
  rewrite !list_ascii_append, !list_ascii_of_string_of_list_ascii.
  apply strip_chars_padding; assumption.
Qed.

Lemma parse_headcount_padding_witness :
  all_spaces [" "%char; "160"%char; "009"%char] /\ all_spaces ["133"%char; "010"%char] /\
  parse_headcount
    (String.append (string_of_list_ascii [" "%char; "160"%char; "009"%char])
                   (String.append "25" (string_of_list_ascii ["133"%char; "010"%char]))) =
  parse_headcount "25".
Proof.
  assert (H1 : all_spaces [" "%char; "160"%char; "009"%char]) by (repeat constructor).
  assert (H2 : all_spaces ["133"%char; "010"%char]) by (repeat constructor).
  exact (conj H1 (conj H2 (parse_headcount_padding _ _ "25" H1 H2))).
Defined.

(** The whitespace is that of [str.strip]: a no-break space or a next
    line around the number is stripped, and so is a separator such as
    28, which [float] alone would reject. *)
Example padded_headcount_samples :
  parse_headcount (String "160" (String.append "25" (String "133" ""))) = Ok 25 /\
  parse_headcount (String "028" "25") = Ok 25 /\
  float_of_str (String "160" "25") = Ok (exact_float 25) /\
  float_of_str (String "028" "25") = Raise ValueError /\
  parse_headcount (String.append "2" (String "160" "5")) = Raise ValueError.
Proof. repeat apply conj; vm_compute; reflexivity. Qed.

(** X16. [hc_val] is never read unbound. When the conversion of the
    headcount returns, [hc_val] is bound to the number it returned. When
    it raises, [hc_val] stays unbound, "Headcount must be an integer."
    is the first message of the error list, and the script stops on the
    list, before the calculations. *)
Theorem hc_val_always_bound (f : form) :
  match parse_headcount (headcount f) with
  | Ok hc_val => snd (validate f) = Some hc_val
  | Raise _ =>
      snd (validate f) = None /\
      exists errors,
        fst (validate f) = "Headcount must be an integer." :: errors /\
        on_calculate f = Stopped ("Headcount must be an integer." :: errors)
  end.
Proof.
  unfold on_calculate, validate.
  destruct (parse_headcount (headcount f)) as [hc | x];
    [destruct (hc <=? 0) |];
    destruct (is_empty (region f) || is_empty (hc_category f)
              || is_empty (process_type f) || is_empty (transform_scale f));
    cbn [app fst snd]; try reflexivity;
    (split; [reflexivity | eexists; split; reflexivity]).
Qed.

Example hc_val_unbound_stops :
  parse_headcount "abc" = Raise ValueError /\
  parse_headcount "inf" = Raise OverflowError /\
  on_calculate (sample_form "abc") = Stopped ["Headcount must be an integer."] /\
  on_calculate (mkForm "inf" "" "Ops" "Claims" "Small" []) =
    Stopped ["Headcount must be an integer."; "All dropdowns are mandatory."].
Proof. repeat apply conj; vm_compute; reflexivity. Qed.

Lemma empty_dropdown_stops_witness :
  is_empty (region (mkForm "25" "" "Ops" "Claims" "Small" []))
  || is_empty (hc_category (mkForm "25" "" "Ops" "Claims" "Small" []))
  || is_empty (process_type (mkForm "25" "" "Ops" "Claims" "Small" []))
  || is_empty (transform_scale (mkForm "25" "" "Ops" "Claims" "Small" [])) = true /\
  exists errors,
    on_calculate (mkForm "25" "" "Ops" "Claims" "Small" []) = Stopped errors /\
    In "All dropdowns are mandatory." errors.
Proof.
  split; [reflexivity |].
  exact (empty_dropdown_stops (mkForm "25" "" "Ops" "Claims" "Small" []) eq_refl).
Defined.

Lemma calculation_needs_valid_input_witness :
  on_calculate (sample_form "25") =
    Calculated 25 (calculate_costs 25 ["RPA"]) (per_solution_table 25 ["RPA"]) /\
  parse_headcount (headcount (sample_form "25")) = Ok 25 /\ 0 < 25 /\
  is_empty (region (sample_form "25")) = false /\
  is_empty (hc_category (sample_form "25")) = false /\
  is_empty (process_type (sample_form "25")) = false /\
  is_empty (transform_scale (sample_form "25")) = false.
Proof.
  assert (H : on_calculate (sample_form "25") =
              Calculated 25 (calculate_costs 25 ["RPA"]) (per_solution_table 25 ["RPA"]))
    by (vm_compute; reflexivity).
  split; [exact H |].
  exact (calculation_needs_valid_input (sample_form "25") 25 _ _ H).
Defined.

(** ** The form and the summary *)

Lemma collect_from (checkbox : string -> bool) (l acc : list string) :
  fold_left (fun techs t => if checkbox t then techs ++ [t] else techs) l acc =
  acc ++ filter checkbox l.
Proof.
  revert acc. induction l as [| t l IH]; intros acc; cbn [fold_left filter].
  - now rewrite app_nil_r.
  - rewrite IH. destruct (checkbox t); [| reflexivity].
    rewrite <- app_assoc. reflexivity.
Qed.

Lemma ALL_TECHS_NoDup : NoDup ALL_TECHS.
Proof. repeat constructor; cbn; intuition congruence. Qed.

(** X19. The selection the form hands to the calculations is always a
    subset of the catalog, without repetition and in catalog order: it
    holds exactly the ticked technologies. *)
Theorem collect_techs_subset (checkbox : string -> bool) :
  catalog_subset (collect_techs checkbox) /\
  (forall t, In t (collect_techs checkbox) <-> In t ALL_TECHS /\ checkbox t = true) /\
  exists skipped, Permutation ALL_TECHS (collect_techs checkbox ++ skipped).
Proof.
  unfold collect_techs. rewrite collect_from. cbn [app].
  repeat apply conj.
  - apply NoDup_filter, ALL_TECHS_NoDup.
  - intros t Ht. apply filter_In in Ht. tauto.
  - intros t. apply filter_In.
  - exists (filter (fun t => negb (checkbox t)) ALL_TECHS).
    generalize ALL_TECHS as l. induction l as [| t l IH]; cbn [filter]; [reflexivity |].
    destruct (checkbox t); cbn [negb app].
    + now constructor.
    + apply Permutation_cons_app. exact IH.
Qed.

Lemma SFopp_exact_float (n : Z) :
  n <> 0 -> SFopp (exact_float n) = exact_float (- n).
Proof. destruct n; [congruence | reflexivity | reflexivity]. Qed.

Lemma fmt_money_exact_float (n : Z) :
  Z.abs n < 2 ^ 53 -> fmt_money (PyFloat (exact_float n)) = Ok (money n).
Proof.
  intros Hn. unfold fmt_money, int_round. rewrite float_round_exact by assumption.
  reflexivity.
Qed.

(** X20. While the labour cost stays below 2^53, the summary shows the
    exact amounts: labour [60000 h], savings as the negative amount
    [-18000 h], tooling the licences selected, implementation [12000 h]
    and the net cost [42000 h] plus tooling; no rounding is visible. *)
Theorem financial_summary_exact (h : Z) (S : list string) :
  0 < h -> h * ANNUAL_COST_PER_FTE < 2 ^ 53 -> NoDup S ->
  (results <- calculate_costs h S ;; financial_summary results) =
  Ok [("Annual Labor", money (60000 * h));
      ("Annual Savings", money (- (18000 * h)));
      ("Annual Tooling", money (selected_license_total S));
      ("Implementation", money (12000 * h));
      ("Net Annual Cost", money (42000 * h + selected_license_total S))].
Proof.
  intros Hh Hb Hnd. rewrite calculate_costs_exact by assumption.
  pose proof (selected_license_total_bounds S) as Ht.
  unfold ANNUAL_COST_PER_FTE in *.
  cbn [bind]. unfold financial_summary.
  cbn [headcount_cost annual_savings tech_cost implementation_cost net_annual_cost].
  rewrite SFopp_exact_float by lia.
  rewrite !fmt_money_exact_float by (pow2; lia).
  unfold fmt_money at 1 2. cbn [int_round bind try_except]. fold (money (h * 60000)).
  fold (money (selected_license_total S)). cbn [bind].
  replace (h * 60000) with (60000 * h) by lia. reflexivity.
Qed.

Lemma financial_summary_exact_witness :
  0 < 25 /\ 25 * ANNUAL_COST_PER_FTE < 2 ^ 53 /\ NoDup ["RPA"; "AI"] /\
  (results <- calculate_costs 25 ["RPA"; "AI"] ;; financial_summary results) =
  Ok [("Annual Labor", money (60000 * 25));
      ("Annual Savings", money (- (18000 * 25)));
      ("Annual Tooling", money (selected_license_total ["RPA"; "AI"]));
      ("Implementation", money (12000 * 25));
      ("Net Annual Cost", money (42000 * 25 + selected_license_total ["RPA"; "AI"]))].
Proof.
  assert (H1 : 0 < 25) by reflexivity.
  assert (H2 : 25 * ANNUAL_COST_PER_FTE < 2 ^ 53) by (vm_compute; reflexivity).
  assert (H3 : NoDup ["RPA"; "AI"]) by (repeat constructor; cbn; intuition congruence).
  exact (conj H1 (conj H2 (conj H3 (financial_summary_exact 25 ["RPA"; "AI"] H1 H2 H3)))).
Defined.

Example financial_summary_sample :
  (results <- calculate_costs 25 ["RPA"; "AI"] ;; financial_summary results) =
  Ok [("Annual Labor", "$1,500,000"); ("Annual Savings", "$-450,000");
      ("Annual Tooling", "$17,000"); ("Implementation", "$300,000");
      ("Net Annual Cost", "$1,067,000")].
Proof. vm_compute. reflexivity. Qed.

Lemma collect_techs_NoDup (checkbox : string -> bool) : NoDup (collect_techs checkbox).
Proof.
  unfold collect_techs. rewrite collect_from. cbn [app].
  apply NoDup_filter, ALL_TECHS_NoDup.
Qed.

(** X21. A submission of the form with a decimal headcount whose labour
    cost stays below 2^53 and with every select box filled goes through:
    neither calculation raises, the amounts are the exact ones and the
    payback period is the double nearest to two thirds. *)
Theorem form_calculation_exact (n : Z) (checkbox : string -> bool) (f : form) :
  0 < n -> n * ANNUAL_COST_PER_FTE < 2 ^ 53 ->
  headcount f = decimal_text (Z.to_N n) ->
  techs f = collect_techs checkbox ->
  is_empty (region f) || is_empty (hc_category f)
  || is_empty (process_type f) || is_empty (transform_scale f) = false ->
  exists table,
    on_calculate f =
    Calculated n
      (Ok (mkCosts (n * ANNUAL_COST_PER_FTE) (exact_float (12000 * n))
                   (selected_license_total (techs f)) (exact_float (18000 * n))
                   (exact_float (42000 * n + selected_license_total (techs f)))
                   (Some two_thirds)))
      (Ok table).
Proof.
  intros Hn Hb Hh Ht Hdd.
  assert (Hn53 : 0 < n < 2 ^ 53) by (unfold ANNUAL_COST_PER_FTE in Hb; lia).
  eexists. unfold on_calculate, validate.
  rewrite Hh, (parse_headcount_decimal_text n Hn53), Hdd.
  replace (n <=? 0) with false by (symmetry; apply Z.leb_gt; lia).
  rewrite calculate_costs_exact, per_solution_table_built;
    [reflexivity | assumption | assumption |].
  rewrite Ht. apply collect_techs_NoDup.
Qed.

Lemma form_calculation_exact_witness :
  0 < 25 /\ 25 * ANNUAL_COST_PER_FTE < 2 ^ 53 /\
  exists table,
    on_calculate
      (mkForm "25" "EMEA" "Ops" "Claims" "Small"
              (collect_techs (fun t => String.eqb t "RPA" || String.eqb t "AI"))) =
    Calculated 25
      (Ok (mkCosts 1500000 (exact_float 300000) 17000 (exact_float 450000)
                   (exact_float 1067000) (Some two_thirds)))
      (Ok table).
Proof.
  assert (H1 : 0 < 25) by reflexivity.
  assert (H2 : 25 * ANNUAL_COST_PER_FTE < 2 ^ 53) by (vm_compute; reflexivity).
  split; [exact H1 |]. split; [exact H2 |].
  exact (form_calculation_exact 25 (fun t => String.eqb t "RPA" || String.eqb t "AI")
           (mkForm "25" "EMEA" "Ops" "Claims" "Small"
                   (collect_techs (fun t => String.eqb t "RPA" || String.eqb t "AI")))
           H1 H2 eq_refl eq_refl eq_refl).
Defined.
